(** * Blackjack: a shallow embedding of [blackjack.py] and its round rules

    The Python program keeps its state in mutable objects (cards whose
    [points] change, hands that cache a [value], players with a bankroll).
    Every card object lives in exactly one container at a time (the deck, or
    one hand), so a mutation of [card.points] is modelled as an update of the
    card where it sits.  Console input is a list of lines consumed from the
    front; console output and [sleep] have no effect on the state and are
    left out.  Python exceptions are the [Err] results of an error monad. *)

From Stdlib Require Import ZArith List String Ascii Bool Lia Permutation.
From Stdlib Require Import SpecFloat.
Import ListNotations.

Local Open Scope string_scope.
Local Open Scope list_scope.
Local Open Scope Z_scope.

(** ** Errors *)

Inductive exn : Type :=
| EOFError          (* input() at the end of the input *)
| ValueError        (* int() of a line that is no integer; float to int of inf/nan *)
| IndexError        (* pop from an empty list, index out of range *)
| TypeError         (* arithmetic on None, subscript of None *)
| AttributeError    (* attribute of None *)
| OverflowError.    (* int too large to convert to float *)

Inductive result (A : Type) : Type :=
| Ok (a : A)
| Err (e : exn).

Arguments Ok {A} a.
Arguments Err {A} e.

Definition bind {A B : Type} (r : result A) (k : A -> result B) : result B :=
  match r with
  | Ok a => k a
  | Err e => Err e
  end.

Notation "x <- r ;; k" := (bind r (fun x => k))
  (at level 61, r at next level, right associativity).
Notation "' p <- r ;; k" := (bind r (fun p => k))
  (at level 61, p pattern, r at next level, right associativity).

(** ** Cards and the deck *)

Definition SUITS : list string := ["♠"; "♥"; "♦"; "♣"].

Definition RANKS_POINTS : list (string * Z) :=
  [("A", 11); ("2", 2); ("3", 3); ("4", 4); ("5", 5); ("6", 6); ("7", 7);
   ("8", 8); ("9", 9); ("10", 10); ("J", 10); ("Q", 10); ("K", 10)].

Definition LIMIT : Z := 21.

Record Card : Type := mkCard { name : string; points : Z }.

Definition set_points (c : Card) (p : Z) : Card := mkCard (name c) p.

(** [card.name.startswith("A")] *)
Definition is_ace (c : Card) : bool := String.prefix "A" (name c).

(** Names are Python strings, kept here in UTF-8: the first byte of a
    character tells how many bytes the character takes. *)
Definition utf8_width (a : ascii) : nat :=
  let n := N_of_ascii a in
  if (n <? 192)%N then 1%nat
  else if (n <? 224)%N then 2%nat
  else if (n <? 240)%N then 3%nat
  else 4%nat.

(** [card.name[0]]: the first character of the name, a string of one
    character; IndexError on the empty name. *)
Definition name0 (c : Card) : result string :=
  match name c with
  | EmptyString => Err IndexError
  | String a rest => Ok (String a (substring 0 (utf8_width a - 1) rest))
  end.

(** The deck is a stack ("A stack of all cards"): the program only appends
    to it while building it, shuffles it, and pops its last element.  It is
    kept here top card first, so that the Python list is the reverse of the
    Rocq list and [deck.pop()] takes the head. *)
Definition Deck := list Card.

(** [Deck.__init__] before [shuffle]: suits outside, ranks inside. *)
Definition Deck_unshuffled : Deck :=
  rev (flat_map (fun suit =>
    map (fun rp => mkCard (String.append (fst rp) suit) (snd rp)) RANKS_POINTS)
    SUITS).

(** [Deck.deal] *)
Definition deal (deck : Deck) : result (Card * Deck) :=
  match deck with
  | [] => Err IndexError
  | c :: rest => Ok (c, rest)
  end.

(** [list.pop()] on a hand: the last element, and the list without it. *)
Fixpoint pop {A : Type} (l : list A) : result (A * list A) :=
  match l with
  | [] => Err IndexError
  | [x] => Ok (x, [])
  | x :: r => '(y, r') <- pop r ;; Ok (y, x :: r')
  end.

(** ** Hands *)

Record Hand : Type := mkHand {
  cards : list Card;
  value : Z;
  blackjack : bool
}.

(** [Hand.__init__] *)
Definition Hand_init : Hand := mkHand [] 0 false.

(** [Hand.add_card]: the card is appended, an Ace that arrives on a value
    above 10 has its points set to 1, and the card's points are added. *)
Definition add_card (h : Hand) (card : Card) : Hand :=
  let card' := if is_ace card && (10 <? value h) then set_points card 1 else card in
  mkHand (cards h ++ [card']) (value h + points card') (blackjack h).

(** [Hand.check_blackjack] *)
Definition check_blackjack (h : Hand) : Hand :=
  mkHand (cards h) (value h)
         ((Nat.eqb (List.length (cards h)) 2) && (value h =? LIMIT)).

(** The [for card in self] loop of [Hand.reset_ace_value]: one pass over
    the cards, front to back, with the running value. *)
Fixpoint demote_aces (cs : list Card) (v : Z) : list Card * Z :=
  match cs with
  | [] => ([], v)
  | card :: rest =>
      if is_ace card && (points card =? 11)
      then let '(rest', v') := demote_aces rest (v - 10) in
           (set_points card 1 :: rest', v')
      else let '(rest', v') := demote_aces rest v in
           (card :: rest', v')
  end.

(** [Hand.reset_ace_value] *)
Definition reset_ace_value (h : Hand) : Hand :=
  if LIMIT <? value h
  then let '(cs, v) := demote_aces (cards h) (value h) in
       mkHand cs v (blackjack h)
  else h.

(** [Hand.draw_card] *)
Definition draw_card (h : Hand) (deck : Deck) : result (Hand * Deck) :=
  '(new_card, deck') <- deal deck ;;
  Ok (reset_ace_value (add_card h new_card), deck').

(** ** Players and the dealer *)

Record Player : Type := mkPlayer {
  pname : string;
  money : Z;
  cashout : bool;
  hand : Hand;
  wager : Z;
  stand : bool;
  second_hand : option Hand;
  second_wager : option Z
}.

(** [Player.__init__]; the per-round attributes only exist after
    [reset_for_new_round], whose values they are given here. *)
Definition Player_init (n : string) : Player :=
  mkPlayer n 1000 false Hand_init 0 false None None.

Definition set_money (p : Player) (m : Z) : Player :=
  mkPlayer (pname p) m (cashout p) (hand p) (wager p) (stand p)
           (second_hand p) (second_wager p).

Definition set_hand (p : Player) (h : Hand) : Player :=
  mkPlayer (pname p) (money p) (cashout p) h (wager p) (stand p)
           (second_hand p) (second_wager p).

Definition set_wager (p : Player) (w : Z) : Player :=
  mkPlayer (pname p) (money p) (cashout p) (hand p) w (stand p)
           (second_hand p) (second_wager p).

Definition set_stand (p : Player) (b : bool) : Player :=
  mkPlayer (pname p) (money p) (cashout p) (hand p) (wager p) b
           (second_hand p) (second_wager p).

Definition set_second_hand (p : Player) (h : option Hand) : Player :=
  mkPlayer (pname p) (money p) (cashout p) (hand p) (wager p) (stand p)
           h (second_wager p).

Definition set_second_wager (p : Player) (w : option Z) : Player :=
  mkPlayer (pname p) (money p) (cashout p) (hand p) (wager p) (stand p)
           (second_hand p) w.

Definition set_cashout (p : Player) (b : bool) : Player :=
  mkPlayer (pname p) (money p) b (hand p) (wager p) (stand p)
           (second_hand p) (second_wager p).

Record Dealer : Type := mkDealer { dhand : Hand }.

(** ** Console input

    A line of input is modelled by what the program observes of it:
    [int(line)] and [line.upper()] compared with the one-letter choices.
    [Num n] is a line that [int] reads as [n] (its upper case is none of the
    letters); [Key k] is any other line, with [k] the letter its upper case
    equals, if any. *)

Inductive key : Type := KH | KS | KD | KP | KY | KN | KOther.

Inductive line : Type :=
| Num (n : Z)
| Key (k : key).

(** [int(line)] *)
Definition int_of_line (l : line) : result Z :=
  match l with
  | Num n => Ok n
  | Key _ => Err ValueError
  end.

(** [line.upper()], as far as it is compared with the menu letters *)
Definition upper (l : line) : key :=
  match l with
  | Num _ => KOther
  | Key k => k
  end.

Definition key_eqb (a b : key) : bool :=
  match a, b with
  | KH, KH | KS, KS | KD, KD | KP, KP | KY, KY | KN, KN | KOther, KOther => true
  | _, _ => false
  end.

(** ** Betting *)

(** [validate_wager] *)
Definition validate_wager (wager maximum : Z) : bool :=
  if maximum <? wager then false else true.

(** [Player.make_bet]: lines are read until one passes [validate_wager]. *)
Fixpoint make_bet (p : Player) (inp : list line) : result (Player * list line) :=
  match inp with
  | [] => Err EOFError
  | l :: rest =>
      w <- int_of_line l ;;
      if negb (validate_wager w (money p))
      then make_bet p rest
      else Ok (set_money (set_wager p w) (money p - w), rest)
  end.

(** The two hands a player can hold.  [double_down] and the decision loops
    receive [player.hand] or [player.second_hand], an alias of the object the
    player owns: the selector says which one. *)
Inductive which : Type := First | Second.

(** [player.hand] / [player.second_hand] as a hand whose [value] is read
    or that draws a card: on [None] that is an AttributeError. *)
Definition get_hand (p : Player) (w : which) : result Hand :=
  match w with
  | First => Ok (hand p)
  | Second => match second_hand p with
              | Some h => Ok h
              | None => Err AttributeError
              end
  end.

Definition put_hand (p : Player) (w : which) (h : Hand) : Player :=
  match w with
  | First => set_hand p h
  | Second => set_second_hand p (Some h)
  end.

(** [double_down(player, hand, deck, wager)]: lines are read until one
    passes [validate_wager] against [min(wager, player.money)]; then the
    bankroll pays the additional wager, the hand draws one card and the
    player stands.  The new wager is returned (the caller stores it). *)
Fixpoint double_down (player : Player) (hd : which) (deck : Deck) (wager : Z)
         (inp : list line)
  : result (Player * Deck * Z * list line) :=
  let max_wager := Z.min wager (money player) in
  match inp with
  | [] => Err EOFError
  | l :: rest =>
      additional_wager <- int_of_line l ;;
      if negb (validate_wager additional_wager max_wager)
      then double_down player hd deck wager rest
      else
        let player1 := set_money player (money player - additional_wager) in
        h <- get_hand player1 hd ;;
        '(h', deck') <- draw_card h deck ;;
        Ok (set_stand (put_hand player1 hd h') true,
            deck', wager + additional_wager, rest)
  end.

(** ** The natural-blackjack bonus: [int(1.5 * wager)]

    [1.5 * wager] converts the integer to a double (round to nearest, ties to
    even; OverflowError when it is too large), multiplies two doubles and
    [int] truncates the product toward zero.  Doubles are the binary64 floats
    of the standard library's [SpecFloat]. *)

Definition prec : Z := 53.
Definition emax : Z := 1024.

(** [float(n)] for a Python int *)
Definition float_of_int (n : Z) : result spec_float :=
  match binary_normalize prec emax n 0 false with
  | S754_infinity _ => Err OverflowError
  | f => Ok f
  end.

(** The literal [1.5] = 3 * 2^51 * 2^-52 *)
Definition one_and_half : spec_float := S754_finite false 6755399441055744 (-52).

(** [int(f)] for a float: truncation toward zero *)
Definition int_of_float (f : spec_float) : result Z :=
  match f with
  | S754_zero _ => Ok 0
  | S754_infinity _ => Err OverflowError
  | S754_nan => Err ValueError
  | S754_finite s m e => Ok (cond_Zopp s (Z.shiftl (Zpos m) e))
  end.

(** [player.wager + int(1.5 * player.wager)] *)
Definition natural_winnings (wager : Z) : result Z :=
  f <- float_of_int wager ;;
  i <- int_of_float (SFmul prec emax one_and_half f) ;;
  Ok (wager + i).

(** ** Settlement *)

Fixpoint mapM {A B : Type} (f : A -> result B) (l : list A) : result (list B) :=
  match l with
  | [] => Ok []
  | a :: r => b <- f a ;; r' <- mapM f r ;; Ok (b :: r')
  end.

(** Body of the loop of [payout_natural_blackjacks] *)
Definition payout_natural_blackjack (player : Player) : result Player :=
  if blackjack (hand player)
  then winnings <- natural_winnings (wager player) ;;
       Ok (set_money player (money player + winnings))
  else Ok player.

(** [payout_natural_blackjacks] *)
Definition payout_natural_blackjacks (players : list Player) : result (list Player) :=
  mapM payout_natural_blackjack players.

(** Body of the loop of [handle_dealer_blackjack] *)
Definition handle_dealer_blackjack_player (player : Player) : Player :=
  if blackjack (hand player)
  then set_money player (money player + wager player)
  else set_stand player true.

(** [handle_dealer_blackjack] *)
Definition handle_dealer_blackjack (players : list Player) : list Player :=
  map handle_dealer_blackjack_player players.

(** A wager that may still be [None]: arithmetic on it is a TypeError. *)
Definition int_of (w : option Z) : result Z :=
  match w with
  | Some n => Ok n
  | None => Err TypeError
  end.

(** [payout_hand]; the hand itself is only printed. *)
Definition payout_hand (player : Player) (player_wager : option Z) : result Player :=
  w <- int_of player_wager ;;
  let winnings := 2 * w in
  Ok (set_money player (money player + winnings)).

(** Truth value of [player.second_hand]: [None] and an empty hand are false. *)
Definition truthy (h : option Hand) : option Hand :=
  match h with
  | Some h' => match cards h' with [] => None | _ => Some h' end
  | None => None
  end.

(** Body of the loop of [payout_after_dealer_bust] *)
Definition payout_after_dealer_bust_player (player : Player) : result Player :=
  if stand player then
    player1 <- (if value (hand player) <=? LIMIT
                then payout_hand player (Some (wager player))
                else Ok player) ;;
    match truthy (second_hand player1) with
    | Some h2 =>
        if value h2 <=? LIMIT
        then payout_hand player1 (second_wager player1)
        else Ok player1
    | None => Ok player1
    end
  else Ok player.

(** [payout_after_dealer_bust] *)
Definition payout_after_dealer_bust (players : list Player) : result (list Player) :=
  mapM payout_after_dealer_bust_player players.

(** [compare_hand] *)
Definition compare_hand (player : Player) (player_hand dealer_hand : Hand)
           (player_wager : option Z) : result Player :=
  if value player_hand <? value dealer_hand then Ok player
  else if value dealer_hand =? value player_hand then
    w <- int_of player_wager ;;
    Ok (set_money player (money player + w))
  else payout_hand player player_wager.

(** Body of the loop of [compare_multiple_hands] *)
Definition compare_multiple_hands_player (dealer : Dealer) (player : Player)
  : result Player :=
  if stand player then
    player1 <- (if value (hand player) <=? LIMIT
                then compare_hand player (hand player) (dhand dealer)
                                  (Some (wager player))
                else Ok player) ;;
    match truthy (second_hand player1) with
    | Some h2 =>
        if value h2 <=? LIMIT
        then compare_hand player1 h2 (dhand dealer) (second_wager player1)
        else Ok player1
    | None => Ok player1
    end
  else Ok player.

(** [compare_multiple_hands] *)
Definition compare_multiple_hands (players : list Player) (dealer : Dealer)
  : result (list Player) :=
  mapM (compare_multiple_hands_player dealer) players.

(** The [while dealer.hand.value < 17] loop of [resolve_dealer_hand]; every
    turn of the loop takes a card off the deck. *)
Fixpoint dealer_draws (deck : Deck) (h : Hand) : result (Hand * Deck) :=
  if value h <? 17 then
    match deck with
    | [] => Err IndexError
    | new_card :: deck' => dealer_draws deck' (reset_ace_value (add_card h new_card))
    end
  else Ok (h, deck).

(** [resolve_dealer_hand] *)
Definition resolve_dealer_hand (deck : Deck) (dealer : Dealer) (players : list Player)
  : result (list Player * Dealer * Deck) :=
  '(h, deck') <- dealer_draws deck (dhand dealer) ;;
  let dealer' := mkDealer h in
  players' <- (if LIMIT <? value h
               then payout_after_dealer_bust players
               else compare_multiple_hands players dealer') ;;
  Ok (players', dealer', deck').

(** ** Splitting *)

(** [Player.split_hand] *)
Definition split_hand (p : Player) (deck : Deck) : result (Player * Deck) :=
  '(split_card, rest) <- pop (cards (hand p)) ;;
  let hand1 := mkHand rest (value (hand p) - points split_card) (blackjack (hand p)) in
  let split_card' := if is_ace split_card then set_points split_card 11 else split_card in
  let second1 := add_card Hand_init split_card' in
  '(c1, deck1) <- deal deck ;;
  let hand2 := add_card hand1 c1 in
  '(c2, deck2) <- deal deck1 ;;
  let second2 := add_card second1 c2 in
  let second_wager' := wager p in
  Ok (mkPlayer (pname p) (money p - second_wager') (cashout p) hand2 (wager p)
               (stand p) (Some second2) (Some second_wager'),
      deck2).

(** The condition under which the menu of the first hand offers s[P]lit:
    [len(player.hand) == 2 and player.hand[0].name[0] == player.hand[1].name[0]
     and player.second_hand == None and player.money >= player.wager] *)
Definition split_offered (p : Player) : result bool :=
  match cards (hand p) with
  | [c0; c1] =>
      a0 <- name0 c0 ;;
      a1 <- name0 c1 ;;
      Ok (String.eqb a0 a1
          && (match second_hand p with None => true | Some _ => false end)
          && (wager p <=? money p))
  | _ => Ok false
  end.

(** [hand[0]] *)
Definition first_card (h : Hand) : result Card :=
  match cards h with
  | [] => Err IndexError
  | c :: _ => Ok c
  end.

(** [player.hand[0].name.startswith("A") and
     player.second_hand[0].name.startswith("A")] *)
Definition split_aces (p : Player) : result bool :=
  c0 <- first_card (hand p) ;;
  if is_ace c0 then
    match second_hand p with
    | Some h2 => c1 <- first_card h2 ;; Ok (is_ace c1)
    | None => Err TypeError
    end
  else Ok false.

(** ** A player's turn *)

(** The [while player.hand.value < LIMIT] loop.  Every turn of the loop
    reads a line; [break] leaves the loop with the state reached. *)
Fixpoint first_hand_loop (player : Player) (deck : Deck) (inp : list line)
  : result (Player * Deck * list line) :=
  if value (hand player) <? LIMIT then
    match inp with
    | [] => Err EOFError
    | l :: rest =>
        let choice := upper l in
        offered <- split_offered player ;;
        '(player1, deck1, broke) <-
          (if offered then
             if key_eqb choice KP then
               '(p', d') <- split_hand player deck ;;
               aces <- split_aces p' ;;
               if aces then Ok (set_stand p' true, d', true)
               else Ok (p', d', false)
             else Ok (player, deck, false)
           else Ok (player, deck, false)) ;;
        if broke then Ok (player1, deck1, rest)
        else
          match choice with
          | KH =>
              '(h, deck2) <- draw_card (hand player1) deck1 ;;
              first_hand_loop (set_hand player1 h) deck2 rest
          | KS => Ok (set_stand player1 true, deck1, rest)
          | KD =>
              '(player2, deck2, w, rest') <-
                double_down player1 First deck1 (wager player1) rest ;;
              Ok (set_wager player2 w, deck2, rest')
          | _ => first_hand_loop player1 deck1 rest
          end
    end
  else Ok (player, deck, inp).

(** The [while player.second_hand.value < LIMIT] loop. *)
Fixpoint second_hand_loop (player : Player) (deck : Deck) (inp : list line)
  : result (Player * Deck * list line) :=
  h2 <- get_hand player Second ;;
  if value h2 <? LIMIT then
    match inp with
    | [] => Err EOFError
    | l :: rest =>
        match upper l with
        | KH =>
            '(h, deck1) <- draw_card h2 deck ;;
            second_hand_loop (set_second_hand player (Some h)) deck1 rest
        | KS => Ok (set_stand player true, deck, rest)
        | KD =>
            w0 <- int_of (second_wager player) ;;
            '(player1, deck1, w, rest') <- double_down player Second deck w0 rest ;;
            Ok (set_second_wager player1 (Some w), deck1, rest')
        | _ => second_hand_loop player deck rest
        end
    end
  else Ok (player, deck, inp).

(** The two tests that follow the loop of the first hand. *)
Definition after_first_hand (player : Player) : Player :=
  let player1 := if value (hand player) =? LIMIT then set_stand player true else player in
  if LIMIT <? value (hand player1) then set_stand player1 false else player1.

(** The two tests that follow the loop of the second hand. *)
Definition after_second_hand (player : Player) (h2 : Hand) : Player :=
  let player1 := if value h2 =? LIMIT then set_stand player true else player in
  if LIMIT <? value h2 then
    if negb (stand player1) then set_stand player1 false else player1
  else player1.

(** Body of the player loop of [play_game]. *)
Definition player_turn (player : Player) (deck : Deck) (inp : list line)
  : result (Player * Deck * list line) :=
  if negb (blackjack (hand player)) && negb (stand player) then
    '(player1, deck1, inp1) <- first_hand_loop player deck inp ;;
    let player2 := after_first_hand player1 in
    match truthy (second_hand player2) with
    | Some h2 =>
        c <- first_card h2 ;;
        if negb (is_ace c) then
          '(player3, deck3, inp3) <- second_hand_loop player2 deck1 inp1 ;;
          h2' <- get_hand player3 Second ;;
          Ok (after_second_hand player3 h2', deck3, inp3)
        else Ok (player2, deck1, inp1)
    | None => Ok (player2, deck1, inp1)
    end
  else Ok (player, deck, inp).

(** [for player in players: ...] with the deck and the input threaded. *)
Fixpoint players_turns (players : list Player) (deck : Deck) (inp : list line)
  : result (list Player * Deck * list line) :=
  match players with
  | [] => Ok ([], deck, inp)
  | player :: others =>
      '(player', deck1, inp1) <- player_turn player deck inp ;;
      '(others', deck2, inp2) <- players_turns others deck1 inp1 ;;
      Ok (player' :: others', deck2, inp2)
  end.

(** ** A round *)

(** [reset_for_new_round] *)
Definition reset_player (p : Player) : Player :=
  mkPlayer (pname p) (money p) (cashout p) Hand_init 0 false None None.

Definition reset_for_new_round (players : list Player) : list Player * Dealer :=
  (map reset_player players, mkDealer Hand_init).

(** [for player in players: player.make_bet()] *)
Fixpoint make_bets (players : list Player) (inp : list line)
  : result (list Player * list line) :=
  match players with
  | [] => Ok ([], inp)
  | p :: others =>
      '(p', inp1) <- make_bet p inp ;;
      '(others', inp2) <- make_bets others inp1 ;;
      Ok (p' :: others', inp2)
  end.

(** One pass of the outer loop of [deal_hands]: a card to every player in
    turn, then one to the dealer. *)
Fixpoint deal_to_players (deck : Deck) (players : list Player)
  : result (list Player * Deck) :=
  match players with
  | [] => Ok ([], deck)
  | p :: others =>
      '(c, deck1) <- deal deck ;;
      '(others', deck2) <- deal_to_players deck1 others ;;
      Ok (set_hand p (add_card (hand p) c) :: others', deck2)
  end.

Definition deal_pass (deck : Deck) (players : list Player) (dealer : Dealer)
  : result (list Player * Dealer * Deck) :=
  '(players', deck1) <- deal_to_players deck players ;;
  '(c, deck2) <- deal deck1 ;;
  Ok (players', mkDealer (add_card (dhand dealer) c), deck2).

(** [deal_hands] *)
Definition deal_hands (deck : Deck) (players : list Player) (dealer : Dealer)
  : result (list Player * Dealer * Deck) :=
  '(players1, dealer1, deck1) <- deal_pass deck players dealer ;;
  deal_pass deck1 players1 dealer1.

(** [Player.reveal_initial_hand] *)
Definition reveal_initial_hand (p : Player) : Player :=
  set_hand p (check_blackjack (hand p)).

(** [Dealer.reveal_faceup]: [self.hand[-1]] *)
Definition reveal_faceup (dealer : Dealer) : result Card :=
  '(faceup, _) <- pop (cards (dhand dealer)) ;;
  Ok faceup.

(** [faceup.points == 10 or faceup.name.startswith("A")] *)
Definition peek_condition (faceup : Card) : bool :=
  (points faceup =? 10) || is_ace faceup.

(** The natural-blackjack step of [play_game], from [reveal_faceup] to the
    immediate payouts. *)
Definition natural_check (players : list Player) (dealer : Dealer)
  : result (list Player * Dealer) :=
  faceup <- reveal_faceup dealer ;;
  if peek_condition faceup then
    let dealer1 := mkDealer (check_blackjack (dhand dealer)) in
    if blackjack (dhand dealer1)
    then Ok (handle_dealer_blackjack players, dealer1)
    else players' <- payout_natural_blackjacks players ;; Ok (players', dealer1)
  else players' <- payout_natural_blackjacks players ;; Ok (players', dealer).

(** The loop that starts the dealer's turn: [resolve_dealer_hand] runs once,
    at the first standing player, unless the dealer holds a blackjack. *)
Definition dealer_turn (players : list Player) (dealer : Dealer) (deck : Deck)
  : result (list Player * Dealer * Deck) :=
  if existsb (fun player => stand player && negb (blackjack (dhand dealer))) players
  then resolve_dealer_hand deck dealer players
  else Ok (players, dealer, deck).

(** [remove_bankrupt_players] *)
Definition remove_bankrupt_players (players : list Player) : list Player :=
  filter (fun player => negb (money player =? 0)) players.

(** [Player.cash_out] *)
Definition cash_out (p : Player) : Player := set_cashout p true.

(** The [while True] loop of [ask_to_continue] for one player *)
Fixpoint ask_player (p : Player) (inp : list line) : result (Player * list line) :=
  match inp with
  | [] => Err EOFError
  | l :: rest =>
      match upper l with
      | KY => Ok (p, rest)
      | KN => Ok (cash_out p, rest)
      | _ => ask_player p rest
      end
  end.

Fixpoint ask_players (players : list Player) (inp : list line)
  : result (list Player * list line) :=
  match players with
  | [] => Ok ([], inp)
  | p :: others =>
      '(p', inp1) <- ask_player p inp ;;
      '(others', inp2) <- ask_players others inp1 ;;
      Ok (p' :: others', inp2)
  end.

(** [ask_to_continue] *)
Definition ask_to_continue (players : list Player) (inp : list line)
  : result (list Player * list line) :=
  '(players', inp') <- ask_players players inp ;;
  Ok (filter (fun player => negb (cashout player)) players', inp').

(** What is left of a round once the hands are dealt and revealed: the
    natural-blackjack step, the players' turns and the dealer's turn. *)
Definition play_hands (players : list Player) (dealer : Dealer) (deck : Deck)
           (inp : list line)
  : result (list Player * Dealer * Deck * list line) :=
  '(players1, dealer1) <- natural_check players dealer ;;
  '(players2, deck2, inp2) <- players_turns players1 deck inp ;;
  '(players3, dealer3, deck3) <- dealer_turn players2 dealer1 deck2 ;;
  Ok (players3, dealer3, deck3, inp2).

(** The body of the [while players] loop of [play_game] for a given shuffle
    of the deck, up to the settlement of the round. *)
Definition play_round (players : list Player) (shuffled : Deck) (inp : list line)
  : result (list Player * Dealer * Deck * list line) :=
  let '(players0, dealer0) := reset_for_new_round players in
  '(players1, inp1) <- make_bets players0 inp ;;
  '(players2, dealer2, deck2) <- deal_hands shuffled players1 dealer0 ;;
  let players3 := map reveal_initial_hand players2 in
  play_hands players3 dealer2 deck2 inp1.

(** The end of the loop body: bankrupt players leave, the others are asked. *)
Definition end_round (players : list Player) (inp : list line)
  : result (list Player * list line) :=
  let players1 := remove_bankrupt_players players in
  match players1 with
  | [] => Ok ([], inp)
  | _ => ask_to_continue players1 inp
  end.

(** ** Predicates of the specification *)

(** What holds of a result when there is one. *)
Definition on_ok {A : Type} (P : A -> Prop) (r : result A) : Prop :=
  match r with
  | Ok a => P a
  | Err _ => True
  end.

(** Sum of the current points of the cards. *)
Fixpoint sum_points (cs : list Card) : Z :=
  match cs with
  | [] => 0
  | c :: rest => points c + sum_points rest
  end.

(** The cached value of a hand agrees with its cards. *)
Definition coherent (h : Hand) : Prop := value h = sum_points (cards h).

(** A card as [Deck.__init__] makes it: an Ace is worth 11, any other card
    between 2 and 10. *)
Definition fresh (c : Card) : Prop :=
  if is_ace c then points c = 11 else 2 <= points c <= 10.

(** A card as it can sit in a hand: an Ace is worth 11 or 1. *)
Definition card_ok (c : Card) : Prop :=
  if is_ace c then points c = 11 \/ points c = 1 else 2 <= points c <= 10.

(** Number of Aces still worth 11. *)
Definition aces11 (cs : list Card) : nat :=
  List.length (filter (fun c => is_ace c && (points c =? 11)) cs).

(** The hands the program builds: coherent, made of legal cards, with at
    most one Ace worth 11. *)
Definition hand_ok (h : Hand) : Prop :=
  coherent h /\ Forall card_ok (cards h) /\ (aces11 (cards h) <= 1)%nat.

(** The total of a hand with every Ace counted as 1. *)
Fixpoint hard_points (cs : list Card) : Z :=
  match cs with
  | [] => 0
  | c :: rest => (if is_ace c then 1 else points c) + hard_points rest
  end.

(** The name of a card is one of the 52 names of the deck. *)
Definition deck_named (c : Card) : Prop :=
  In (name c) (map name Deck_unshuffled).

(** The rank of a card of the deck: the key of [RANKS_POINTS] that, followed
    by a suit, gives its name. *)
Definition card_rank (c : Card) : option string :=
  find (fun rank =>
          existsb (fun suit => String.eqb (name c) (String.append rank suit)) SUITS)
       (map fst RANKS_POINTS).

(** The condition of the specification for a split. *)
Definition split_permitted (p : Player) : Prop :=
  List.length (cards (hand p)) = 2%nat
  /\ (exists c0 c1, cards (hand p) = [c0; c1] /\ card_rank c0 = card_rank c1)
  /\ second_hand p = None
  /\ wager p <= money p.

(** Ace revaluation as the specification words it: while the value exceeds
    21, the first Ace still worth 11 is demoted to 1 and 10 is subtracted,
    until the value is at most 21 or no such Ace remains. *)
Fixpoint demote_until (cs : list Card) (v : Z) : list Card * Z :=
  match cs with
  | [] => ([], v)
  | card :: rest =>
      if LIMIT <? v then
        if is_ace card && (points card =? 11)
        then let '(rest', v') := demote_until rest (v - 10) in
             (set_points card 1 :: rest', v')
        else let '(rest', v') := demote_until rest v in
             (card :: rest', v')
      else (cs, v)
  end.

Definition reevaluateAces_spec (h : Hand) : Hand :=
  let '(cs, v) := demote_until (cards h) (value h) in
  mkHand cs v (blackjack h).

(** The payout calculator of the specification. *)
Inductive outcome : Type := NaturalWin | Win | Push | Loss.

Definition settle_spec (o : outcome) (wager : Z) : Z :=
  match o with
  | NaturalWin => wager + (3 * wager) / 2      (* wager + floor(1.5 * wager) *)
  | Win => 2 * wager
  | Push => wager
  | Loss => 0
  end.

(** [q * 2^n] on positive numbers. *)
Definition shl (q : positive) (n : nat) : positive := Nat.iter n xO q.

(** Equality of ranks, decided. *)
Definition same_rank (c0 c1 : Card) : bool :=
  match card_rank c0, card_rank c1 with
  | Some r0, Some r1 => String.eqb r0 r1
  | None, None => true
  | _, _ => false
  end.

(** For two names: both are non-empty, and their first characters are equal
    exactly when the ranks are. *)
Definition initial_decides_rank (n0 n1 : string) : bool :=
  match name0 (mkCard n0 0), name0 (mkCard n1 0) with
  | Ok a, Ok b =>
      Bool.eqb (String.eqb a b) (same_rank (mkCard n0 0) (mkCard n1 0))
  | _, _ => false
  end.

(** ** Sample cards, hands and players *)

Definition ace_spades : Card := mkCard "A♠" 11.
Definition ace_hearts : Card := mkCard "A♥" 11.
Definition ace_clubs : Card := mkCard "A♣" 11.
Definition ace_diamonds : Card := mkCard "A♦" 11.
Definition king_spades : Card := mkCard "K♠" 10.
Definition queen_hearts : Card := mkCard "Q♥" 10.
Definition ten_clubs : Card := mkCard "10♣" 10.
Definition nine_spades : Card := mkCard "9♠" 9.
Definition eight_hearts : Card := mkCard "8♥" 8.
Definition six_clubs : Card := mkCard "6♣" 6.
Definition five_diamonds : Card := mkCard "5♦" 5.
Definition two_clubs : Card := mkCard "2♣" 2.

(** The hand dealt from two cards, as [deal_hands] and
    [reveal_initial_hand] leave it. *)
Definition dealt (c1 c2 : Card) : Hand :=
  check_blackjack (add_card (add_card Hand_init c1) c2).

(** A player after betting [w] out of 1000 and being dealt [c1], [c2]. *)
Definition seated (n : string) (w : Z) (c1 c2 : Card) : Player :=
  mkPlayer n (1000 - w) false (dealt c1 c2) w false None None.

(** Two Aces both worth 11 with the coherent value 22: no deal of the
    program produces this hand. *)
Definition two_elevens : Hand := mkHand [ace_spades; ace_hearts] 22 false.

(** ** Totals, names and stakes *)

(** [existsb is_ace]: the hand holds an Ace. *)
Definition has_ace (cs : list Card) : bool := existsb is_ace cs.

(** The best total of a list of cards: the hard total, plus 10 when an Ace
    can count for 11 without passing [LIMIT]. *)
Definition best_total (cs : list Card) : Z :=
  if has_ace cs && (hard_points cs + 10 <=? LIMIT)
  then hard_points cs + 10
  else hard_points cs.

(** A hand of the program whose cached value is the best total. *)
Definition settled (h : Hand) : Prop := hand_ok h /\ value h = best_total (cards h).

(** The names of the cards of a hand, of a player, of the whole table. *)
Definition hnames (h : Hand) : list string := map name (cards h).

Definition player_names (p : Player) : list string :=
  hnames (hand p) ++ match second_hand p with
                     | Some h2 => hnames h2
                     | None => []
                     end.

Definition table_names (players : list Player) (dealer : Dealer) (deck : Deck)
  : list string :=
  flat_map player_names players ++ hnames (dhand dealer) ++ map name deck.

(** What a player has staked: the wager, and the second wager if any. *)
Definition stakes (p : Player) : Z :=
  wager p + match second_wager p with
            | Some w2 => w2
            | None => 0
            end.

(** What the dealer's turn credits for one hand, given the dealer's final
    value: nothing for a bust hand, twice the wager against a bust dealer,
    otherwise by comparison. *)
Definition hand_credit (dealer_value : Z) (h : Hand) (w : Z) : Z :=
  if LIMIT <? value h then 0
  else if LIMIT <? dealer_value then 2 * w
  else if value h <? dealer_value then 0
  else if dealer_value =? value h then w
  else 2 * w.

(** What the dealer's turn credits a player: the credits of the hands of a
    standing player. *)
Definition round_credit (dealer_value : Z) (p : Player) : Z :=
  if stand p then
    hand_credit dealer_value (hand p) (wager p)
    + match truthy (second_hand p), second_wager p with
      | Some h2, Some w2 => hand_credit dealer_value h2 w2
      | _, _ => 0
      end
  else 0.

(** The first card dealt to a player in a pass of [deal_hands]. *)
Definition receive (pc : Player * Card) : Player :=
  set_hand (fst pc) (add_card (hand (fst pc)) (snd pc)).

(** * Properties *)

(** ** Lists, [pop] and sums of points *)

Lemma pop_app {A : Type} (l : list A) (x : A) : pop (l ++ [x]) = Ok (x, l).
Proof.
  induction l as [| y l IH]; [reflexivity |].
  cbn [app pop]. rewrite IH.
  destruct (l ++ [x]) eqn:E; [destruct l; discriminate | reflexivity].
Qed.

Lemma pop_inv {A : Type} (l r : list A) (x : A) : pop l = Ok (x, r) -> l = r ++ [x].
Proof.
  destruct l as [| y l] using rev_ind; [discriminate |].
  rewrite pop_app. intro H. injection H as -> ->. reflexivity.
Qed.

Lemma pop_nonempty {A : Type} (l : list A) :
  l <> [] -> exists x r, pop l = Ok (x, r).
Proof.
  destruct l as [| y l] using rev_ind; [congruence |].
  intros _. exists y, l. apply pop_app.
Qed.

Lemma sum_points_app (l1 l2 : list Card) :
  sum_points (l1 ++ l2) = sum_points l1 + sum_points l2.
Proof. induction l1 as [| c l1 IH]; cbn [app sum_points] in *; lia. Qed.

Lemma hard_points_app (l1 l2 : list Card) :
  hard_points (l1 ++ l2) = hard_points l1 + hard_points l2.
Proof. induction l1 as [| c l1 IH]; cbn [app hard_points] in *; lia. Qed.

Lemma aces11_app (l1 l2 : list Card) :
  aces11 (l1 ++ l2) = (aces11 l1 + aces11 l2)%nat.
Proof. unfold aces11. rewrite filter_app, length_app. reflexivity. Qed.

(** ** The cached value of a hand *)

Lemma demote_aces_sum (cs : list Card) (v : Z) :
  snd (demote_aces cs v) - sum_points (fst (demote_aces cs v)) = v - sum_points cs.
Proof.
  revert v. induction cs as [| c cs IH]; intro v; cbn [demote_aces].
  - reflexivity.
  - destruct (is_ace c && (points c =? 11)) eqn:E.
    + specialize (IH (v - 10)). destruct (demote_aces cs (v - 10)) as [cs' v'].
      apply andb_prop in E as [_ E]. apply Z.eqb_eq in E.
      cbn [fst snd sum_points set_points points] in *. lia.
    + specialize (IH v). destruct (demote_aces cs v) as [cs' v'].
      cbn [fst snd sum_points] in *. lia.
Qed.

Lemma coherent_init : coherent Hand_init.
Proof. reflexivity. Qed.

Lemma coherent_add_card (h : Hand) (c : Card) :
  coherent h -> coherent (add_card h c).
Proof.
  unfold coherent, add_card. intro H. cbn [value cards].
  rewrite sum_points_app, H. cbn [sum_points]. lia.
Qed.

Lemma coherent_reset_ace_value (h : Hand) :
  coherent h -> coherent (reset_ace_value h).
Proof.
  unfold coherent, reset_ace_value. intro H.
  destruct (LIMIT <? value h); [| assumption].
  pose proof (demote_aces_sum (cards h) (value h)) as S.
  destruct (demote_aces (cards h) (value h)) as [cs v].
  cbn [fst snd value cards] in *. lia.
Qed.

Lemma coherent_draw_card (h : Hand) (deck : Deck) :
  coherent h -> on_ok (fun r => coherent (fst r)) (draw_card h deck).
Proof.
  intro H. destruct deck as [| c deck]; cbn; [exact I |].
  apply coherent_reset_ace_value, coherent_add_card, H.
Qed.

(** [split_hand] written out: the hand loses its last card and draws the
    top card, the second hand starts from the split card and draws the next. *)
Lemma split_hand_eq (p : Player) (front : list Card) (split_card c1 c2 : Card)
      (deck : Deck) :
  cards (hand p) = front ++ [split_card] ->
  split_hand p (c1 :: c2 :: deck)
  = Ok (mkPlayer (pname p) (money p - wager p) (cashout p)
          (add_card (mkHand front (value (hand p) - points split_card)
                            (blackjack (hand p))) c1)
          (wager p) (stand p)
          (Some (add_card
                   (add_card Hand_init
                      (if is_ace split_card then set_points split_card 11
                       else split_card)) c2))
          (Some (wager p)),
        deck).
Proof. intro H. unfold split_hand. rewrite H, pop_app. reflexivity. Qed.

Lemma split_hand_ok_inv (p p' : Player) (deck deck' : Deck) :
  split_hand p deck = Ok (p', deck') ->
  exists front split_card c1 c2,
    cards (hand p) = front ++ [split_card] /\ deck = c1 :: c2 :: deck'.
Proof.
  unfold split_hand. destruct (pop (cards (hand p))) as [[sc front] |] eqn:E; [| discriminate].
  apply pop_inv in E. cbn [bind].
  destruct deck as [| c1 [| c2 deck]]; cbn; try discriminate.
  intro H. injection H as _ <-. exists front, sc, c1, c2. auto.
Qed.

(** [split_hand] fails only on an empty hand or a deck of fewer than two
    cards. *)
Lemma split_hand_total (p : Player) (deck : Deck) :
  cards (hand p) <> [] -> (2 <= List.length deck)%nat ->
  exists p' deck', split_hand p deck = Ok (p', deck').
Proof.
  intros Hc Hd. destruct (pop_nonempty _ Hc) as (sc & front & E).
  apply pop_inv in E. destruct deck as [| c1 [| c2 deck]]; cbn in Hd; try lia.
  rewrite (split_hand_eq p front sc c1 c2 deck E). eauto.
Qed.

Lemma coherent_split_hand (p : Player) (deck : Deck) :
  coherent (hand p) ->
  on_ok (fun r => coherent (hand (fst r))
                  /\ exists h2, second_hand (fst r) = Some h2 /\ coherent h2)
        (split_hand p deck).
Proof.
  intro H. destruct (split_hand p deck) as [[p' deck'] |] eqn:E; [| exact I].
  destruct (split_hand_ok_inv _ _ _ _ E) as (front & sc & c1 & c2 & Hc & ->).
  rewrite (split_hand_eq p front sc c1 c2 deck' Hc) in E. injection E as <-.
  cbn [on_ok fst hand second_hand]. split.
  - apply coherent_add_card. unfold coherent in *. cbn [value cards].
    rewrite Hc, sum_points_app in H. cbn [sum_points] in H. lia.
  - eexists. split; [reflexivity |].
    apply coherent_add_card, coherent_add_card, coherent_init.
Qed.

(** C3.  The cached [value] of a hand is the sum of the current points of
    its cards: it is so for the empty hand, and every operation that
    changes a hand ([add_card], [reset_ace_value], [draw_card], and
    [split_hand] for both hands it leaves) keeps it so. *)
Theorem value_is_sum_of_points (p : Player) (deck : Deck) (c : Card) :
  coherent (hand p) ->
  coherent Hand_init
  /\ coherent (add_card (hand p) c)
  /\ coherent (reset_ace_value (hand p))
  /\ on_ok (fun r => coherent (fst r)) (draw_card (hand p) deck)
  /\ on_ok (fun r => coherent (hand (fst r))
                     /\ exists h2, second_hand (fst r) = Some h2 /\ coherent h2)
           (split_hand p deck).
Proof.
  intro H. repeat split.
  - apply coherent_add_card, H.
  - apply coherent_reset_ace_value, H.
  - apply coherent_draw_card, H.
  - apply coherent_split_hand, H.
Qed.

(** A pair of Aces, the second one demoted to 1 by the deal, is split. *)
Lemma value_is_sum_of_points_witness :
  coherent (hand (seated "Ann" 10 ace_spades ace_hearts))
  /\ split_hand (seated "Ann" 10 ace_spades ace_hearts) [nine_spades; ace_clubs]
     = Ok (mkPlayer "Ann" 980 false
             (mkHand [ace_spades; nine_spades] 20 false) 10 false
             (Some (mkHand [ace_hearts; set_points ace_clubs 1] 12 false))
             (Some 10), [])
  /\ on_ok (fun r => coherent (hand (fst r))
                     /\ exists h2, second_hand (fst r) = Some h2 /\ coherent h2)
           (split_hand (seated "Ann" 10 ace_spades ace_hearts)
                       [nine_spades; ace_clubs]).
Proof.
  split; [reflexivity |]. split; [reflexivity |].
  apply (value_is_sum_of_points (seated "Ann" 10 ace_spades ace_hearts)
           [nine_spades; ace_clubs] king_spades).
  reflexivity.
Defined.

(** ** The hands the program builds *)

Lemma deck_cards_fresh : Forall fresh Deck_unshuffled.
Proof. repeat constructor; cbv; intuition congruence. Qed.

(** [shuffle] permutes the deck: whatever the shuffle, its cards are fresh
    and carry the 52 names. *)
Lemma shuffled_deck_fresh (deck : Deck) :
  Permutation Deck_unshuffled deck -> Forall fresh deck /\ Forall deck_named deck.
Proof.
  intro H. split.
  - apply (Permutation_Forall H), deck_cards_fresh.
  - apply (Permutation_Forall H), Forall_forall. intros c Hc.
    unfold deck_named. apply in_map, Hc.
Qed.

Lemma deck_has_52_cards : List.length Deck_unshuffled = 52%nat.
Proof. reflexivity. Qed.

Lemma is_ace_set_points (c : Card) (n : Z) : is_ace (set_points c n) = is_ace c.
Proof. reflexivity. Qed.

Lemma fresh_card_ok (c : Card) : fresh c -> card_ok c.
Proof. unfold fresh, card_ok. destruct (is_ace c); auto. Qed.

Lemma card_ok_points (c : Card) : card_ok c -> 1 <= points c <= 11.
Proof. unfold card_ok. destruct (is_ace c); lia. Qed.

Lemma card_ok_hard (c : Card) :
  card_ok c -> 1 <= (if is_ace c then 1 else points c) <= points c.
Proof. unfold card_ok. destruct (is_ace c); lia. Qed.

Lemma aces11_cons (c : Card) (cs : list Card) :
  aces11 (c :: cs)
  = Nat.add (if is_ace c && (points c =? 11) then 1%nat else 0%nat) (aces11 cs).
Proof.
  unfold aces11. cbn [filter].
  destruct (is_ace c && (points c =? 11)); reflexivity.
Qed.

(** Every Ace worth 11 brings 11 points to the sum. *)
Lemma sum_points_aces11 (cs : list Card) :
  Forall card_ok cs -> 11 * Z.of_nat (aces11 cs) <= sum_points cs.
Proof.
  induction 1 as [| c cs Hc _ IH]; [cbn; lia |].
  rewrite aces11_cons. cbn [sum_points].
  pose proof (card_ok_points c Hc).
  destruct (is_ace c && (points c =? 11)) eqn:E; [| lia].
  apply andb_prop in E as [_ E]. apply Z.eqb_eq in E. lia.
Qed.

Lemma hard_points_le_sum (cs : list Card) :
  Forall card_ok cs -> 0 <= hard_points cs <= sum_points cs.
Proof.
  induction 1 as [| c cs Hc _ IH]; cbn [hard_points sum_points]; [lia |].
  pose proof (card_ok_hard c Hc). lia.
Qed.

Lemma hand_ok_init : hand_ok Hand_init.
Proof. repeat split; [constructor | cbn; lia]. Qed.

Lemma hand_ok_add_card (h : Hand) (c : Card) :
  hand_ok h -> fresh c -> hand_ok (add_card h c).
Proof.
  intros (Hco & Hok & Hn) Hf. split; [apply coherent_add_card, Hco |].
  pose proof (sum_points_aces11 _ Hok) as Hsum. rewrite <- Hco in Hsum.
  unfold add_card. cbn [cards]. rewrite aces11_app, aces11_cons.
  change (aces11 []) with 0%nat.
  unfold fresh in Hf. destruct (is_ace c) eqn:Ea; cbn [andb].
  - destruct (10 <? value h) eqn:Ev.
    + split.
      * apply Forall_app. split; [assumption |]. constructor; [| constructor].
        unfold card_ok. rewrite is_ace_set_points, Ea. right. reflexivity.
      * change (points (set_points c 1) =? 11) with false.
        rewrite andb_false_r. lia.
    + apply Z.ltb_ge in Ev. split.
      * apply Forall_app. split; [assumption |]. constructor; [| constructor].
        unfold card_ok. rewrite Ea. left. assumption.
      * rewrite Ea. cbn [andb].
        destruct (aces11 (cards h)); [| lia].
        destruct (points c =? 11); lia.
  - split.
    + apply Forall_app. split; [assumption |]. constructor; [| constructor].
      unfold card_ok. rewrite Ea. assumption.
    + rewrite Ea. cbn [andb]. lia.
Qed.

Lemma demote_aces_card_ok (cs : list Card) (v : Z) :
  Forall card_ok cs -> Forall card_ok (fst (demote_aces cs v)).
Proof.
  intro H. revert v. induction H as [| c cs Hc _ IH]; intro v; cbn [demote_aces].
  - constructor.
  - destruct (is_ace c && (points c =? 11)) eqn:E.
    + specialize (IH (v - 10)). destruct (demote_aces cs (v - 10)). cbn [fst] in *.
      constructor; [| assumption]. apply andb_prop in E as [Ea _].
      unfold card_ok. rewrite is_ace_set_points, Ea. right. reflexivity.
    + specialize (IH v). destruct (demote_aces cs v). cbn [fst] in *.
      constructor; assumption.
Qed.

(** After the pass no Ace is worth 11. *)
Lemma demote_aces_aces11 (cs : list Card) (v : Z) :
  aces11 (fst (demote_aces cs v)) = 0%nat.
Proof.
  revert v. induction cs as [| c cs IH]; intro v; cbn [demote_aces]; [reflexivity |].
  destruct (is_ace c && (points c =? 11)) eqn:E.
  - specialize (IH (v - 10)). destruct (demote_aces cs (v - 10)). cbn [fst] in *.
    rewrite aces11_cons, IH. cbn [set_points points]. rewrite andb_false_r. reflexivity.
  - specialize (IH v). destruct (demote_aces cs v). cbn [fst] in *.
    rewrite aces11_cons, IH, E. reflexivity.
Qed.

Lemma demote_aces_hard (cs : list Card) (v : Z) :
  hard_points (fst (demote_aces cs v)) = hard_points cs.
Proof.
  revert v. induction cs as [| c cs IH]; intro v; cbn [demote_aces]; [reflexivity |].
  destruct (is_ace c && (points c =? 11)) eqn:E.
  - specialize (IH (v - 10)). destruct (demote_aces cs (v - 10)). cbn [fst] in *.
    apply andb_prop in E as [Ea _].
    cbn [hard_points]. rewrite is_ace_set_points, Ea, IH. reflexivity.
  - specialize (IH v). destruct (demote_aces cs v). cbn [fst] in *.
    cbn [hard_points]. rewrite IH. reflexivity.
Qed.

Lemma hand_ok_reset_ace_value (h : Hand) : hand_ok h -> hand_ok (reset_ace_value h).
Proof.
  intros (Hco & Hok & Hn). split; [apply coherent_reset_ace_value, Hco |].
  unfold reset_ace_value. destruct (LIMIT <? value h); [| auto].
  pose proof (demote_aces_card_ok (cards h) (value h) Hok) as H1.
  pose proof (demote_aces_aces11 (cards h) (value h)) as H2.
  destruct (demote_aces (cards h) (value h)) as [cs v]. cbn [fst cards] in *.
  split; [assumption | lia].
Qed.

Create HintDb blackjack.

#[local] Hint Resolve coherent_init coherent_add_card coherent_reset_ace_value
  hand_ok_init hand_ok_add_card hand_ok_reset_ace_value fresh_card_ok : blackjack.

Lemma hand_ok_draw_card (h : Hand) (deck : Deck) :
  hand_ok h -> Forall fresh deck ->
  on_ok (fun r => hand_ok (fst r) /\ Forall fresh (snd r)) (draw_card h deck).
Proof.
  intros Hh Hd. destruct Hd as [| c deck Hc Hd]; cbn; [exact I |].
  split; auto with blackjack.
Qed.

(** The hand dealt from two cards of the deck. *)
Lemma hand_ok_dealt (c1 c2 : Card) : fresh c1 -> fresh c2 -> hand_ok (dealt c1 c2).
Proof.
  intros H1 H2.
  assert (H : hand_ok (add_card (add_card Hand_init c1) c2)) by auto with blackjack.
  exact H.
Qed.

(** Both hands left by a split are such hands again. *)
Lemma hand_ok_split_hand (p : Player) (deck : Deck) :
  hand_ok (hand p) -> Forall fresh deck ->
  on_ok (fun r => hand_ok (hand (fst r))
                  /\ (exists h2, second_hand (fst r) = Some h2 /\ hand_ok h2)
                  /\ Forall fresh (snd r))
        (split_hand p deck).
Proof.
  intros (Hco & Hok & Hn) Hd.
  destruct (split_hand p deck) as [[p' deck'] |] eqn:E; [| exact I].
  destruct (split_hand_ok_inv _ _ _ _ E) as (front & sc & c1 & c2 & Hc & ->).
  rewrite (split_hand_eq p front sc c1 c2 deck' Hc) in E. injection E as <-.
  inversion Hd as [| ? ? Hf1 Hd1]; subst. inversion Hd1 as [| ? ? Hf2 Hd2]; subst.
  rewrite Hc in Hok, Hn. apply Forall_app in Hok as [Hfront Hsc].
  inversion Hsc as [| ? ? Hsc1 _]; subst.
  rewrite aces11_app in Hn.
  cbn [on_ok fst snd hand second_hand]. repeat split.
  - apply coherent_add_card. unfold coherent in *. cbn [value cards].
    rewrite Hc, sum_points_app in Hco. cbn [sum_points] in Hco. lia.
  - apply (hand_ok_add_card (mkHand front _ _) c1); [| assumption].
    repeat split; [| assumption | cbn [cards]; lia].
    unfold coherent in *. cbn [value cards].
    rewrite Hc, sum_points_app in Hco. cbn [sum_points] in Hco. lia.
  - apply (hand_ok_add_card (mkHand front _ _) c1); [| assumption].
    repeat split; [| assumption | cbn [cards]; lia].
    unfold coherent in *. cbn [value cards].
    rewrite Hc, sum_points_app in Hco. cbn [sum_points] in Hco. lia.
  - eexists. split; [reflexivity |].
    apply hand_ok_add_card; [apply hand_ok_add_card; [apply hand_ok_init |] | assumption].
    unfold fresh, card_ok in *. destruct (is_ace sc) eqn:Ea.
    + rewrite is_ace_set_points, Ea. reflexivity.
    + rewrite Ea. assumption.
  - assumption.
Qed.

(** ** Ace revaluation *)

Lemma demote_aces_none (cs : list Card) (v : Z) :
  aces11 cs = 0%nat -> demote_aces cs v = (cs, v).
Proof.
  induction cs as [| c cs IH]; [reflexivity |].
  rewrite aces11_cons. cbn [demote_aces].
  destruct (is_ace c && (points c =? 11)); [discriminate |].
  cbn [Nat.add]. intro H. rewrite (IH H). reflexivity.
Qed.

Lemma demote_until_none (cs : list Card) (v : Z) :
  aces11 cs = 0%nat -> demote_until cs v = (cs, v).
Proof.
  revert v. induction cs as [| c cs IH]; intro v; [reflexivity |].
  rewrite aces11_cons. cbn [demote_until].
  destruct (is_ace c && (points c =? 11)); [discriminate |].
  cbn [Nat.add]. intro H. rewrite (IH v H).
  destruct (LIMIT <? v); reflexivity.
Qed.

(** With at most one Ace worth 11 the single pass of the code and the
    demotion "one at a time until the value is at most 21" agree. *)
Lemma demote_aces_until (cs : list Card) (v : Z) :
  (aces11 cs <= 1)%nat -> LIMIT < v -> demote_aces cs v = demote_until cs v.
Proof.
  revert v. induction cs as [| c cs IH]; intros v Hn Hv; [reflexivity |].
  rewrite aces11_cons in Hn. cbn [demote_aces demote_until].
  apply Z.ltb_lt in Hv as Hv'. rewrite Hv'.
  destruct (is_ace c && (points c =? 11)).
  - assert (H0 : aces11 cs = 0%nat) by lia.
    rewrite (demote_aces_none cs _ H0), (demote_until_none cs _ H0). reflexivity.
  - rewrite (IH v) by (cbn [Nat.add] in Hn; lia). reflexivity.
Qed.

Lemma reset_ace_value_le_limit (h : Hand) :
  value h <= LIMIT -> reset_ace_value h = h.
Proof.
  intro H. unfold reset_ace_value.
  destruct (Z.ltb_spec LIMIT (value h)); [lia | reflexivity].
Qed.

Lemma reevaluateAces_spec_le_limit (h : Hand) :
  value h <= LIMIT -> reevaluateAces_spec h = h.
Proof.
  intro H. unfold reevaluateAces_spec. destruct h as [cs v b]. cbn [cards value blackjack] in *.
  destruct cs as [| c cs]; [reflexivity |]. cbn [demote_until].
  destruct (Z.ltb_spec LIMIT v); [lia | reflexivity].
Qed.

Lemma reset_ace_value_idempotent (h : Hand) :
  reset_ace_value (reset_ace_value h) = reset_ace_value h.
Proof.
  unfold reset_ace_value at 2 3. destruct (LIMIT <? value h) eqn:E.
  - pose proof (demote_aces_aces11 (cards h) (value h)) as H0.
    destruct (demote_aces (cards h) (value h)) as [cs v]. cbn [fst] in H0.
    unfold reset_ace_value. cbn [value cards blackjack].
    destruct (LIMIT <? v); [| reflexivity].
    rewrite (demote_aces_none cs v H0). reflexivity.
  - unfold reset_ace_value. rewrite E. reflexivity.
Qed.

(** What [reset_ace_value] does to a hand above 21: every Ace worth 11 is
    demoted, whatever the value becomes on the way. *)
Lemma reset_ace_value_all_demoted (h : Hand) :
  aces11 (cards (reset_ace_value h)) = 0%nat \/ reset_ace_value h = h.
Proof.
  unfold reset_ace_value. destruct (LIMIT <? value h); [left | right; reflexivity].
  pose proof (demote_aces_aces11 (cards h) (value h)) as H0.
  destruct (demote_aces (cards h) (value h)). exact H0.
Qed.

(** C9.  Every hand the program builds holds at most one Ace worth 11:
    this is part of [hand_ok], which holds of the empty hand and is kept by
    [add_card] of a card of the deck, by [reset_ace_value], by [draw_card]
    and, for both hands, by [split_hand] (see [hand_ok_init],
    [hand_ok_add_card], [hand_ok_reset_ace_value], [hand_ok_draw_card] and
    [hand_ok_split_hand]).  On such a hand [reset_ace_value] demotes Aces
    worth 11 one at a time, taking 10 off the value each time, until the
    value is at most 21 or none remains.  On any hand whatever: when it
    returns, the value is at most 21 or no Ace worth 11 is left; a hand
    whose value is at most 21 is left as it is, cards' points and cached
    value; and applying it twice is the same as applying it once. *)
Theorem reset_ace_value_one_at_a_time (h : Hand) :
  ((aces11 (cards h) <= 1)%nat -> reset_ace_value h = reevaluateAces_spec h)
  /\ (value (reset_ace_value h) <= LIMIT
      \/ aces11 (cards (reset_ace_value h)) = 0%nat)
  /\ (value h <= LIMIT -> reset_ace_value h = h)
  /\ reset_ace_value (reset_ace_value h) = reset_ace_value h.
Proof.
  split; [| split; [| split]].
  - intro Hn. destruct (Z.le_gt_cases (value h) LIMIT) as [Hle | Hgt].
    + rewrite reset_ace_value_le_limit, reevaluateAces_spec_le_limit by assumption.
      reflexivity.
    + unfold reset_ace_value, reevaluateAces_spec.
      apply Z.ltb_lt in Hgt as Hgt'. rewrite Hgt'.
      rewrite (demote_aces_until _ _ Hn Hgt). reflexivity.
  - destruct (Z.le_gt_cases (value h) LIMIT) as [Hle | Hgt].
    + left. rewrite reset_ace_value_le_limit; assumption.
    + right. unfold reset_ace_value. apply Z.ltb_lt in Hgt. rewrite Hgt.
      pose proof (demote_aces_aces11 (cards h) (value h)) as H0.
      destruct (demote_aces (cards h) (value h)). exact H0.
  - apply reset_ace_value_le_limit.
  - apply reset_ace_value_idempotent.
Qed.

(** A soft 17 is left as it is.  A King takes it to 27: the hand was built
    by [add_card] alone, its one Ace worth 11 is demoted and the value is 17
    again. *)
Lemma reset_ace_value_one_at_a_time_witness :
  (aces11 (cards (add_card (dealt ace_spades six_clubs) king_spades)) <= 1)%nat
  /\ reset_ace_value (add_card (dealt ace_spades six_clubs) king_spades)
     = mkHand [set_points ace_spades 1; six_clubs; king_spades] 17 false
  /\ reset_ace_value (add_card (dealt ace_spades six_clubs) king_spades)
     = reevaluateAces_spec (add_card (dealt ace_spades six_clubs) king_spades)
  /\ value (dealt ace_spades six_clubs) <= LIMIT
  /\ reset_ace_value (dealt ace_spades six_clubs) = dealt ace_spades six_clubs.
Proof.
  split; [cbn; lia |]. split; [reflexivity |].
  split.
  - apply (proj1 (reset_ace_value_one_at_a_time
                    (add_card (dealt ace_spades six_clubs) king_spades))).
    cbn; lia.
  - split; [cbv; discriminate |].
    apply (proj1 (proj2 (proj2 (reset_ace_value_one_at_a_time
                                   (dealt ace_spades six_clubs))))).
    cbv; discriminate.
Defined.

(** The bound on the Aces worth 11 cannot be dropped.  On two Aces both
    worth 11 with the coherent value 22, a hand that [add_card] never builds
    (the second Ace arrives on a value above 10 and is worth 1), demoting
    one Ace gives 12, where the demotion one at a time stops; the single
    pass of the code demotes the second Ace too. *)
Lemma reset_ace_value_demotes_below_limit :
  coherent two_elevens
  /\ reset_ace_value two_elevens
     = mkHand [set_points ace_spades 1; set_points ace_hearts 1] 2 false
  /\ reevaluateAces_spec two_elevens
     = mkHand [set_points ace_spades 1; ace_hearts] 12 false
  /\ reset_ace_value two_elevens <> reevaluateAces_spec two_elevens.
Proof.
  split; [reflexivity |]. split; [reflexivity |]. split; [reflexivity |].
  discriminate.
Qed.

(** ** The dealer's draw loop *)

(** The loop written with [draw_card], as in the source. *)
Lemma dealer_draws_eq (deck : Deck) (h : Hand) :
  dealer_draws deck h
  = if value h <? 17
    then '(h', deck') <- draw_card h deck ;; dealer_draws deck' h'
    else Ok (h, deck).
Proof. destruct deck; reflexivity. Qed.

Lemma dealer_draws_at_least_17 (deck : Deck) (h : Hand) :
  on_ok (fun r => 17 <= value (fst r)) (dealer_draws deck h).
Proof.
  revert h. induction deck as [| c deck IH]; intro h; cbn [dealer_draws].
  - destruct (Z.ltb_spec (value h) 17); cbn; [exact I | assumption].
  - destruct (Z.ltb_spec (value h) 17); [apply IH | cbn; assumption].
Qed.

Lemma hard_points_draw (h : Hand) (c : Card) :
  fresh c ->
  hard_points (cards h) + 1 <= hard_points (cards (reset_ace_value (add_card h c))).
Proof.
  intro Hf.
  assert (H : hard_points (cards (reset_ace_value (add_card h c)))
              = hard_points (cards (add_card h c))).
  { unfold reset_ace_value. destruct (LIMIT <? value (add_card h c)); [| reflexivity].
    pose proof (demote_aces_hard (cards (add_card h c)) (value (add_card h c))) as E.
    destruct (demote_aces _ _). exact E. }
  rewrite H. unfold add_card. cbn [cards]. rewrite hard_points_app. cbn [hard_points].
  unfold fresh in Hf.
  destruct (is_ace c && (10 <? value h)); [rewrite is_ace_set_points |];
    destruct (is_ace c); cbn [set_points points]; lia.
Qed.

(** The loop ends with a hand: 17 cards of the deck are always enough, since
    every card adds at least one point to the hard total. *)
Lemma dealer_draws_total (deck : Deck) (h : Hand) :
  hand_ok h -> Forall fresh deck ->
  17 - hard_points (cards h) <= Z.of_nat (List.length deck) ->
  exists h' deck', dealer_draws deck h = Ok (h', deck') /\ 17 <= value h'.
Proof.
  intros Hh Hd. revert h Hh. induction Hd as [| c deck Hc Hd IH]; intros h Hh Hlen.
  - destruct Hh as (Hco & Hok & _).
    pose proof (hard_points_le_sum _ Hok). rewrite <- Hco in *.
    cbn [dealer_draws]. cbn [List.length Z.of_nat] in Hlen.
    destruct (Z.ltb_spec (value h) 17); [lia |]. eauto.
  - cbn [dealer_draws]. destruct (Z.ltb_spec (value h) 17); [| eauto].
    apply IH; [auto with blackjack |].
    pose proof (hard_points_draw h c Hc). cbn [List.length] in Hlen. lia.
Qed.

(** ** Doubles: the exact cases of conversion and of the product by 1.5 *)

(** [iter_pos] of SpecFloat is iteration [Pos.to_nat] times. *)
Lemma iter_pos_nat {A : Type} (f : A -> A) (p : positive) (x : A) :
  iter_pos f p x = Nat.iter (Pos.to_nat p) f x.
Proof.
  revert x. induction p as [p IH | p IH |]; intro x; cbn [iter_pos].
  - rewrite !IH, Pos2Nat.inj_xI.
    replace (S (2 * Pos.to_nat p)) with (Pos.to_nat p + (Pos.to_nat p + 1))%nat by lia.
    rewrite !Nat.iter_add. reflexivity.
  - rewrite !IH, Pos2Nat.inj_xO.
    replace (2 * Pos.to_nat p)%nat with (Pos.to_nat p + Pos.to_nat p)%nat by lia.
    rewrite Nat.iter_add. reflexivity.
  - reflexivity.
Qed.

Lemma shl_Z q n : Zpos (shl q n) = Zpos q * 2 ^ Z.of_nat n.
Proof.
  induction n as [| n IH].
  - simpl. lia.
  - unfold shl in *. rewrite Nat.iter_succ, Pos2Z.inj_xO, IH, Nat2Z.inj_succ, Z.pow_succ_r by lia.
    ring.
Qed.

Lemma shl_of_Z P q n : Zpos P = Zpos q * 2 ^ Z.of_nat n -> P = shl q n.
Proof. intro H. rewrite <- shl_Z in H. congruence. Qed.

Lemma digits_shl q n : Zpos (digits2_pos (shl q n)) = Zpos (digits2_pos q) + Z.of_nat n.
Proof.
  induction n as [| n IH].
  - simpl. lia.
  - unfold shl in *. rewrite Nat.iter_succ. cbn [digits2_pos].
    rewrite Pos2Z.inj_succ, IH. lia.
Qed.

Lemma digits_bounds m :
  2 ^ (Zpos (digits2_pos m) - 1) <= Zpos m < 2 ^ Zpos (digits2_pos m).
Proof.
  induction m as [m IH | m IH |]; cbn [digits2_pos].
  - rewrite Pos2Z.inj_succ, (Pos2Z.inj_xI m).
    replace (Z.succ (Zpos (digits2_pos m)) - 1) with (Z.succ (Zpos (digits2_pos m) - 1)) by lia.
    rewrite !Z.pow_succ_r by lia.
    revert IH. generalize (2 ^ (Zpos (digits2_pos m) - 1)) (2 ^ Zpos (digits2_pos m)). intros; lia.
  - rewrite Pos2Z.inj_succ, (Pos2Z.inj_xO m).
    replace (Z.succ (Zpos (digits2_pos m)) - 1) with (Z.succ (Zpos (digits2_pos m) - 1)) by lia.
    rewrite !Z.pow_succ_r by lia.
    revert IH. generalize (2 ^ (Zpos (digits2_pos m) - 1)) (2 ^ Zpos (digits2_pos m)). intros; lia.
  - simpl. lia.
Qed.

Lemma digits_le m k : 0 <= k -> Zpos m < 2 ^ k -> Zpos (digits2_pos m) <= k.
Proof.
  intros Hk H. destruct (digits_bounds m) as [Hlo _].
  destruct (Z_le_gt_dec (Zpos (digits2_pos m)) k) as [|Hgt]; [assumption|].
  assert (2 ^ k <= 2 ^ (Zpos (digits2_pos m) - 1)) by (apply Z.pow_le_mono_r; lia).
  lia.
Qed.

Lemma digits_ge m k : 2 ^ k <= Zpos m -> k < Zpos (digits2_pos m).
Proof.
  intros H. destruct (digits_bounds m) as [_ Hhi].
  destruct (Z_lt_le_dec k (Zpos (digits2_pos m))) as [|Hle]; [assumption|].
  assert (2 ^ Zpos (digits2_pos m) <= 2 ^ k) by (apply Z.pow_le_mono_r; lia).
  lia.
Qed.

Lemma shr_1_shl q n :
  Nat.iter n shr_1 (Build_shr_record (Zpos (shl q n)) false false)
  = Build_shr_record (Zpos q) false false.
Proof.
  induction n as [| n IH].
  - reflexivity.
  - rewrite Nat.iter_succ_r. unfold shl. rewrite Nat.iter_succ. simpl shr_1.
    exact IH.
Qed.

(** Rounding a 53-digit mantissa followed by [n] zero bits is exact. *)
Lemma binary_round_aux_exact s q n e :
  Zpos (digits2_pos q) = prec ->
  3 - emax - prec <= e + Z.of_nat n <= emax - prec ->
  binary_round_aux prec emax s (Zpos (shl q n)) e loc_Exact
  = S754_finite s q (e + Z.of_nat n).
Proof.
  intros Hq He.
  assert (Hstep1 : shr_fexp prec emax (Zpos (shl q n)) e loc_Exact
          = (Build_shr_record (Zpos q) false false, e + Z.of_nat n)).
  { unfold shr_fexp, fexp, SpecFloat.emin. simpl Zdigits2. rewrite digits_shl, Hq.
    replace (Z.max (prec + Z.of_nat n + e - prec) (3 - emax - prec) - e) with (Z.of_nat n) by lia.
    simpl shr_record_of_loc. destruct n as [| n].
    - simpl. rewrite Z.add_0_r. reflexivity.
    - unfold shr. simpl Z.of_nat. cbv iota.
      rewrite iter_pos_nat, SuccNat2Pos.id_succ, shr_1_shl.
      reflexivity. }
  assert (Hstep2 : shr_fexp prec emax (Zpos q) (e + Z.of_nat n) loc_Exact
          = (Build_shr_record (Zpos q) false false, e + Z.of_nat n)).
  { unfold shr_fexp, fexp, SpecFloat.emin. simpl Zdigits2. rewrite Hq.
    replace (Z.max (prec + (e + Z.of_nat n) - prec) (3 - emax - prec) - (e + Z.of_nat n)) with 0 by lia.
    reflexivity. }
  unfold binary_round_aux. rewrite Hstep1. simpl shr_m. simpl loc_of_shr_record.
  simpl round_nearest_even. rewrite Hstep2. simpl shr_m.
  destruct (Z.leb_spec (e + Z.of_nat n) (emax - prec)); [reflexivity | lia].
Qed.

Lemma pos_iter_shl m p : Pos.iter xO m p = shl m (Pos.to_nat p).
Proof.
  unfold shl. rewrite Pos2Nat.inj_iter.
  induction (Pos.to_nat p) as [| k IH]; simpl; congruence.
Qed.

(** A positive integer below 2^53 converts to a double exactly. *)
Lemma binary_normalize_exact (m : positive) :
  Zpos m < 2 ^ 53 ->
  binary_normalize prec emax (Zpos m) 0 false
  = S754_finite false (shl m (Z.to_nat (53 - Zpos (digits2_pos m))))
                (Zpos (digits2_pos m) - 53).
Proof.
  intros Hm.
  assert (Hd : Zpos (digits2_pos m) <= 53) by (apply digits_le; [lia | assumption]).
  unfold binary_normalize, binary_round, shl_align, fexp, SpecFloat.emin.
  replace (Z.max (Zpos (digits2_pos m) + 0 - prec) (3 - emax - prec) - 0)
    with (Zpos (digits2_pos m) - 53) by (unfold prec, emax; lia).
  replace (Z.max (Zpos (digits2_pos m) + 0 - prec) (3 - emax - prec))
    with (Zpos (digits2_pos m) - 53) by (unfold prec, emax; lia).
  destruct (Zpos (digits2_pos m) - 53) as [| p | p] eqn:E.
  - replace (Z.to_nat (53 - Zpos (digits2_pos m))) with 0%nat by lia.
    cbv beta iota zeta. change (Zpos m) with (Zpos (shl m 0)) at 1.
    rewrite (binary_round_aux_exact false m 0 0).
    + reflexivity.
    + unfold prec; lia.
    + unfold prec, emax; simpl; lia.
  - lia.
  - replace (Z.to_nat (53 - Zpos (digits2_pos m))) with (Pos.to_nat p) by lia.
    cbv beta iota zeta. rewrite pos_iter_shl.
    change (Zpos (shl m (Pos.to_nat p))) with (Zpos (shl (shl m (Pos.to_nat p)) 0)) at 1.
    rewrite (binary_round_aux_exact false (shl m (Pos.to_nat p)) 0 (Zneg p)).
    + simpl Z.of_nat. rewrite Z.add_0_r. reflexivity.
    + rewrite digits_shl. unfold prec. lia.
    + unfold prec, emax. simpl Z.of_nat. lia.
Qed.

(** 1.5 times a positive integer [m] with 3m < 2^53 is computed exactly,
    and truncates to the floor of 3m/2. *)
Lemma mul_one_and_half_exact (m : positive) :
  3 * Zpos m < 2 ^ 53 ->
  exists f, float_of_int (Zpos m) = Ok f /\
    int_of_float (SFmul prec emax one_and_half f) = Ok ((3 * Zpos m) / 2).
Proof.
  intros H3.
  assert (Hm : Zpos m < 2 ^ 53) by lia.
  set (d := Zpos (digits2_pos m)).
  set (D3 := Zpos (digits2_pos (3 * m))).
  assert (Hd1 : 1 <= d) by (unfold d; lia).
  assert (HD3 : D3 <= 53) by (apply digits_le; [lia | rewrite Pos2Z.inj_mul; exact H3]).
  assert (HdD : d < D3).
  { apply digits_ge. rewrite Pos2Z.inj_mul.
    destruct (digits_bounds m) as [Hlo _]. fold d in Hlo.
    replace d with (Z.succ (d - 1)) by lia. rewrite Z.pow_succ_r by lia. lia. }
  unfold float_of_int. rewrite (binary_normalize_exact m Hm). fold d.
  eexists. split; [reflexivity|].
  unfold one_and_half, SFmul. cbn [xorb].
  set (q := shl (3 * m) (Z.to_nat (53 - D3))).
  set (n := Z.to_nat (D3 - d + 51)).
  assert (HP : (6755399441055744 * shl m (Z.to_nat (53 - d)))%positive = shl q n).
  { apply shl_of_Z. unfold q. rewrite Pos2Z.inj_mul, !shl_Z, Pos2Z.inj_mul.
    unfold n. rewrite !Z2Nat.id by lia.
    change (Zpos 6755399441055744) with (3 * 2 ^ 51).
    replace (3 * 2 ^ 51 * (Zpos m * 2 ^ (53 - d)))
      with (3 * Zpos m * (2 ^ 51 * 2 ^ (53 - d))) by ring.
    rewrite <- (Z.mul_assoc (3 * Zpos m) (2 ^ (53 - D3))). f_equal.
    rewrite <- !Z.pow_add_r by lia. f_equal. lia. }
  rewrite HP, binary_round_aux_exact.
  - cbn [int_of_float cond_Zopp]. f_equal.
    replace (-52 + (d - 53) + Z.of_nat n) with (- (54 - D3)) by (unfold n; lia).
    rewrite Z.shiftl_opp_r, Z.shiftr_div_pow2 by lia.
    unfold q. rewrite shl_Z, Pos2Z.inj_mul, Z2Nat.id by lia.
    replace (54 - D3) with (Z.succ (53 - D3)) by lia.
    rewrite Z.pow_succ_r by lia.
    apply Z.div_mul_cancel_r; [lia |].
    apply Z.pow_nonzero; lia.
  - unfold q. rewrite digits_shl. fold D3. unfold prec. lia.
  - unfold prec, emax, n. lia.
Qed.

Lemma natural_winnings_exact (w : Z) :
  0 <= w -> 3 * w < 2 ^ 53 -> natural_winnings w = Ok (w + (3 * w) / 2).
Proof.
  intros H0 H3. destruct w as [| m | m]; [reflexivity | | lia].
  destruct (mul_one_and_half_exact m H3) as (f & Hf & Hi).
  unfold natural_winnings. rewrite Hf. cbn [bind]. rewrite Hi. reflexivity.
Qed.

(** ** Settlement amounts *)

Lemma set_money_same (p : Player) : set_money p (money p + 0) = p.
Proof. destruct p. unfold set_money. cbn. rewrite Z.add_0_r. reflexivity. Qed.

(** The outcome of a hand that is compared with the dealer's. *)
Lemma compare_hand_settles (p : Player) (ph dh : Hand) (w : Z) :
  compare_hand p ph dh (Some w)
  = Ok (set_money p (money p + settle_spec
                       (if value ph <? value dh then Loss
                        else if value dh =? value ph then Push else Win) w)).
Proof.
  unfold compare_hand, payout_hand.
  destruct (value ph <? value dh); [cbn [settle_spec]; rewrite set_money_same; reflexivity |].
  destruct (value dh =? value ph); reflexivity.
Qed.

(** C1, amended.  For every wager [w] with [0 <= w] and [3 * w < 2^53] a
    natural blackjack credits [w + floor (1.5 * w)]; and for every integer
    wager a win (dealer bust, or a hand strictly higher than the dealer's)
    credits [2 * w], a push credits [w] and a loss credits nothing. *)
Theorem settlement_amounts (w : Z) :
  0 <= w -> 3 * w < 2 ^ 53 ->
  natural_winnings w = Ok (settle_spec NaturalWin w)
  /\ (forall p, blackjack (hand p) = true -> wager p = w ->
        payout_natural_blackjack p
        = Ok (set_money p (money p + settle_spec NaturalWin w)))
  /\ (forall p, blackjack (hand p) = false -> payout_natural_blackjack p = Ok p)
  /\ (forall p, stand p = true -> value (hand p) <= LIMIT -> second_hand p = None ->
        payout_after_dealer_bust_player p
        = Ok (set_money p (money p + settle_spec Win (wager p))))
  /\ (forall p ph dh w', value dh < value ph ->
        compare_hand p ph dh (Some w')
        = Ok (set_money p (money p + settle_spec Win w')))
  /\ (forall p ph dh w', value dh = value ph ->
        compare_hand p ph dh (Some w')
        = Ok (set_money p (money p + settle_spec Push w')))
  /\ (forall p ph dh w', value ph < value dh ->
        compare_hand p ph dh (Some w') = Ok p
        /\ settle_spec Loss w' = 0)
  /\ (forall w', settle_spec Win w' = 2 * w' /\ settle_spec Push w' = w').
Proof.
  intros H0 H3.
  assert (Hn : natural_winnings w = Ok (settle_spec NaturalWin w))
    by (apply natural_winnings_exact; assumption).
  split; [exact Hn |]. split; [| split; [| split; [| split; [| split; [| split]]]]].
  - intros p Hb Hw. unfold payout_natural_blackjack. rewrite Hb, Hw, Hn. reflexivity.
  - intros p Hb. unfold payout_natural_blackjack. rewrite Hb. reflexivity.
  - intros p Hs Hv Hh. unfold payout_after_dealer_bust_player. rewrite Hs.
    apply Z.leb_le in Hv. rewrite Hv. cbn [payout_hand int_of bind set_money second_hand].
    rewrite Hh. reflexivity.
  - intros p ph dh w' Hlt. rewrite compare_hand_settles.
    destruct (Z.ltb_spec (value ph) (value dh)); [lia |].
    destruct (Z.eqb_spec (value dh) (value ph)); [lia | reflexivity].
  - intros p ph dh w' Heq. rewrite compare_hand_settles.
    destruct (Z.ltb_spec (value ph) (value dh)); [lia |].
    destruct (Z.eqb_spec (value dh) (value ph)); [reflexivity | lia].
  - intros p ph dh w' Hlt. split; [| reflexivity]. unfold compare_hand.
    destruct (Z.ltb_spec (value ph) (value dh)); [reflexivity | lia].
  - intro w'. split; reflexivity.
Qed.

(** The amounts on a wager of 10: 25, 20, 10 and 0. *)
Lemma settlement_amounts_witness :
  (0 <= 10 /\ 3 * 10 < 2 ^ 53)
  /\ natural_winnings 10 = Ok 25
  /\ natural_winnings 10 = Ok (settle_spec NaturalWin 10).
Proof.
  split; [split; [lia | reflexivity] |]. split; [reflexivity |].
  apply (settlement_amounts 10); [lia | reflexivity].
Defined.

(** C1 as stated fails for a natural blackjack at two wagers.  At -1, which
    [make_bet] accepts, [int] truncates -1.5 to -1 where the floor is -2.  At
    3002399751580333 the product 4503599627370499.5 is no double and rounds
    to the even neighbour 4503599627370500, one above the floor. *)
Lemma natural_winnings_not_floor :
  make_bet (Player_init "Ann") [Num (-1)]
  = Ok (set_money (set_wager (Player_init "Ann") (-1)) 1001, [])
  /\ natural_winnings (-1) = Ok (-2)
  /\ settle_spec NaturalWin (-1) = -3
  /\ natural_winnings 3002399751580333 = Ok (3002399751580333 + 4503599627370500)
  /\ settle_spec NaturalWin 3002399751580333 = 3002399751580333 + 4503599627370499
  /\ natural_winnings (-1) <> Ok (settle_spec NaturalWin (-1))
  /\ natural_winnings 3002399751580333 <> Ok (settle_spec NaturalWin 3002399751580333).
Proof.
  repeat split; try reflexivity; vm_compute; discriminate.
Qed.

(** ** Wager validation *)

Lemma validate_wager_spec (w m : Z) : validate_wager w m = false <-> m < w.
Proof.
  unfold validate_wager.
  destruct (Z.ltb_spec m w); split; intro; (lia || discriminate || reflexivity).
Qed.

(** C10.  [validate_wager] rejects a wager only when it exceeds the maximum.
    Every integer [w <= money p], negative ones included, is taken by
    [make_bet] at the first prompt and the bankroll becomes [money p - w], so
    that a negative wager raises it; [double_down] validates the additional
    wager the same way against [min wager money] and takes a negative one. *)
Theorem wager_validation_has_no_lower_bound
        (p : Player) (w a wg : Z) (hd : which) (deck : Deck) (rest : list line) :
  w <= money p -> a <= Z.min wg (money p) ->
  (forall x m, validate_wager x m = false <-> m < x)
  /\ make_bet p (Num w :: rest) = Ok (set_money (set_wager p w) (money p - w), rest)
  /\ on_ok (fun r => wager (fst r) = w /\ money (fst r) = money p - w
                     /\ (w < 0 -> money p < money (fst r)))
           (make_bet p (Num w :: rest))
  /\ double_down p hd deck wg (Num a :: rest)
     = (h <- get_hand (set_money p (money p - a)) hd ;;
        '(h', deck') <- draw_card h deck ;;
        Ok (set_stand (put_hand (set_money p (money p - a)) hd h') true,
            deck', wg + a, rest))
  /\ on_ok (fun r => let '(p', _, wg', _) := r in
                     money p' = money p - a /\ wg' = wg + a
                     /\ (a < 0 -> money p < money p'))
           (double_down p hd deck wg (Num a :: rest)).
Proof.
  intros Hw Ha.
  assert (Hvw : validate_wager w (money p) = true).
  { destruct (validate_wager w (money p)) eqn:E; [reflexivity |].
    apply validate_wager_spec in E. lia. }
  assert (Hva : validate_wager a (Z.min wg (money p)) = true).
  { destruct (validate_wager a (Z.min wg (money p))) eqn:E; [reflexivity |].
    apply validate_wager_spec in E. lia. }
  assert (Hbet : make_bet p (Num w :: rest)
                 = Ok (set_money (set_wager p w) (money p - w), rest)).
  { cbn [make_bet int_of_line bind]. rewrite Hvw. reflexivity. }
  assert (Hdd : double_down p hd deck wg (Num a :: rest)
     = (h <- get_hand (set_money p (money p - a)) hd ;;
        '(h', deck') <- draw_card h deck ;;
        Ok (set_stand (put_hand (set_money p (money p - a)) hd h') true,
            deck', wg + a, rest))).
  { cbn [double_down int_of_line bind]. rewrite Hva. reflexivity. }
  split; [exact validate_wager_spec |]. split; [exact Hbet |]. split.
  - rewrite Hbet. cbn. repeat split. lia.
  - split; [exact Hdd |]. rewrite Hdd.
    destruct (get_hand (set_money p (money p - a)) hd) as [h |]; [| exact I].
    cbn [bind]. destruct (draw_card h deck) as [[h' deck'] |]; [| exact I].
    cbn [bind on_ok]. destruct hd; cbn; repeat split; lia.
Qed.

(** With 990 in hand and 10 staked, a bet of -500 leaves 1490, and a
    further wager of -5 on a double down is taken and raises the bankroll. *)
Lemma wager_validation_has_no_lower_bound_witness :
  (-500 <= money (seated "Bob" 10 nine_spades two_clubs)
   /\ -5 <= Z.min 10 (money (seated "Bob" 10 nine_spades two_clubs)))
  /\ make_bet (seated "Bob" 10 nine_spades two_clubs) [Num (-500)]
     = Ok (set_money (set_wager (seated "Bob" 10 nine_spades two_clubs) (-500))
                     (money (seated "Bob" 10 nine_spades two_clubs) - -500), [])
  /\ double_down (seated "Bob" 10 nine_spades two_clubs) First [king_spades] 10 [Num (-5)]
     = Ok (set_stand (set_hand (set_money (seated "Bob" 10 nine_spades two_clubs) 995)
                        (mkHand [nine_spades; two_clubs; king_spades] 21 false)) true,
           [], 5, []).
Proof.
  split; [split; unfold seated; cbn [money]; lia |]. split.
  - apply (wager_validation_has_no_lower_bound (seated "Bob" 10 nine_spades two_clubs)
             (-500) (-5) 10 First [king_spades] []);
      unfold seated; cbn [money]; lia.
  - reflexivity.
Defined.

(** ** The dealer's peek *)

Lemma peek_condition_spec (faceup : Card) :
  peek_condition faceup = true <-> points faceup = 10 \/ is_ace faceup = true.
Proof.
  unfold peek_condition. rewrite orb_true_iff, Z.eqb_eq. reflexivity.
Qed.

(** The face-up card of a dealer who was dealt [c1] then [c2] is [c2], with
    its points set to 1 when it is an Ace that arrived on more than 10. *)
Lemma reveal_faceup_dealt (c1 c2 : Card) :
  reveal_faceup (mkDealer (add_card (add_card Hand_init c1) c2))
  = Ok (if is_ace c2 && (10 <? value (add_card Hand_init c1))
        then set_points c2 1 else c2).
Proof.
  unfold reveal_faceup. cbn [dhand add_card cards].
  rewrite pop_app. reflexivity.
Qed.

(** The dealer's hand after [deal_hands]: each pass serves the players
    first, so with [n] players the dealer receives the cards at the
    positions [n] and [2n + 1] of the deck. *)
Lemma deal_to_players_length (deck deck' : Deck) (players players' : list Player) :
  deal_to_players deck players = Ok (players', deck') ->
  deck' = skipn (List.length players) deck
  /\ List.length players' = List.length players.
Proof.
  revert deck deck' players'. induction players as [| p ps IH]; intros deck deck' players' H.
  - cbn in H. injection H as <- <-. auto.
  - destruct deck as [| c deck]; [discriminate |]. cbn [deal_to_players deal bind] in H.
    destruct (deal_to_players deck ps) as [[ps' d'] |] eqn:E; [| discriminate].
    cbn [bind] in H. injection H as <- <-.
    destruct (IH _ _ _ E) as [-> Hl]. cbn [List.length skipn]. auto.
Qed.

Lemma skipn_cons_nth {A : Type} (n : nat) (l r : list A) (c : A) :
  skipn n l = c :: r -> nth_error l n = Some c /\ skipn (S n) l = r.
Proof.
  revert l. induction n as [| n IH]; intros l H.
  - cbn in H. subst l. auto.
  - destruct l as [| x l]; [discriminate |]. cbn [skipn] in H.
    destruct (IH l H) as [H1 H2]. cbn [nth_error]. auto.
Qed.

Lemma deal_hands_dealer (deck deck' : Deck) (players players' : list Player)
      (dealer' : Dealer) :
  deal_hands deck players (mkDealer Hand_init) = Ok (players', dealer', deck') ->
  exists c1 c2,
    nth_error deck (List.length players) = Some c1
    /\ nth_error deck (2 * List.length players + 1) = Some c2
    /\ dealer' = mkDealer (add_card (add_card Hand_init c1) c2).
Proof.
  unfold deal_hands, deal_pass. intro H.
  destruct (deal_to_players deck players) as [[ps1 d1] |] eqn:E1; [| discriminate].
  cbn [bind] in H. destruct d1 as [| c1 d1]; [discriminate |]. cbn [deal bind dhand] in H.
  destruct (deal_to_players d1 ps1) as [[ps2 d2] |] eqn:E2; [| discriminate].
  cbn [bind] in H. destruct d2 as [| c2 d2]; [discriminate |]. cbn [deal bind dhand] in H.
  injection H as _ <- _.
  destruct (deal_to_players_length _ _ _ _ E1) as [Hd1 Hl1].
  destruct (deal_to_players_length _ _ _ _ E2) as [Hd2 Hl2].
  symmetry in Hd1, Hd2.
  destruct (skipn_cons_nth _ _ _ _ Hd1) as [Hc1 Hs1].
  destruct (skipn_cons_nth _ _ _ _ Hd2) as [Hc2 _].
  exists c1, c2. split; [exact Hc1 |]. split; [| reflexivity].
  rewrite <- Hs1, nth_error_skipn, Hl1 in Hc2.
  replace (2 * List.length players + 1)%nat
    with (S (List.length players) + List.length players)%nat by lia.
  exact Hc2.
Qed.

(** C6.  For a dealer who was dealt two cards of the deck, the natural
    check looks at the second-dealt card; the dealer's hand is tested for a
    blackjack exactly when that card is worth 10 points or is an Ace (also
    an Ace demoted to 1), and when it is not tested it is no blackjack. *)
Theorem dealer_peek_rule (c1 c2 : Card) (players : list Player) :
  fresh c1 -> fresh c2 ->
  exists faceup,
    reveal_faceup (mkDealer (add_card (add_card Hand_init c1) c2)) = Ok faceup
    /\ name faceup = name c2
    /\ (peek_condition faceup = true <-> points faceup = 10 \/ is_ace faceup = true)
    /\ natural_check players (mkDealer (add_card (add_card Hand_init c1) c2))
       = (if peek_condition faceup then
            if blackjack (dealt c1 c2)
            then Ok (handle_dealer_blackjack players, mkDealer (dealt c1 c2))
            else players' <- payout_natural_blackjacks players ;;
                 Ok (players', mkDealer (dealt c1 c2))
          else players' <- payout_natural_blackjacks players ;;
               Ok (players', mkDealer (add_card (add_card Hand_init c1) c2)))
    /\ (peek_condition faceup = false -> blackjack (dealt c1 c2) = false).
Proof.
  intros H1 H2. eexists. split; [apply reveal_faceup_dealt |].
  split; [destruct (is_ace c2 && _); reflexivity |].
  split; [apply peek_condition_spec |]. split.
  - unfold natural_check. rewrite reveal_faceup_dealt. reflexivity.
  - unfold peek_condition, fresh in *. rewrite orb_false_iff.
    destruct (is_ace c2) eqn:E2.
    + destruct (10 <? value (add_card Hand_init c1)); cbn [andb];
        rewrite ?is_ace_set_points, E2; intros [_ ?]; discriminate.
    + cbn [andb]. intros [Hp _]. apply Z.eqb_neq in Hp.
      unfold dealt, check_blackjack, add_card. cbn [cards value blackjack Hand_init].
      rewrite E2. cbn [andb]. rewrite andb_false_iff. right. apply Z.eqb_neq.
      unfold LIMIT. revert H1.
      destruct (is_ace c1); cbn [andb]; [change (10 <? 0) with false; cbv iota |]; lia.
Qed.

(** Two Aces: the second one is worth 1 when it is shown, and still makes
    the dealer peek. *)
Lemma dealer_peek_rule_witness :
  (fresh ace_clubs /\ fresh ace_diamonds)
  /\ reveal_faceup (mkDealer (add_card (add_card Hand_init ace_clubs) ace_diamonds))
     = Ok (set_points ace_diamonds 1)
  /\ exists faceup,
       reveal_faceup (mkDealer (add_card (add_card Hand_init ace_clubs) ace_diamonds))
       = Ok faceup
       /\ name faceup = name ace_diamonds
       /\ (peek_condition faceup = true <-> points faceup = 10 \/ is_ace faceup = true).
Proof.
  split; [split; reflexivity |]. split; [reflexivity |].
  destruct (dealer_peek_rule ace_clubs ace_diamonds [] eq_refl eq_refl)
    as (faceup & Hf & Hn & Hp & _).
  exists faceup. auto.
Defined.

(** ** A dealer blackjack ends the round *)

Lemma player_turn_skipped (p : Player) (deck : Deck) (inp : list line) :
  blackjack (hand p) = true \/ stand p = true ->
  player_turn p deck inp = Ok (p, deck, inp).
Proof.
  unfold player_turn. intros [H | H]; rewrite H; cbn [negb andb]; [reflexivity |].
  rewrite andb_false_r. reflexivity.
Qed.

Lemma players_turns_skipped (players : list Player) (deck : Deck) (inp : list line) :
  Forall (fun p => blackjack (hand p) = true \/ stand p = true) players ->
  players_turns players deck inp = Ok (players, deck, inp).
Proof.
  induction 1 as [| p ps Hp _ IH]; [reflexivity |].
  cbn [players_turns]. rewrite (player_turn_skipped p deck inp Hp). cbn [bind].
  rewrite IH. reflexivity.
Qed.

Lemma handle_dealer_blackjack_resolves (players : list Player) :
  Forall (fun p => blackjack (hand p) = true \/ stand p = true)
         (handle_dealer_blackjack players).
Proof.
  unfold handle_dealer_blackjack. apply Forall_map, Forall_forall. intros p _.
  unfold handle_dealer_blackjack_player.
  destruct (blackjack (hand p)) eqn:E; [left; exact E | right; reflexivity].
Qed.

Lemma handle_dealer_blackjack_effect (players : list Player) :
  Forall2 (fun p p' =>
             hand p' = hand p /\ second_hand p' = second_hand p
             /\ wager p' = wager p
             /\ if blackjack (hand p)
                then money p' = money p + wager p /\ stand p' = stand p
                else money p' = money p /\ stand p' = true)
          players (handle_dealer_blackjack players).
Proof.
  induction players as [| p ps IH]; [constructor |].
  cbn [handle_dealer_blackjack map]. constructor; [| exact IH].
  unfold handle_dealer_blackjack_player.
  destruct (blackjack (hand p)); cbn; auto.
Qed.

(** C2.  When the dealer's hand is tested and is a natural blackjack, the
    rest of the round changes nothing but this: a player with a natural
    blackjack gets the wager back, any other player keeps the bankroll as it
    is after the bet and is marked standing.  The deck and the input are left
    as they are (no player and no dealer draw, no decision is asked), and the
    dealer's hand keeps its two cards. *)
Theorem dealer_blackjack_ends_round
        (players : list Player) (dealer : Dealer) (deck : Deck) (inp : list line)
        (faceup : Card) :
  reveal_faceup dealer = Ok faceup ->
  peek_condition faceup = true ->
  blackjack (check_blackjack (dhand dealer)) = true ->
  exists players',
    play_hands players dealer deck inp
    = Ok (players', mkDealer (check_blackjack (dhand dealer)), deck, inp)
    /\ Forall2 (fun p p' =>
                  hand p' = hand p /\ second_hand p' = second_hand p
                  /\ wager p' = wager p
                  /\ if blackjack (hand p)
                     then money p' = money p + wager p /\ stand p' = stand p
                     else money p' = money p /\ stand p' = true)
               players players'.
Proof.
  intros Hf Hp Hb. exists (handle_dealer_blackjack players).
  split; [| apply handle_dealer_blackjack_effect].
  unfold play_hands, natural_check. rewrite Hf. cbn [bind]. rewrite Hp.
  cbn [dhand]. rewrite Hb. cbn [bind].
  rewrite players_turns_skipped by apply handle_dealer_blackjack_resolves.
  cbn [bind]. unfold dealer_turn. cbn [dhand]. rewrite Hb.
  replace (existsb _ (handle_dealer_blackjack players)) with false; [reflexivity |].
  symmetry. induction (handle_dealer_blackjack players) as [| p ps IH]; [reflexivity |].
  cbn [existsb negb]. rewrite andb_false_r. exact IH.
Qed.

(** The dealer shows a ten over an Ace; Ann holds Ace and King, Bob 9 and 8.
    Ann's 10 come back, Bob's 20 are lost, the three cards left in the deck
    and Bob's pending "hit" are untouched. *)
Lemma dealer_blackjack_ends_round_witness :
  play_round [Player_init "Ann"; Player_init "Bob"]
             [ace_hearts; nine_spades; ace_clubs; king_spades; eight_hearts; ten_clubs;
              five_diamonds; two_clubs; six_clubs]
             [Num 10; Num 20; Key KH]
  = Ok ([mkPlayer "Ann" 1000 false (mkHand [ace_hearts; king_spades] 21 true)
                  10 false None None;
         mkPlayer "Bob" 980 false (mkHand [nine_spades; eight_hearts] 17 false)
                  20 true None None],
        mkDealer (mkHand [ace_clubs; ten_clubs] 21 true),
        [five_diamonds; two_clubs; six_clubs], [Key KH])
  /\ exists players',
       play_hands [seated "Ann" 10 ace_hearts king_spades;
                   seated "Bob" 20 nine_spades eight_hearts]
                  (mkDealer (add_card (add_card Hand_init ace_clubs) ten_clubs))
                  [five_diamonds; two_clubs; six_clubs] [Key KH]
       = Ok (players', mkDealer (dealt ace_clubs ten_clubs),
             [five_diamonds; two_clubs; six_clubs], [Key KH])
       /\ Forall2 (fun p p' =>
                  hand p' = hand p /\ second_hand p' = second_hand p
                  /\ wager p' = wager p
                  /\ if blackjack (hand p)
                     then money p' = money p + wager p /\ stand p' = stand p
                     else money p' = money p /\ stand p' = true)
               [seated "Ann" 10 ace_hearts king_spades;
                seated "Bob" 20 nine_spades eight_hearts] players'.
Proof.
  split; [reflexivity |].
  apply (dealer_blackjack_ends_round
           [seated "Ann" 10 ace_hearts king_spades;
            seated "Bob" 20 nine_spades eight_hearts]
           (mkDealer (add_card (add_card Hand_init ace_clubs) ten_clubs))
           [five_diamonds; two_clubs; six_clubs] [Key KH] ten_clubs);
    reflexivity.
Defined.

(** ** Splitting *)

Lemma same_rank_spec (c0 c1 : Card) :
  same_rank c0 c1 = true <-> card_rank c0 = card_rank c1.
Proof.
  unfold same_rank. destruct (card_rank c0) as [r0 |], (card_rank c1) as [r1 |].
  - rewrite String.eqb_eq. split; congruence.
  - split; discriminate.
  - split; discriminate.
  - split; reflexivity.
Qed.

(** On the 52 names of the deck the first character decides the rank. *)
Lemma deck_initials_decide_rank :
  forallb (fun n0 => forallb (initial_decides_rank n0) (map name Deck_unshuffled))
          (map name Deck_unshuffled) = true.
Proof. vm_compute. reflexivity. Qed.

Lemma name0_decides_rank (c0 c1 : Card) :
  deck_named c0 -> deck_named c1 ->
  exists a b, name0 c0 = Ok a /\ name0 c1 = Ok b
              /\ (String.eqb a b = true <-> card_rank c0 = card_rank c1).
Proof.
  unfold deck_named. intros H0 H1.
  pose proof deck_initials_decide_rank as H. rewrite forallb_forall in H.
  specialize (H _ H0). rewrite forallb_forall in H. specialize (H _ H1).
  unfold initial_decides_rank in H.
  assert (N0 : name0 (mkCard (name c0) 0) = name0 c0) by reflexivity.
  assert (N1 : name0 (mkCard (name c1) 0) = name0 c1) by reflexivity.
  rewrite N0, N1 in H.
  destruct (name0 c0) as [a |]; [| discriminate].
  destruct (name0 c1) as [b |]; [| discriminate].
  exists a, b. split; [reflexivity |]. split; [reflexivity |].
  rewrite <- same_rank_spec.
  assert (Hr : same_rank c0 c1 = same_rank (mkCard (name c0) 0) (mkCard (name c1) 0))
    by reflexivity.
  rewrite Hr. apply Bool.eqb_prop in H. rewrite H. reflexivity.
Qed.

Lemma split_offered_spec (p : Player) :
  Forall deck_named (cards (hand p)) ->
  (split_offered p = Ok true \/ split_offered p = Ok false)
  /\ (split_offered p = Ok true <-> split_permitted p).
Proof.
  intro Hn. unfold split_offered, split_permitted.
  destruct (cards (hand p)) as [| c0 [| c1 [| c2 cs]]] eqn:Ec.
  - split; [auto |]. split; [discriminate | intros [Hlen _]; discriminate].
  - split; [auto |]. split; [discriminate | intros [Hlen _]; discriminate].
  - inversion Hn as [| ? ? H0 Hn']; subst. inversion Hn' as [| ? ? H1 _]; subst.
    destruct (name0_decides_rank c0 c1 H0 H1) as (a & b & -> & -> & Hab).
    cbn [bind].
    destruct (String.eqb a b) eqn:Eab; cbn [andb].
    + destruct (second_hand p) as [h2 |] eqn:E2; cbn [andb].
      * split; [auto |]. split; [discriminate | intros (_ & _ & Hsh & _); discriminate].
      * destruct (Z.leb_spec (wager p) (money p)).
        -- split; [auto |]. split; [| reflexivity]. intros _.
           split; [reflexivity |]. split; [| auto].
           exists c0, c1. split; [reflexivity |]. apply Hab. reflexivity.
        -- split; [auto |]. split; [discriminate | intros (_ & _ & _ & Hwm); lia].
    + split; [auto |]. split; [discriminate |].
      intros (_ & (d0 & d1 & Hd & Hr) & _). injection Hd as <- <-.
      apply Hab in Hr. discriminate.
  - split; [auto |]. split; [discriminate | intros [Hlen _]; discriminate].
Qed.

(** The turn of the loop that reads "P" when the split is not offered: the
    line is dropped and nothing else happens. *)
Lemma first_hand_loop_P_not_offered (p : Player) (deck : Deck) (rest : list line) :
  split_offered p = Ok false -> value (hand p) < LIMIT ->
  first_hand_loop p deck (Key KP :: rest) = first_hand_loop p deck rest.
Proof.
  intros Ho Hv. apply Z.ltb_lt in Hv.
  cbn [first_hand_loop]. rewrite Hv, Ho. cbn [bind upper].
  destruct rest; cbn [first_hand_loop]; rewrite Hv; reflexivity.
Qed.

(** The turn of the loop that reads "P" when the split is offered. *)
Lemma first_hand_loop_P_offered (p : Player) (deck : Deck) (rest : list line) :
  split_offered p = Ok true -> value (hand p) < LIMIT ->
  first_hand_loop p deck (Key KP :: rest)
  = ('(p', deck') <- split_hand p deck ;;
     aces <- split_aces p' ;;
     if aces then Ok (set_stand p' true, deck', rest)
     else first_hand_loop p' deck' rest).
Proof.
  intros Ho Hv. apply Z.ltb_lt in Hv.
  cbn [first_hand_loop]. rewrite Hv, Ho. cbn [bind upper key_eqb].
  destruct (split_hand p deck) as [[p' deck'] |]; [| reflexivity]. cbn [bind].
  destruct (split_aces p') as [[|] |]; reflexivity.
Qed.

Lemma split_hand_effect (p : Player) (deck : Deck) :
  List.length (cards (hand p)) = 2%nat ->
  on_ok (fun r =>
           List.length (cards (hand (fst r))) = 2%nat
           /\ wager (fst r) = wager p
           /\ money (fst r) = money p - wager p
           /\ exists h2 w2,
                second_hand (fst r) = Some h2 /\ List.length (cards h2) = 2%nat
                /\ second_wager (fst r) = Some w2
                /\ wager (fst r) + w2 = 2 * wager p)
        (split_hand p deck).
Proof.
  intro Hl. destruct (split_hand p deck) as [[p' deck'] |] eqn:E; [| exact I].
  destruct (split_hand_ok_inv _ _ _ _ E) as (front & sc & c1 & c2 & Hc & ->).
  rewrite (split_hand_eq p front sc c1 c2 deck' Hc) in E. injection E as <-.
  rewrite Hc, length_app in Hl. cbn [List.length] in Hl.
  cbn [on_ok fst hand wager money second_hand second_wager add_card cards Hand_init].
  rewrite !length_app. cbn [List.length app]. repeat split; [lia |].
  eexists _, _. repeat split. lia.
Qed.

(** C4.  For a hand of cards of the deck, s[P]lit is offered exactly when
    the hand has two cards of equal rank, no split was made this round and
    the bankroll covers the wager; where it is not offered the choice "P"
    does nothing.  A split leaves two hands of two cards, the second wager
    equal to the first (so that they sum to twice the original wager) and
    the bankroll lowered by that wager; it only fails on a deck of fewer
    than two cards. *)
Theorem split_offer_rule (p : Player) (deck : Deck) (rest : list line) :
  Forall deck_named (cards (hand p)) ->
  (split_offered p = Ok true \/ split_offered p = Ok false)
  /\ (split_offered p = Ok true <-> split_permitted p)
  /\ (split_offered p = Ok false -> value (hand p) < LIMIT ->
      first_hand_loop p deck (Key KP :: rest) = first_hand_loop p deck rest)
  /\ (split_offered p = Ok true -> value (hand p) < LIMIT ->
      first_hand_loop p deck (Key KP :: rest)
      = ('(p', deck') <- split_hand p deck ;;
         aces <- split_aces p' ;;
         if aces then Ok (set_stand p' true, deck', rest)
         else first_hand_loop p' deck' rest))
  /\ (split_offered p = Ok true ->
      on_ok (fun r =>
               List.length (cards (hand (fst r))) = 2%nat
               /\ wager (fst r) = wager p
               /\ money (fst r) = money p - wager p
               /\ exists h2 w2,
                    second_hand (fst r) = Some h2 /\ List.length (cards h2) = 2%nat
                    /\ second_wager (fst r) = Some w2
                    /\ wager (fst r) + w2 = 2 * wager p)
            (split_hand p deck)
      /\ ((2 <= List.length deck)%nat -> exists r, split_hand p deck = Ok r)).
Proof.
  intro Hn. destruct (split_offered_spec p Hn) as [Hd Hiff].
  split; [exact Hd |]. split; [exact Hiff |].
  split; [apply first_hand_loop_P_not_offered |].
  split; [apply first_hand_loop_P_offered |].
  intro Ho. apply Hiff in Ho. destruct Ho as (Hl & _). split.
  - apply split_hand_effect, Hl.
  - intro Hdeck. destruct (split_hand_total p deck) as (p' & deck' & E); [| assumption |].
    + intro Hc. rewrite Hc in Hl. discriminate.
    + eauto.
Qed.

(** A pair of eights with 990 left and 10 staked is split. *)
Lemma split_offer_rule_witness :
  Forall deck_named (cards (hand (seated "Ann" 10 eight_hearts (mkCard "8♠" 8))))
  /\ split_offered (seated "Ann" 10 eight_hearts (mkCard "8♠" 8)) = Ok true
  /\ split_hand (seated "Ann" 10 eight_hearts (mkCard "8♠" 8)) [king_spades; two_clubs]
     = Ok (mkPlayer "Ann" 980 false (mkHand [eight_hearts; king_spades] 18 false)
                    10 false (Some (mkHand [mkCard "8♠" 8; two_clubs] 10 false))
                    (Some 10), [])
  /\ (split_offered (seated "Ann" 10 eight_hearts (mkCard "8♠" 8)) = Ok true
      <-> split_permitted (seated "Ann" 10 eight_hearts (mkCard "8♠" 8))).
Proof.
  assert (Hn : Forall deck_named
                 (cards (hand (seated "Ann" 10 eight_hearts (mkCard "8♠" 8))))).
  { repeat constructor; unfold deck_named; cbn; tauto. }
  split; [exact Hn |]. split; [reflexivity |]. split; [reflexivity |].
  apply (split_offer_rule (seated "Ann" 10 eight_hearts (mkCard "8♠" 8))
           [king_spades; two_clubs] [] Hn).
Defined.

(** ** Splitting a pair of Aces *)

Lemma is_ace_name0 (c : Card) : is_ace c = true -> name0 c = Ok "A"%string.
Proof.
  unfold is_ace, name0. destruct (name c) as [| a s]; cbn [String.prefix]; [discriminate |].
  destruct (ascii_dec "A" a) as [<- |]; [| discriminate].
  intros _. destruct s; reflexivity.
Qed.

Lemma add_card_init (c : Card) : add_card Hand_init c = mkHand [c] (points c) false.
Proof.
  unfold add_card, Hand_init. cbn [value cards blackjack app].
  change (10 <? 0) with false. rewrite andb_false_r. reflexivity.
Qed.

Lemma after_first_hand_standing (q : Player) :
  stand q = true -> value (hand q) <= LIMIT -> after_first_hand q = q.
Proof.
  intros Hs Hv. unfold after_first_hand.
  assert (E : set_stand q true = q) by (destruct q; cbn in *; subst; reflexivity).
  rewrite E. destruct (value (hand q) =? LIMIT);
    (destruct (Z.ltb_spec LIMIT (value (hand q))); [lia | reflexivity]).
Qed.

(** A hand of two Aces is worth at most 12. *)
Lemma two_aces_value (h : Hand) (a0 a1 : Card) :
  hand_ok h -> cards h = [a0; a1] -> is_ace a0 = true -> is_ace a1 = true ->
  value h <= 12 /\ (points a0 = 11 \/ points a0 = 1).
Proof.
  intros (Hco & Hok & Hn) Hc H0 H1. unfold coherent in Hco.
  rewrite Hc in *. cbn [sum_points] in Hco.
  inversion Hok as [| ? ? Hk0 Hok']; subst. inversion Hok' as [| ? ? Hk1 _]; subst.
  unfold card_ok in Hk0, Hk1. rewrite H0 in Hk0. rewrite H1 in Hk1.
  rewrite !aces11_cons, H0, H1 in Hn. cbn [andb] in Hn. change (aces11 []) with 0%nat in Hn.
  split; [| assumption].
  destruct Hk0 as [E0 | E0], Hk1 as [E1 | E1]; rewrite E0, E1 in *; cbn in Hn; lia.
Qed.

(** The first hand after a split of Aces: an Ace and one more card, at most 21. *)
Lemma ace_hand_value (a0 c1 : Card) (v : Z) (b : bool) :
  is_ace a0 = true -> points a0 = 11 \/ points a0 = 1 -> v = points a0 -> fresh c1 ->
  value (add_card (mkHand [a0] v b) c1) <= LIMIT.
Proof.
  intros H0 Hp -> Hf. unfold add_card, fresh, LIMIT in *. cbn [value cards].
  destruct (is_ace c1); cbn [andb].
  - destruct (Z.ltb_spec 10 (points a0)); cbn [set_points points]; lia.
  - lia.
Qed.

(** C7.  A player who holds a pair of Aces and chooses "P" is left with the
    two hands of the split, each of two cards, and is marked standing: the
    turn ends at once, with the deck short of the two cards of the split
    only and the rest of the input unread, so that neither hand is offered
    a decision or draws again. *)
Theorem split_aces_stand
        (p : Player) (a0 a1 c1 c2 : Card) (deck : Deck) (rest : list line) :
  cards (hand p) = [a0; a1] -> is_ace a0 = true -> is_ace a1 = true ->
  hand_ok (hand p) -> blackjack (hand p) = false -> stand p = false ->
  second_hand p = None -> wager p <= money p ->
  fresh c1 -> fresh c2 ->
  exists p1 h2,
    split_hand p (c1 :: c2 :: deck) = Ok (p1, deck)
    /\ player_turn p (c1 :: c2 :: deck) (Key KP :: rest)
       = Ok (set_stand p1 true, deck, rest)
    /\ stand (set_stand p1 true) = true
    /\ List.length (cards (hand p1)) = 2%nat
    /\ second_hand p1 = Some h2
    /\ List.length (cards h2) = 2%nat
    /\ value (hand p1) <= LIMIT /\ value h2 <= LIMIT.
Proof.
  intros Hc H0 H1 Hok Hb Hs H2 Hw Hf1 Hf2.
  destruct (two_aces_value _ _ _ Hok Hc H0 H1) as [Hv Hp0].
  assert (Hco : value (hand p) = points a0 + points a1).
  { destruct Hok as (Hco & _). unfold coherent in Hco. rewrite Hc in Hco.
    cbn [sum_points] in Hco. lia. }
  assert (Hoff : split_offered p = Ok true).
  { unfold split_offered. rewrite Hc, (is_ace_name0 a0 H0), (is_ace_name0 a1 H1), H2.
    cbn [bind]. apply Z.leb_le in Hw. rewrite Hw. reflexivity. }
  pose proof (split_hand_eq p [a0] a1 c1 c2 deck Hc) as Hsp.
  rewrite H1 in Hsp.
  set (h1 := add_card (mkHand [a0] (value (hand p) - points a1) (blackjack (hand p))) c1) in *.
  set (h2 := add_card (add_card Hand_init (set_points a1 11)) c2) in *.
  set (p1 := mkPlayer (pname p) (money p - wager p) (cashout p) h1 (wager p) (stand p)
                      (Some h2) (Some (wager p))) in *.
  assert (Hv1 : value h1 <= LIMIT)
    by (apply ace_hand_value; [assumption | assumption | lia | assumption]).
  assert (Hv2 : value h2 <= LIMIT).
  { unfold h2. rewrite add_card_init.
    apply ace_hand_value; [rewrite is_ace_set_points; assumption | left; reflexivity
                          | reflexivity | assumption]. }
  exists p1, h2. split; [exact Hsp |]. split.
  - unfold player_turn. rewrite Hb, Hs. cbn [negb andb].
    rewrite (first_hand_loop_P_offered p _ rest Hoff) by (unfold LIMIT; lia).
    rewrite Hsp. cbn [bind].
    assert (Hfc : first_card h2 = Ok (set_points a1 11)).
    { unfold h2. rewrite add_card_init. reflexivity. }
    assert (Hsa : split_aces p1 = Ok true).
    { unfold split_aces. cbn [hand second_hand p1].
      unfold first_card at 1. unfold h1 at 1, add_card at 1. cbn [cards app bind].
      rewrite H0, Hfc. cbn [bind]. rewrite is_ace_set_points, H1. reflexivity. }
    assert (Htr : truthy (Some h2) = Some h2).
    { unfold h2. rewrite add_card_init. reflexivity. }
    rewrite Hsa. cbn [bind].
    rewrite (after_first_hand_standing (set_stand p1 true)) by (reflexivity || exact Hv1).
    change (second_hand (set_stand p1 true)) with (Some h2).
    rewrite Htr, Hfc. cbn [bind]. rewrite is_ace_set_points, H1. reflexivity.
  - split; [reflexivity |]. split; [reflexivity |]. split; [reflexivity |].
    split; [reflexivity |]. split; assumption.
Qed.

(** A pair of Aces is split; the "hit" and "stand" that follow in the input
    are never read. *)
Lemma split_aces_stand_witness :
  (cards (hand (seated "Ann" 10 ace_spades ace_hearts))
   = [ace_spades; set_points ace_hearts 1]
   /\ hand_ok (hand (seated "Ann" 10 ace_spades ace_hearts))
   /\ wager (seated "Ann" 10 ace_spades ace_hearts)
      <= money (seated "Ann" 10 ace_spades ace_hearts)
   /\ fresh nine_spades /\ fresh king_spades)
  /\ player_turn (seated "Ann" 10 ace_spades ace_hearts)
                 [nine_spades; king_spades; five_diamonds] [Key KP; Key KH; Key KS]
     = Ok (mkPlayer "Ann" 980 false (mkHand [ace_spades; nine_spades] 20 false) 10 true
                    (Some (mkHand [set_points ace_hearts 11; king_spades] 21 false))
                    (Some 10),
           [five_diamonds], [Key KH; Key KS])
  /\ exists p1 h2,
       split_hand (seated "Ann" 10 ace_spades ace_hearts)
                  [nine_spades; king_spades; five_diamonds] = Ok (p1, [five_diamonds])
       /\ player_turn (seated "Ann" 10 ace_spades ace_hearts)
                      [nine_spades; king_spades; five_diamonds] [Key KP; Key KH; Key KS]
          = Ok (set_stand p1 true, [five_diamonds], [Key KH; Key KS])
       /\ stand (set_stand p1 true) = true
       /\ List.length (cards (hand p1)) = 2%nat
       /\ second_hand p1 = Some h2
       /\ List.length (cards h2) = 2%nat
       /\ value (hand p1) <= LIMIT /\ value h2 <= LIMIT.
Proof.
  assert (Hok : hand_ok (hand (seated "Ann" 10 ace_spades ace_hearts))).
  { split; [reflexivity |]. split; [| cbn; lia].
    constructor; [cbv; auto | constructor; [cbv; auto | constructor]]. }
  split.
  - split; [reflexivity |]. split; [exact Hok |].
    split; [unfold seated; cbn [wager money]; lia |].
    split; cbv; intuition congruence.
  - split; [reflexivity |].
    apply (split_aces_stand (seated "Ann" 10 ace_spades ace_hearts)
             ace_spades (set_points ace_hearts 1) nine_spades king_spades
             [five_diamonds] [Key KH; Key KS]);
      try reflexivity; try exact Hok; try (cbv; intuition congruence).
Defined.

(** ** A bust *)

Lemma split_hand_second_hand (p p' : Player) (deck deck' : Deck) :
  split_hand p deck = Ok (p', deck') -> second_hand p' <> None.
Proof.
  intro E. destruct (split_hand_ok_inv _ _ _ _ E) as (front & sc & c1 & c2 & Hc & ->).
  rewrite (split_hand_eq p front sc c1 c2 deck' Hc) in E. injection E as <-.
  discriminate.
Qed.

(** What [double_down] does to the bankroll: it pays the additional wager. *)
Lemma double_down_money (p p2 : Player) (hd : which) (deck d2 : Deck) (wg w : Z)
      (inp rest' : list line) :
  double_down p hd deck wg inp = Ok (p2, d2, w, rest') ->
  money p2 + w = money p + wg /\ wager p2 = wager p
  /\ match hd with
     | First => second_hand p2 = second_hand p
     | Second => second_hand p2 <> None
     end.
Proof.
  induction inp as [| l inp IH]; [discriminate |]. cbn [double_down].
  destruct (int_of_line l) as [a |]; [| discriminate]. cbn [bind].
  destruct (negb (validate_wager a (Z.min wg (money p)))); [exact IH |].
  destruct (get_hand (set_money p (money p - a)) hd) as [h |]; [| discriminate].
  cbn [bind]. destruct (draw_card h deck) as [[h' deck'] |]; [| discriminate].
  cbn [bind]. intro H. injection H as <- _ <- _.
  destruct hd; cbn; repeat split; try lia; discriminate.
Qed.

(** A player who leaves the first loop without a second hand never split:
    the bankroll and the wager together are what they were. *)
Lemma first_hand_loop_single (inp : list line) :
  forall (p p1 : Player) (deck d1 : Deck) (i1 : list line),
    first_hand_loop p deck inp = Ok (p1, d1, i1) ->
    second_hand p1 = None ->
    second_hand p = None /\ money p1 + wager p1 = money p + wager p.
Proof.
  induction inp as [| l inp IH]; intros p p1 deck d1 i1 H Hn.
  - cbn [first_hand_loop] in H. destruct (value (hand p) <? LIMIT); [discriminate |].
    injection H as <- _ _. auto.
  - cbn [first_hand_loop] in H. destruct (value (hand p) <? LIMIT).
    2:{ injection H as <- _ _. auto. }
    destruct (split_offered p) as [offered |]; [| discriminate]. cbn [bind] in H.
    assert (Hrest :
      match upper l with
      | KH => '(h, deck2) <- draw_card (hand p) deck ;;
              first_hand_loop (set_hand p h) deck2 inp
      | KS => Ok (set_stand p true, deck, inp)
      | KD => '(player2, deck2, w, rest') <-
                double_down p First deck (wager p) inp ;;
              Ok (set_wager player2 w, deck2, rest')
      | _ => first_hand_loop p deck inp
      end = Ok (p1, d1, i1) ->
      second_hand p = None /\ money p1 + wager p1 = money p + wager p).
    { clear H. intro H. destruct (upper l).
      - destruct (draw_card (hand p) deck) as [[h deck2] |]; [| discriminate].
        cbn [bind] in H. apply (IH _ _ _ _ _ H Hn).
      - injection H as <- _ _. auto.
      - destruct (double_down p First deck (wager p) inp) as [[[[p2 d2] w] r'] |] eqn:E;
          [| discriminate].
        cbn [bind] in H. injection H as <- _ _.
        destruct (double_down_money _ _ _ _ _ _ _ _ _ E) as (Hm & Hw & Hs).
        cbn in *. rewrite <- Hs. split; [assumption | lia].
      - apply (IH _ _ _ _ _ H Hn).
      - apply (IH _ _ _ _ _ H Hn).
      - apply (IH _ _ _ _ _ H Hn).
      - apply (IH _ _ _ _ _ H Hn). }
    destruct offered; [| apply Hrest; exact H].
    destruct (key_eqb (upper l) KP) eqn:Ek; [| apply Hrest; exact H].
    exfalso.
    destruct (split_hand p deck) as [[p' d'] |] eqn:Es; [| discriminate].
    cbn [bind] in H. pose proof (split_hand_second_hand _ _ _ _ Es) as Hsh.
    destruct (split_aces p') as [[|] |]; [| | discriminate]; cbn [bind] in H.
    + injection H as <- _ _. apply Hsh. exact Hn.
    + destruct (upper l); try discriminate.
      destruct (IH _ _ _ _ _ H Hn) as [Hp' _]. apply Hsh. exact Hp'.
Qed.

(** A player who went through the second loop has a second hand. *)
Lemma second_hand_loop_second_hand (inp : list line) :
  forall (p p3 : Player) (deck d3 : Deck) (i3 : list line),
    second_hand_loop p deck inp = Ok (p3, d3, i3) -> second_hand p3 <> None.
Proof.
  induction inp as [| l inp IH]; intros p p3 deck d3 i3 H.
  - cbn [second_hand_loop] in H. unfold get_hand in H.
    destruct (second_hand p) as [h2 |] eqn:E; [| discriminate]. cbn [bind] in H.
    destruct (value h2 <? LIMIT); [discriminate |]. injection H as <- _ _.
    rewrite E. discriminate.
  - cbn [second_hand_loop] in H. unfold get_hand in H.
    destruct (second_hand p) as [h2 |] eqn:E; [| discriminate]. cbn [bind] in H.
    destruct (value h2 <? LIMIT).
    2:{ injection H as <- _ _. rewrite E. discriminate. }
    destruct (upper l); try (apply (IH _ _ _ _ _ H)).
    + destruct (draw_card h2 deck) as [[h d1] |]; [| discriminate].
      cbn [bind] in H. apply (IH _ _ _ _ _ H).
    + injection H as <- _ _. cbn. rewrite E. discriminate.
    + destruct (int_of (second_wager p)) as [w0 |]; [| discriminate]. cbn [bind] in H.
      destruct (double_down p Second deck w0 inp) as [[[[p2 d2] w] r'] |] eqn:Ed;
        [| discriminate].
      cbn [bind] in H. injection H as <- _ _.
      destruct (double_down_money _ _ _ _ _ _ _ _ _ Ed) as (_ & _ & Hs). exact Hs.
Qed.

Lemma after_first_hand_fields (q : Player) :
  money (after_first_hand q) = money q /\ wager (after_first_hand q) = wager q
  /\ hand (after_first_hand q) = hand q
  /\ second_hand (after_first_hand q) = second_hand q
  /\ (LIMIT < value (hand q) -> stand (after_first_hand q) = false).
Proof.
  unfold after_first_hand.
  destruct (Z.eqb_spec (value (hand q)) LIMIT) as [E | E]; cbn [hand set_stand];
    destruct (Z.ltb_spec LIMIT (value (hand q))); cbn; repeat split; intros; try lia;
    reflexivity.
Qed.

Lemma after_second_hand_second_hand (q : Player) (h : Hand) :
  second_hand (after_second_hand q h) = second_hand q.
Proof.
  unfold after_second_hand.
  destruct (value h =? LIMIT), (LIMIT <? value h); cbn [stand set_stand negb second_hand];
    try reflexivity; destruct (stand q); reflexivity.
Qed.

Lemma mapM_nth {A B : Type} (f : A -> result B) (before after : list A) (x : A)
      (y : B) (l : list B) :
  mapM f (before ++ x :: after) = Ok l -> f x = Ok y ->
  nth_error l (List.length before) = Some y.
Proof.
  revert l. induction before as [| b before IH]; intros l H Hx; cbn [app mapM] in H.
  - rewrite Hx in H. cbn [bind] in H.
    destruct (mapM f after); [| discriminate]. injection H as <-. reflexivity.
  - destruct (f b); [| discriminate]. cbn [bind] in H.
    destruct (mapM f (before ++ x :: after)) as [l' |] eqn:E; [| discriminate].
    injection H as <-. cbn [List.length nth_error]. apply (IH l' eq_refl Hx).
Qed.

(** A player who is not standing is passed over by both settlements. *)
Lemma not_standing_not_settled (q : Player) (dealer : Dealer) :
  stand q = false ->
  payout_after_dealer_bust_player q = Ok q
  /\ compare_multiple_hands_player dealer q = Ok q.
Proof.
  intro H. unfold payout_after_dealer_bust_player, compare_multiple_hands_player.
  rewrite H. auto.
Qed.

(** Every turn of the loops reads a line: what is left of the input is
    shorter. *)
Lemma double_down_reads (p p2 : Player) (hd : which) (deck d2 : Deck) (wg w : Z)
      (inp rest' : list line) :
  double_down p hd deck wg inp = Ok (p2, d2, w, rest') ->
  (List.length rest' < List.length inp)%nat.
Proof.
  induction inp as [| l inp IH]; [discriminate |]. cbn [double_down List.length].
  destruct (int_of_line l) as [a |]; [| discriminate]. cbn [bind].
  destruct (negb (validate_wager a (Z.min wg (money p)))).
  - intro H. specialize (IH H). lia.
  - destruct (get_hand (set_money p (money p - a)) hd) as [h |]; [| discriminate].
    cbn [bind]. destruct (draw_card h deck) as [[h' deck'] |]; [| discriminate].
    cbn [bind]. intro H. injection H as _ _ _ <-. lia.
Qed.

Lemma first_hand_loop_reads (inp : list line) :
  forall (p p1 : Player) (deck d1 : Deck) (i1 : list line),
    first_hand_loop p deck inp = Ok (p1, d1, i1) ->
    (List.length i1 <= List.length inp)%nat
    /\ (value (hand p) < LIMIT -> (List.length i1 < List.length inp)%nat).
Proof.
  induction inp as [| l inp IH]; intros p p1 deck d1 i1 H.
  - cbn [first_hand_loop] in H. destruct (Z.ltb_spec (value (hand p)) LIMIT); [discriminate |].
    injection H as _ _ <-. split; [lia | intro; lia].
  - cbn [first_hand_loop] in H. destruct (Z.ltb_spec (value (hand p)) LIMIT).
    2:{ injection H as _ _ <-. split; [lia | intro; lia]. }
    cbn [List.length].
    enough (Hlen : (List.length i1 <= List.length inp)%nat) by (split; [lia | intro; lia]).
    destruct (split_offered p) as [offered |]; [| discriminate]. cbn [bind] in H.
    assert (Hrest : forall q d,
      match upper l with
      | KH => '(h, deck2) <- draw_card (hand q) d ;;
              first_hand_loop (set_hand q h) deck2 inp
      | KS => Ok (set_stand q true, d, inp)
      | KD => '(player2, deck2, w, rest') <-
                double_down q First d (wager q) inp ;;
              Ok (set_wager player2 w, deck2, rest')
      | _ => first_hand_loop q d inp
      end = Ok (p1, d1, i1) ->
      (List.length i1 <= List.length inp)%nat).
    { clear H. intros q d H. destruct (upper l).
      - destruct (draw_card (hand q) d) as [[h deck2] |]; [| discriminate].
        cbn [bind] in H. apply (IH _ _ _ _ _ H).
      - injection H as _ _ <-. lia.
      - destruct (double_down q First d (wager q) inp) as [[[[p2 d2] w] r'] |] eqn:E;
          [| discriminate].
        cbn [bind] in H. injection H as _ _ <-.
        apply double_down_reads in E. lia.
      - apply (IH _ _ _ _ _ H).
      - apply (IH _ _ _ _ _ H).
      - apply (IH _ _ _ _ _ H).
      - apply (IH _ _ _ _ _ H). }
    destruct offered; [| apply (Hrest p deck); exact H].
    destruct (key_eqb (upper l) KP) eqn:Ek; [| apply (Hrest p deck); exact H].
    destruct (split_hand p deck) as [[p' d'] |]; [| discriminate].
    cbn [bind] in H.
    destruct (split_aces p') as [[|] |]; [| | discriminate]; cbn [bind] in H.
    + injection H as _ _ <-. lia.
    + apply (Hrest p' d'). exact H.
Qed.

(** A player who leaves the first loop without a second hand and without
    having chosen [D] has the bankroll and the wager of before. *)
Lemma first_hand_loop_no_double (used : list line) :
  forall (p p1 : Player) (deck d1 : Deck) (i1 : list line),
    first_hand_loop p deck (used ++ i1) = Ok (p1, d1, i1) ->
    Forall (fun l => upper l <> KD) used ->
    second_hand p1 = None ->
    money p1 = money p /\ wager p1 = wager p.
Proof.
  induction used as [| l used IH]; intros p p1 deck d1 i1 H Hu Hn.
  - cbn [app] in H. destruct (Z.ltb_spec (value (hand p)) LIMIT) as [Hlt | Hge].
    + destruct (first_hand_loop_reads _ _ _ _ _ _ H) as [_ Hr]. specialize (Hr Hlt). lia.
    + apply Z.ltb_ge in Hge.
      destruct i1; cbn [first_hand_loop] in H; rewrite Hge in H;
        injection H as <- _; auto.
  - inversion Hu as [| ? ? Hl Hu']; subst.
    cbn [app first_hand_loop] in H. destruct (value (hand p) <? LIMIT).
    2:{ injection H as <- _ _. auto. }
    destruct (split_offered p) as [offered |]; [| discriminate]. cbn [bind] in H.
    assert (Hrest :
      match upper l with
      | KH => '(h, deck2) <- draw_card (hand p) deck ;;
              first_hand_loop (set_hand p h) deck2 (used ++ i1)
      | KS => Ok (set_stand p true, deck, used ++ i1)
      | KD => '(player2, deck2, w, rest') <-
                double_down p First deck (wager p) (used ++ i1) ;;
              Ok (set_wager player2 w, deck2, rest')
      | _ => first_hand_loop p deck (used ++ i1)
      end = Ok (p1, d1, i1) ->
      money p1 = money p /\ wager p1 = wager p).
    { clear H. intro H. destruct (upper l).
      - destruct (draw_card (hand p) deck) as [[h deck2] |]; [| discriminate].
        cbn [bind] in H. apply (IH _ _ _ _ _ H Hu' Hn).
      - injection H as <- _ _. auto.
      - exfalso. apply Hl. reflexivity.
      - apply (IH _ _ _ _ _ H Hu' Hn).
      - apply (IH _ _ _ _ _ H Hu' Hn).
      - apply (IH _ _ _ _ _ H Hu' Hn).
      - apply (IH _ _ _ _ _ H Hu' Hn). }
    destruct offered; [| apply Hrest; exact H].
    destruct (key_eqb (upper l) KP) eqn:Ek; [| apply Hrest; exact H].
    exfalso.
    destruct (split_hand p deck) as [[p' d'] |] eqn:Es; [| discriminate].
    cbn [bind] in H. pose proof (split_hand_second_hand _ _ _ _ Es) as Hsh.
    destruct (split_aces p') as [[|] |]; [| | discriminate]; cbn [bind] in H.
    + injection H as <- _ _. apply Hsh. exact Hn.
    + destruct (upper l); try discriminate.
      destruct (first_hand_loop_single _ _ _ _ _ _ H Hn) as [Hp' _]. apply Hsh. exact Hp'.
Qed.

(** C5, amended.  A player who went through the decision loop and ends the
    turn with a single hand worth more than 21 is not marked standing.  The
    wager is lost together with whatever a double down added to it: the
    bankroll is its amount after the bet less the additional wager, and it
    is that amount itself when no [D] was typed during the turn.  The
    dealer's turn, whether the dealer busts or not, leaves this player
    untouched: no payout, no comparison. *)
Theorem bust_forfeits
        (p p' : Player) (deck deck' : Deck) (inp inp' : list line) :
  blackjack (hand p) = false -> stand p = false ->
  player_turn p deck inp = Ok (p', deck', inp') ->
  second_hand p' = None -> LIMIT < value (hand p') ->
  stand p' = false
  /\ money p' = money p - (wager p' - wager p)
  /\ (forall used, inp = used ++ inp' -> Forall (fun l => upper l <> KD) used ->
      money p' = money p /\ wager p' = wager p)
  /\ payout_after_dealer_bust_player p' = Ok p'
  /\ (forall dealer, compare_multiple_hands_player dealer p' = Ok p')
  /\ (forall before after dealer deck0,
        on_ok (fun r => nth_error (fst (fst r)) (List.length before) = Some p')
              (dealer_turn (before ++ p' :: after) dealer deck0)).
Proof.
  intros Hb Hs H Hn Hv.
  unfold player_turn in H. rewrite Hb, Hs in H. cbn [negb andb] in H.
  destruct (first_hand_loop p deck inp) as [[[q d1] i1] |] eqn:E1; [| discriminate].
  cbn [bind] in H.
  destruct (after_first_hand_fields q) as (Hm & Hw & Hh & Hsh & Hst).
  assert (Hp' : p' = after_first_hand q /\ inp' = i1).
  { destruct (truthy (second_hand (after_first_hand q))) as [h2 |] eqn:Et.
    - exfalso. destruct (first_card h2) as [c |]; [| discriminate]. cbn [bind] in H.
      destruct (negb (is_ace c)).
      + destruct (second_hand_loop (after_first_hand q) d1 i1) as [[[p3 d3] i3] |] eqn:E2;
          [| discriminate].
        cbn [bind] in H. destruct (get_hand p3 Second) as [h2' |]; [| discriminate].
        cbn [bind] in H. injection H as <- _ _.
        rewrite after_second_hand_second_hand in Hn.
        apply (second_hand_loop_second_hand _ _ _ _ _ _ E2). exact Hn.
      + injection H as <- _ _. rewrite Hn in Et. discriminate.
    - injection H as <- _ <-. split; reflexivity. }
  destruct Hp' as [-> ->]. rewrite Hsh in Hn. rewrite Hh in Hv.
  destruct (first_hand_loop_single _ _ _ _ _ _ E1 Hn) as [_ Hcons].
  assert (Hstand : stand (after_first_hand q) = false) by (apply Hst, Hv).
  split; [exact Hstand |]. split; [lia |].
  split.
  { intros used -> Hu. rewrite Hm, Hw.
    apply (first_hand_loop_no_double used _ _ _ _ _ E1 Hu Hn). }
  split; [apply not_standing_not_settled; [exact (mkDealer Hand_init) | exact Hstand] |].
  split; [intro dealer; apply not_standing_not_settled; exact Hstand |].
  intros before after dealer deck0. unfold dealer_turn.
  destruct (existsb _ (before ++ after_first_hand q :: after)).
  - unfold resolve_dealer_hand.
    destruct (dealer_draws deck0 (dhand dealer)) as [[h d'] |]; [| exact I].
    cbn [bind]. destruct (LIMIT <? value h).
    + destruct (payout_after_dealer_bust _) as [l |] eqn:El; [| exact I].
      cbn [bind on_ok fst]. apply (mapM_nth _ _ _ _ _ _ El).
      apply not_standing_not_settled; [exact dealer | exact Hstand].
    + destruct (compare_multiple_hands _ _) as [l |] eqn:El; [| exact I].
      cbn [bind on_ok fst]. apply (mapM_nth _ _ _ _ _ _ El).
      apply not_standing_not_settled. exact Hstand.
  - cbn [on_ok fst]. rewrite nth_error_app2 by lia. rewrite Nat.sub_diag. reflexivity.
Qed.

(** Bob has 30 left after a bet of 20, holds 9 and 8 and hits a 7: 24.  The
    30 are still there and Bob is not standing.  Ann stands on 20; the
    dealer draws to 26 and busts, Ann is paid, Bob is not. *)
Lemma bust_forfeits_witness :
  player_turn (mkPlayer "Bob" 30 false (dealt nine_spades eight_hearts) 20 false None None)
              [mkCard "7♦" 7; king_spades] [Key KH; Key KS]
  = Ok (mkPlayer "Bob" 30 false
                 (mkHand [nine_spades; eight_hearts; mkCard "7♦" 7] 24 false)
                 20 false None None,
        [king_spades], [Key KS])
  /\ dealer_turn
       ([mkPlayer "Ann" 990 false (dealt queen_hearts ten_clubs) 10 true None None]
        ++ mkPlayer "Bob" 30 false
                    (mkHand [nine_spades; eight_hearts; mkCard "7♦" 7] 24 false)
                    20 false None None :: [])
       (mkDealer (dealt six_clubs (mkCard "J♠" 10))) [king_spades; two_clubs]
     = Ok ([mkPlayer "Ann" 1010 false (dealt queen_hearts ten_clubs) 10 true None None;
            mkPlayer "Bob" 30 false
                     (mkHand [nine_spades; eight_hearts; mkCard "7♦" 7] 24 false)
                     20 false None None],
           mkDealer (mkHand [six_clubs; mkCard "J♠" 10; king_spades] 26 false),
           [two_clubs])
  /\ stand (mkPlayer "Bob" 30 false
                     (mkHand [nine_spades; eight_hearts; mkCard "7♦" 7] 24 false)
                     20 false None None) = false
  /\ money (mkPlayer "Bob" 30 false
                     (mkHand [nine_spades; eight_hearts; mkCard "7♦" 7] 24 false)
                     20 false None None)
     = money (mkPlayer "Bob" 30 false (dealt nine_spades eight_hearts) 20 false None None).
Proof.
  split; [reflexivity |]. split; [reflexivity |].
  destruct (bust_forfeits
              (mkPlayer "Bob" 30 false (dealt nine_spades eight_hearts) 20 false None None)
              (mkPlayer "Bob" 30 false
                        (mkHand [nine_spades; eight_hearts; mkCard "7♦" 7] 24 false)
                        20 false None None)
              [mkCard "7♦" 7; king_spades] [king_spades] [Key KH; Key KS] [Key KS]
              eq_refl eq_refl eq_refl eq_refl eq_refl)
    as (Hs & _ & Hm & _).
  split; [exact Hs |].
  apply (Hm [Key KH]); [reflexivity |].
  constructor; [discriminate | constructor].
Defined.

(** C5 as stated fails when the bust comes on the card of a double down.
    Bob has 30 left after a bet of 20, holds 9 and 8, types [D], adds 10 and
    draws a King: 27.  Bob is not standing, no second hand exists, and the
    bankroll is 20, not the 30 that were left after the bet. *)
Lemma double_down_bust_lowers_bankroll :
  player_turn (mkPlayer "Bob" 30 false (dealt nine_spades eight_hearts) 20 false None None)
              [king_spades; two_clubs] [Key KD; Num 10; Key KS]
  = Ok (mkPlayer "Bob" 20 false
                 (mkHand [nine_spades; eight_hearts; king_spades] 27 false)
                 30 false None None,
        [two_clubs], [Key KS])
  /\ blackjack (dealt nine_spades eight_hearts) = false
  /\ LIMIT < value (mkHand [nine_spades; eight_hearts; king_spades] 27 false)
  /\ money (mkPlayer "Bob" 20 false
                     (mkHand [nine_spades; eight_hearts; king_spades] 27 false)
                     30 false None None)
     <> money (mkPlayer "Bob" 30 false (dealt nine_spades eight_hearts) 20 false None None).
Proof.
  split; [reflexivity |]. split; [reflexivity |]. split; [reflexivity |].
  cbn [money]. discriminate.
Qed.

(** * Further properties of the code *)

(** ** The value of a hand is its best total *)

Lemma sum_points_hard (cs : list Card) :
  Forall card_ok cs ->
  sum_points cs = hard_points cs + 10 * Z.of_nat (aces11 cs).
Proof.
  induction 1 as [| c cs Hc _ IH]; [reflexivity |].
  rewrite aces11_cons. cbn [sum_points hard_points]. unfold card_ok in Hc.
  destruct (is_ace c); cbn [andb].
  - destruct (Z.eqb_spec (points c) 11); lia.
  - lia.
Qed.

Lemma aces11_has_ace (cs : list Card) :
  (1 <= aces11 cs)%nat -> has_ace cs = true.
Proof.
  induction cs as [| c cs IH]; [cbn; lia |].
  rewrite aces11_cons. unfold has_ace in *. cbn [existsb].
  destruct (is_ace c); cbn [andb orb]; [reflexivity |]. exact IH.
Qed.

Lemma has_ace_app (l1 l2 : list Card) :
  has_ace (l1 ++ l2) = has_ace l1 || has_ace l2.
Proof. unfold has_ace. apply existsb_app. Qed.

Lemma demote_aces_names (cs : list Card) (v : Z) :
  map name (fst (demote_aces cs v)) = map name cs.
Proof.
  revert v. induction cs as [| c cs IH]; intro v; cbn [demote_aces]; [reflexivity |].
  destruct (is_ace c && (points c =? 11)).
  - specialize (IH (v - 10)). destruct (demote_aces cs (v - 10)). cbn [fst map] in *.
    rewrite IH. reflexivity.
  - specialize (IH v). destruct (demote_aces cs v). cbn [fst map] in *.
    rewrite IH. reflexivity.
Qed.

Lemma has_ace_names (cs cs' : list Card) :
  map name cs = map name cs' -> has_ace cs = has_ace cs'.
Proof.
  revert cs'. induction cs as [| c cs IH]; intros [| c' cs'] H; try discriminate;
    [reflexivity |].
  cbn [map] in H. injection H as Hn Hr. unfold has_ace in *. cbn [existsb].
  unfold is_ace at 1 3. rewrite Hn, (IH cs' Hr). reflexivity.
Qed.

(** The value of a hand of the program, read off its cards. *)
Lemma hand_ok_value (h : Hand) :
  hand_ok h -> value h = hard_points (cards h) + 10 * Z.of_nat (aces11 (cards h)).
Proof. intros (Hco & Hok & _). rewrite Hco. apply sum_points_hard, Hok. Qed.

Lemma settled_init : settled Hand_init.
Proof. split; [apply hand_ok_init | reflexivity]. Qed.

(** One card more, then the Aces revalued: the value is the best total again. *)
Lemma settled_draw (h : Hand) (c : Card) :
  settled h -> fresh c -> settled (reset_ace_value (add_card h c)).
Proof.
  intros [Hok Hbest] Hf.
  assert (Hok1 : hand_ok (add_card h c)) by auto with blackjack.
  assert (Hok2 : hand_ok (reset_ace_value (add_card h c))) by auto with blackjack.
  split; [exact Hok2 |].
  pose proof (hand_ok_value _ Hok) as Hv.
  pose proof (hand_ok_value _ Hok1) as Hv1.
  pose proof (hand_ok_value _ Hok2) as Hv2.
  destruct Hok as (_ & Hcards & Hn). destruct Hok1 as (_ & _ & Hn1).
  pose proof (hard_points_le_sum _ Hcards) as [Hh0 _].
  assert (Hace : (1 <= aces11 (cards h))%nat -> has_ace (cards h) = true)
    by apply aces11_has_ace.
  assert (Hace1 : (1 <= aces11 (cards (add_card h c)))%nat
                  -> has_ace (cards (add_card h c)) = true) by apply aces11_has_ace.
  (* the hand after [add_card] *)
  assert (Hadd : hard_points (cards (add_card h c))
                 = hard_points (cards h) + (if is_ace c then 1 else points c)
                 /\ has_ace (cards (add_card h c)) = has_ace (cards h) || is_ace c
                 /\ value (add_card h c)
                    = value h + (if is_ace c && (10 <? value h) then 1 else points c)).
  { unfold add_card. cbn [cards value]. rewrite hard_points_app, has_ace_app.
    unfold has_ace at 2. cbn [hard_points existsb].
    rewrite orb_false_r.
    destruct (is_ace c) eqn:Ec; cbn [andb]; [destruct (10 <? value h) |];
      rewrite ?is_ace_set_points, ?Ec; cbn [set_points points]; repeat split; lia. }
  destruct Hadd as (Hhard & Hhas & Hval).
  (* the hand after [reset_ace_value] *)
  assert (Hres : hard_points (cards (reset_ace_value (add_card h c)))
                 = hard_points (cards (add_card h c))
                 /\ has_ace (cards (reset_ace_value (add_card h c)))
                    = has_ace (cards (add_card h c))).
  { unfold reset_ace_value. destruct (LIMIT <? value (add_card h c)); [| auto].
    pose proof (demote_aces_hard (cards (add_card h c)) (value (add_card h c))) as E1.
    pose proof (demote_aces_names (cards (add_card h c)) (value (add_card h c))) as E2.
    destruct (demote_aces _ _) as [cs v]. cbn [fst cards] in *.
    split; [exact E1 | apply has_ace_names, E2]. }
  destruct Hres as (Hhard2 & Hhas2).
  assert (Hcase : (reset_ace_value (add_card h c) = add_card h c
                   /\ value (add_card h c) <= LIMIT)
                  \/ (LIMIT < value (add_card h c)
                      /\ aces11 (cards (reset_ace_value (add_card h c))) = 0%nat)).
  { destruct (Z.le_gt_cases (value (add_card h c)) LIMIT) as [Hle | Hgt].
    - left. split; [apply reset_ace_value_le_limit, Hle | exact Hle].
    - right. split; [lia |].
      unfold reset_ace_value. apply Z.ltb_lt in Hgt. rewrite Hgt.
      pose proof (demote_aces_aces11 (cards (add_card h c)) (value (add_card h c))) as E0.
      destruct (demote_aces _ _) as [cs v]. exact E0. }
  unfold best_total in *. rewrite Hhas2, Hhard2, Hhas, Hhard.
  unfold fresh in Hf. unfold LIMIT in *.
  destruct Hcase as [[E Hle] | [Hgt E]].
  - rewrite E in *. clear Hv2 Hok2.
    destruct (has_ace (cards h)) eqn:Eh; cbn [andb orb] in *.
    + destruct (is_ace c) eqn:Ec; cbn [andb] in *.
      * destruct (Z.ltb_spec 10 (value h));
          destruct (Z.leb_spec (hard_points (cards h) + 10) 21);
          destruct (Z.leb_spec (hard_points (cards h) + 1 + 10) 21); lia.
      * destruct (Z.leb_spec (hard_points (cards h) + 10) 21);
          destruct (Z.leb_spec (hard_points (cards h) + points c + 10) 21); lia.
    + assert (H0 : aces11 (cards h) = 0%nat).
      { destruct (aces11 (cards h)) eqn:E11; [reflexivity |].
        assert (false = true) by (apply Hace; lia). discriminate. }
      rewrite H0 in *. destruct (is_ace c) eqn:Ec; cbn [andb] in *.
      * destruct (Z.ltb_spec 10 (value h));
          destruct (Z.leb_spec (hard_points (cards h) + 1 + 10) 21); lia.
      * lia.
  - rewrite Hv2, E, Hhard2, Hhard. rewrite Hv1, Hhard in Hgt.
    destruct (has_ace (cards h) || is_ace c); cbn [andb]; [| lia].
    destruct (Z.leb_spec (hard_points (cards h) + (if is_ace c then 1 else points c) + 10) 21);
      [| lia].
    destruct (aces11 (cards (add_card h c))) as [| [| k]] eqn:E11; [| | lia].
    + lia.
    + lia.
Qed.

Lemma settled_flag (h : Hand) (b : bool) :
  settled h -> settled (mkHand (cards h) (value h) b).
Proof. intros [(Hco & Hok & Hn) Hb]. repeat split; assumption. Qed.

(** [add_card] alone keeps the best total as long as it stays within 21. *)
Lemma settled_add_card (h : Hand) (c : Card) :
  settled h -> fresh c -> value (add_card h c) <= LIMIT -> settled (add_card h c).
Proof.
  intros Hs Hf Hle. rewrite <- (reset_ace_value_le_limit _ Hle).
  apply settled_draw; assumption.
Qed.

(** One card on an empty hand, then one more, never pass 21. *)
Lemma two_cards_value (c1 c2 : Card) (b : bool) :
  fresh c1 -> fresh c2 ->
  value (add_card (mkHand [c1] (points c1) b) c2) <= LIMIT.
Proof.
  unfold fresh, add_card, LIMIT. cbn [value cards]. intros H1 H2.
  destruct (is_ace c2); cbn [andb].
  - destruct (Z.ltb_spec 10 (points c1)); cbn [set_points points];
      destruct (is_ace c1); lia.
  - destruct (is_ace c1); lia.
Qed.

Lemma settled_one_card (c : Card) (b : bool) :
  fresh c -> settled (mkHand [c] (points c) b).
Proof.
  intro Hf.
  assert (H : settled (add_card Hand_init c)).
  { apply settled_add_card; [apply settled_init | exact Hf |].
    rewrite add_card_init. unfold fresh, LIMIT in *. cbn [value].
    destruct (is_ace c); lia. }
  rewrite add_card_init in H. apply (settled_flag _ b) in H. exact H.
Qed.

Lemma settled_two_cards (c1 c2 : Card) (b : bool) :
  fresh c1 -> fresh c2 -> settled (add_card (mkHand [c1] (points c1) b) c2).
Proof.
  intros H1 H2. apply settled_add_card;
    [apply settled_one_card, H1 | exact H2 | apply two_cards_value; assumption].
Qed.

Lemma settled_dealt (c1 c2 : Card) : fresh c1 -> fresh c2 -> settled (dealt c1 c2).
Proof.
  intros H1 H2. unfold dealt, check_blackjack. apply settled_flag.
  rewrite add_card_init. apply settled_two_cards; assumption.
Qed.

(** A bust is a matter of the hard total alone. *)
Lemma settled_bust (h : Hand) :
  settled h -> (LIMIT < value h <-> LIMIT < hard_points (cards h)).
Proof.
  intros [_ Hb]. rewrite Hb. unfold best_total, LIMIT.
  destruct (has_ace (cards h)); cbn [andb]; [| reflexivity].
  destruct (Z.leb_spec (hard_points (cards h) + 10) 21); lia.
Qed.

Lemma fresh_eta (c : Card) (n : Z) : points c = n -> mkCard (name c) n = c.
Proof. intros <-. destruct c. reflexivity. Qed.

(** The two hands left by the split of a dealt pair. *)
Lemma settled_split_hand (p : Player) (c1 c2 : Card) (deck : Deck) :
  fresh c1 -> fresh c2 -> Forall fresh deck -> hand p = dealt c1 c2 ->
  on_ok (fun r => settled (hand (fst r))
                  /\ exists h2, second_hand (fst r) = Some h2 /\ settled h2)
        (split_hand p deck).
Proof.
  intros H1 H2 Hd Hp.
  destruct (split_hand p deck) as [[p' deck'] |] eqn:E; [| exact I].
  destruct (split_hand_ok_inv _ _ _ _ E) as (front & sc & d1 & d2 & Hc & ->).
  rewrite (split_hand_eq p front sc d1 d2 deck' Hc) in E. injection E as <-.
  inversion Hd as [| ? ? Hf1 Hd']; subst. inversion Hd' as [| ? ? Hf2 _]; subst.
  rewrite Hp in Hc. unfold dealt, check_blackjack in Hc. cbn [cards] in Hc.
  rewrite add_card_init in Hc. unfold add_card in Hc. cbn [cards value app] in Hc.
  change [c1; ?x] with ([c1] ++ [x]) in Hc. apply app_inj_tail in Hc as [<- Hsc].
  assert (Hv : value (hand p) - points sc = points c1).
  { rewrite Hp. unfold dealt, check_blackjack. cbn [value].
    rewrite add_card_init. unfold add_card. cbn [value cards]. rewrite Hsc. lia. }
  assert (Hsc' : (if is_ace sc then set_points sc 11 else sc) = c2).
  { unfold fresh in H2. rewrite <- Hsc.
    destruct (is_ace c2) eqn:E2; cbn [andb].
    - destruct (10 <? points c1); rewrite ?is_ace_set_points, E2;
        unfold set_points; cbn [name points]; apply fresh_eta, H2.
    - rewrite E2. reflexivity. }
  cbn [on_ok fst hand second_hand]. rewrite Hv, Hsc'. split.
  - apply settled_two_cards; assumption.
  - eexists. split; [reflexivity |]. rewrite add_card_init.
    apply settled_two_cards; assumption.
Qed.

(** X1.  The cached value of a hand is its best total - the hard total, plus
    10 when the hand holds an Ace and that does not pass 21 - for a hand as
    dealt, after every [draw_card], and for both hands left by the split of
    a dealt pair; so a hand is bust exactly when its hard total passes 21. *)
Theorem value_is_best_total
        (p : Player) (h : Hand) (c1 c2 : Card) (deck : Deck) :
  fresh c1 -> fresh c2 -> settled h -> Forall fresh deck -> hand p = dealt c1 c2 ->
  settled (dealt c1 c2)
  /\ on_ok (fun r => settled (fst r)) (draw_card h deck)
  /\ on_ok (fun r => settled (hand (fst r))
                     /\ exists h2, second_hand (fst r) = Some h2 /\ settled h2)
           (split_hand p deck)
  /\ value h = best_total (cards h)
  /\ (LIMIT < value h <-> LIMIT < hard_points (cards h)).
Proof.
  intros H1 H2 Hs Hd Hp. split; [apply settled_dealt; assumption |]. split.
  - destruct Hd as [| c deck Hc _]; cbn; [exact I |]. apply settled_draw; assumption.
  - split; [apply (settled_split_hand p c1 c2); assumption |].
    split; [apply Hs | apply settled_bust, Hs].
Qed.

(** A soft 17 (Ace and 6) draws a King: the Ace is demoted and the value is
    17, the hard total; a pair of eights is split into 18 and 10. *)
Lemma value_is_best_total_witness :
  draw_card (dealt ace_spades six_clubs) [king_spades]
  = Ok (mkHand [set_points ace_spades 1; six_clubs; king_spades] 17 false, [])
  /\ best_total [set_points ace_spades 1; six_clubs; king_spades] = 17
  /\ on_ok (fun r => settled (fst r))
           (draw_card (dealt ace_spades six_clubs) [king_spades; two_clubs])
  /\ on_ok (fun r => settled (hand (fst r))
                     /\ exists h2, second_hand (fst r) = Some h2 /\ settled h2)
           (split_hand (seated "Ann" 10 eight_hearts (mkCard "8♠" 8))
                       [king_spades; two_clubs]).
Proof.
  split; [reflexivity |]. split; [reflexivity |].
  assert (Hd : Forall fresh [king_spades; two_clubs])
    by (constructor; [cbv; intuition congruence
                     | constructor; [cbv; intuition congruence | constructor]]).
  assert (Hs : settled (dealt ace_spades six_clubs))
    by (apply settled_dealt; cbv; intuition congruence).
  destruct (value_is_best_total (seated "Ann" 10 eight_hearts (mkCard "8♠" 8))
              (dealt ace_spades six_clubs) eight_hearts (mkCard "8♠" 8)
              [king_spades; two_clubs])
    as (_ & Hdraw & Hsplit & _);
    [cbv; intuition congruence | cbv; intuition congruence | exact Hs | exact Hd
     | reflexivity |].
  split; assumption.
Defined.

(** ** Natural blackjack *)

(** X2.  A hand dealt from two cards of the deck is flagged a natural
    blackjack by [check_blackjack] exactly when one card is an Ace and the
    other is worth 10. *)
Theorem natural_is_ace_and_ten (c1 c2 : Card) :
  fresh c1 -> fresh c2 ->
  (blackjack (dealt c1 c2) = true
   <-> (is_ace c1 = true /\ points c2 = 10) \/ (points c1 = 10 /\ is_ace c2 = true)).
Proof.
  unfold fresh, dealt, check_blackjack. intros H1 H2. rewrite add_card_init.
  unfold add_card. cbn [cards value blackjack app List.length Nat.eqb andb].
  rewrite Z.eqb_eq. unfold LIMIT.
  destruct (is_ace c1) eqn:E1, (is_ace c2) eqn:E2; cbn [andb].
  - destruct (Z.ltb_spec 10 (points c1)); cbn [set_points points];
      split; [lia | intros [[_ ?] | [? _]]; lia | lia | intros [[_ ?] | [? _]]; lia].
  - split; [intro; left; split; [reflexivity | lia] | intros [[_ ?] | [_ ?]]; [lia | discriminate]].
  - destruct (Z.ltb_spec 10 (points c1)); cbn [set_points points]; [lia |].
    split; [intro; right; split; [lia | reflexivity] | intros [[? _] | [? _]]; [discriminate | lia]].
  - split; [lia | intros [[? _] | [_ ?]]; discriminate].
Qed.

(** Ace and King is a natural; 9 and 8 is not. *)
Lemma natural_is_ace_and_ten_witness :
  (fresh ace_hearts /\ fresh king_spades)
  /\ blackjack (dealt ace_hearts king_spades) = true
  /\ blackjack (dealt nine_spades eight_hearts) = false
  /\ (blackjack (dealt ace_hearts king_spades) = true
      <-> (is_ace ace_hearts = true /\ points king_spades = 10)
          \/ (points ace_hearts = 10 /\ is_ace king_spades = true)).
Proof.
  split; [split; cbv; intuition congruence |]. split; [reflexivity |].
  split; [reflexivity |].
  apply (natural_is_ace_and_ten ace_hearts king_spades); cbv; intuition congruence.
Defined.

(** ** Dealing *)

(** A pass over the players takes the first [n] cards, one per player in
    order, or runs out of cards. *)
Lemma deal_to_players_spec (players : list Player) (deck : Deck) :
  deal_to_players deck players
  = if (List.length players <=? List.length deck)%nat
    then Ok (map receive (combine players deck), skipn (List.length players) deck)
    else Err IndexError.
Proof.
  revert deck. induction players as [| p ps IH]; intro deck; [reflexivity |].
  destruct deck as [| c deck]; [reflexivity |].
  cbn [deal_to_players deal bind List.length combine map skipn]. rewrite IH.
  change (S (List.length ps) <=? S (List.length deck))%nat
    with (List.length ps <=? List.length deck)%nat.
  destruct (List.length ps <=? List.length deck)%nat; reflexivity.
Qed.

Lemma deal_pass_spec (players : list Player) (dealer : Dealer) (deck : Deck) :
  deal_pass deck players dealer
  = match nth_error deck (List.length players) with
    | Some c =>
        Ok (map receive (combine players deck),
            mkDealer (add_card (dhand dealer) c),
            skipn (S (List.length players)) deck)
    | None => Err IndexError
    end.
Proof.
  unfold deal_pass. rewrite deal_to_players_spec.
  destruct (Nat.leb_spec (List.length players) (List.length deck)) as [Hle | Hgt].
  - cbn [bind].
    destruct (skipn (List.length players) deck) as [| c rest] eqn:E.
    + assert (Hn : nth_error deck (List.length players) = None).
      { apply nth_error_None. apply (f_equal (@List.length Card)) in E.
        rewrite length_skipn in E. cbn in E. lia. }
      rewrite Hn. reflexivity.
    + destruct (skipn_cons_nth _ _ _ _ E) as [-> ->]. reflexivity.
  - assert (Hn : nth_error deck (List.length players) = None)
      by (apply nth_error_None; lia).
    rewrite Hn. reflexivity.
Qed.

Lemma combine_receive_length (players : list Player) (deck : Deck) :
  (List.length players <= List.length deck)%nat ->
  List.length (map receive (combine players deck)) = List.length players.
Proof. intro H. rewrite length_map, length_combine. lia. Qed.

Lemma nth_combine_receive (players : list Player) (deck : Deck) (i : nat)
      (p : Player) (c : Card) :
  nth_error players i = Some p -> nth_error deck i = Some c ->
  nth_error (map receive (combine players deck)) i
  = Some (set_hand p (add_card (hand p) c)).
Proof.
  revert deck i. induction players as [| q ps IH]; intros deck i Hp Hc.
  - destruct i; discriminate.
  - destruct deck as [| d deck]; [destruct i; discriminate |].
    destruct i as [| i]; cbn [nth_error combine map] in *.
    + injection Hp as <-. injection Hc as <-. reflexivity.
    + apply IH; assumption.
Qed.

(** X3.  [deal_hands] needs two cards for each of the [n] players and for
    the dealer: on a shorter deck it raises IndexError, otherwise it takes
    exactly the first [2n + 2] cards, in two rounds - player [i] receives the
    cards at the positions [i] and [n + 1 + i], the dealer those at [n] and
    [2n + 1]. *)
Theorem deal_hands_round_robin (players : list Player) (dealer : Dealer) (deck : Deck) :
  let n := List.length players in
  ((List.length deck < 2 * n + 2)%nat -> deal_hands deck players dealer = Err IndexError)
  /\ ((2 * n + 2 <= List.length deck)%nat ->
      exists players' ca cb,
        deal_hands deck players dealer
        = Ok (players', mkDealer (add_card (add_card (dhand dealer) ca) cb),
              skipn (2 * n + 2) deck)
        /\ nth_error deck n = Some ca /\ nth_error deck (2 * n + 1) = Some cb
        /\ List.length players' = n
        /\ forall i p, nth_error players i = Some p ->
             exists c1 c2,
               nth_error deck i = Some c1 /\ nth_error deck (n + 1 + i) = Some c2
               /\ nth_error players' i
                  = Some (set_hand p (add_card (add_card (hand p) c1) c2))).
Proof.
  intro n. unfold deal_hands. rewrite deal_pass_spec. fold n. split.
  - intro Hlt. destruct (nth_error deck n) as [ca |] eqn:Ea; [| reflexivity].
    cbn [bind]. rewrite deal_pass_spec.
    assert (Hn : (n < List.length deck)%nat) by (apply nth_error_Some; congruence).
    rewrite combine_receive_length by lia. fold n.
    assert (Hb : nth_error (skipn (S n) deck) n = None).
    { apply nth_error_None. rewrite length_skipn. lia. }
    rewrite Hb. reflexivity.
  - intro Hle.
    destruct (nth_error deck n) as [ca |] eqn:Ea.
    2:{ apply nth_error_None in Ea. lia. }
    cbn [bind]. rewrite deal_pass_spec, combine_receive_length by lia. fold n.
    assert (Hb : nth_error (skipn (S n) deck) n = nth_error deck (2 * n + 1)).
    { rewrite nth_error_skipn. f_equal. lia. }
    destruct (nth_error deck (2 * n + 1)) as [cb |] eqn:Eb.
    2:{ apply nth_error_None in Eb. lia. }
    rewrite Hb. cbn [dhand]. rewrite skipn_skipn.
    replace (S n + S n)%nat with (2 * n + 2)%nat by lia.
    eexists _, ca, cb. split; [reflexivity |]. split; [reflexivity |].
    split; [reflexivity |]. split.
    + rewrite !combine_receive_length; [reflexivity | lia |].
      rewrite combine_receive_length, length_skipn by lia. fold n. lia.
    + intros i p Hp.
      assert (Hi : (i < n)%nat) by (apply nth_error_Some; congruence).
      destruct (nth_error deck i) as [c1 |] eqn:E1.
      2:{ apply nth_error_None in E1. lia. }
      destruct (nth_error deck (n + 1 + i)) as [c2 |] eqn:E2.
      2:{ apply nth_error_None in E2. lia. }
      exists c1, c2. split; [reflexivity |]. split; [reflexivity |].
      apply (nth_combine_receive _ _ i (set_hand p (add_card (hand p) c1)) c2).
      * apply nth_combine_receive; assumption.
      * rewrite nth_error_skipn. rewrite <- E2. f_equal. lia.
Qed.

(** Two players and a deck of six cards: Ann gets the cards 0 and 3, Bob 1
    and 4, the dealer 2 and 5; with five cards the deal fails. *)
Lemma deal_hands_round_robin_witness :
  deal_hands [ace_hearts; nine_spades; ace_clubs; king_spades; eight_hearts; ten_clubs]
             [Player_init "Ann"; Player_init "Bob"] (mkDealer Hand_init)
  = Ok ([set_hand (Player_init "Ann") (mkHand [ace_hearts; king_spades] 21 false);
         set_hand (Player_init "Bob") (mkHand [nine_spades; eight_hearts] 17 false)],
        mkDealer (mkHand [ace_clubs; ten_clubs] 21 false), [])
  /\ deal_hands [ace_hearts; nine_spades; ace_clubs; king_spades; eight_hearts]
                [Player_init "Ann"; Player_init "Bob"] (mkDealer Hand_init)
     = Err IndexError.
Proof.
  split; [reflexivity |].
  apply (deal_hands_round_robin [Player_init "Ann"; Player_init "Bob"]
           (mkDealer Hand_init)
           [ace_hearts; nine_spades; ace_clubs; king_spades; eight_hearts]).
  cbn. lia.
Defined.

(** ** No card is lost or dealt twice *)

Lemma hnames_add_card (h : Hand) (c : Card) :
  hnames (add_card h c) = hnames h ++ [name c].
Proof.
  unfold hnames, add_card. cbn [cards]. rewrite map_app. cbn [map].
  destruct (is_ace c && (10 <? value h)); reflexivity.
Qed.

Lemma hnames_reset_ace_value (h : Hand) : hnames (reset_ace_value h) = hnames h.
Proof.
  unfold hnames, reset_ace_value. destruct (LIMIT <? value h); [| reflexivity].
  pose proof (demote_aces_names (cards h) (value h)) as E.
  destruct (demote_aces (cards h) (value h)). exact E.
Qed.

Lemma draw_card_names (h h' : Hand) (deck deck' : Deck) :
  draw_card h deck = Ok (h', deck') ->
  exists c, deck = c :: deck' /\ hnames h' = hnames h ++ [name c].
Proof.
  destruct deck as [| c deck]; [discriminate |]. cbn. intro H. injection H as <- <-.
  exists c. split; [reflexivity |]. rewrite hnames_reset_ace_value. apply hnames_add_card.
Qed.

Lemma split_offered_second_hand (p : Player) :
  split_offered p = Ok true -> second_hand p = None.
Proof.
  unfold split_offered. destruct (cards (hand p)) as [| c0 [| c1 [| c2 cs]]]; try discriminate.
  destruct (name0 c0); [| discriminate]. destruct (name0 c1); [| discriminate].
  cbn [bind]. destruct (second_hand p); [| reflexivity].
  rewrite andb_false_r. discriminate.
Qed.

Lemma split_hand_names (p p' : Player) (deck deck' : Deck) :
  second_hand p = None -> split_hand p deck = Ok (p', deck') ->
  Permutation (player_names p' ++ map name deck') (player_names p ++ map name deck).
Proof.
  intros Hn E.
  destruct (split_hand_ok_inv _ _ _ _ E) as (front & sc & c1 & c2 & Hc & ->).
  rewrite (split_hand_eq p front sc c1 c2 deck' Hc) in E. injection E as <-.
  unfold player_names. cbn [hand second_hand]. rewrite Hn.
  rewrite !hnames_add_card. unfold hnames. cbn [cards map app]. rewrite Hc, map_app.
  cbn [map]. rewrite app_nil_r, <- !app_assoc. apply Permutation_app_head.
  cbn [app].
  assert (Hs : name (if is_ace sc then set_points sc 11 else sc) = name sc)
    by (destruct (is_ace sc); reflexivity).
  rewrite Hs. apply perm_swap.
Qed.

Lemma player_names_put_hand (p : Player) (hd : which) (h h' : Hand) (c : string)
      (D : list string) :
  get_hand p hd = Ok h -> hnames h' = hnames h ++ [c] ->
  Permutation (player_names (put_hand p hd h') ++ D) (player_names p ++ c :: D).
Proof.
  intros Hg Hh. unfold player_names, get_hand in *.
  destruct hd; cbn [put_hand set_hand set_second_hand hand second_hand] in *.
  - injection Hg as <-. rewrite Hh, <- !app_assoc. apply Permutation_app_head.
    cbn [app]. apply Permutation_middle.
  - revert Hg. destruct (second_hand p) as [h2 |]; intro Hg; [| discriminate].
    injection Hg as <-. rewrite Hh, <- !app_assoc. reflexivity.
Qed.

Lemma double_down_names (p p2 : Player) (hd : which) (deck d2 : Deck) (wg w : Z)
      (inp rest' : list line) :
  double_down p hd deck wg inp = Ok (p2, d2, w, rest') ->
  Permutation (player_names p2 ++ map name d2) (player_names p ++ map name deck).
Proof.
  induction inp as [| l inp IH]; [discriminate |]. cbn [double_down].
  destruct (int_of_line l) as [a |]; [| discriminate]. cbn [bind].
  destruct (negb (validate_wager a (Z.min wg (money p)))); [exact IH |].
  destruct (get_hand (set_money p (money p - a)) hd) as [h |] eqn:Eg; [| discriminate].
  cbn [bind]. destruct (draw_card h deck) as [[h' deck'] |] eqn:Ed; [| discriminate].
  cbn [bind]. intro H. injection H as <- <- _ _.
  destruct (draw_card_names _ _ _ _ Ed) as (c & -> & Hh).
  cbn [map]. apply (player_names_put_hand (set_money p (money p - a)) hd h h'); assumption.
Qed.

Lemma first_hand_loop_names (inp : list line) :
  forall (p p1 : Player) (deck d1 : Deck) (i1 : list line),
    first_hand_loop p deck inp = Ok (p1, d1, i1) ->
    Permutation (player_names p1 ++ map name d1) (player_names p ++ map name deck).
Proof.
  induction inp as [| l inp IH]; intros p p1 deck d1 i1 H.
  - cbn [first_hand_loop] in H. destruct (value (hand p) <? LIMIT); [discriminate |].
    injection H as <- <- _. reflexivity.
  - cbn [first_hand_loop] in H. destruct (value (hand p) <? LIMIT).
    2:{ injection H as <- <- _. reflexivity. }
    destruct (split_offered p) as [offered |] eqn:Eo; [| discriminate]. cbn [bind] in H.
    assert (Hrest : forall q dq,
      match upper l with
      | KH => '(h, deck2) <- draw_card (hand q) dq ;;
              first_hand_loop (set_hand q h) deck2 inp
      | KS => Ok (set_stand q true, dq, inp)
      | KD => '(player2, deck2, w, rest') <-
                double_down q First dq (wager q) inp ;;
              Ok (set_wager player2 w, deck2, rest')
      | _ => first_hand_loop q dq inp
      end = Ok (p1, d1, i1) ->
      Permutation (player_names p1 ++ map name d1) (player_names q ++ map name dq)).
    { clear H. intros q dq H. destruct (upper l); try (apply (IH _ _ _ _ _ H)).
      - destruct (draw_card (hand q) dq) as [[h deck2] |] eqn:Ed; [| discriminate].
        cbn [bind] in H. apply IH in H.
        destruct (draw_card_names _ _ _ _ Ed) as (c & -> & Hh).
        apply (Permutation_trans H). cbn [map].
        apply (player_names_put_hand q First (hand q) h); [reflexivity | exact Hh].
      - injection H as <- <- _. reflexivity.
      - destruct (double_down q First dq (wager q) inp) as [[[[p2 d2] w] r'] |] eqn:E;
          [| discriminate].
        cbn [bind] in H. injection H as <- <- _.
        apply (double_down_names _ _ _ _ _ _ _ _ _ E). }
    destruct offered; [| apply Hrest; exact H].
    destruct (key_eqb (upper l) KP) eqn:Ek; [| apply Hrest; exact H].
    destruct (split_hand p deck) as [[p' d'] |] eqn:Es; [| discriminate].
    cbn [bind] in H.
    pose proof (split_hand_names _ _ _ _ (split_offered_second_hand _ Eo) Es) as Hsp.
    destruct (split_aces p') as [[|] |]; [| | discriminate]; cbn [bind] in H.
    + injection H as <- <- _. exact Hsp.
    + apply Hrest in H. apply (Permutation_trans H Hsp).
Qed.

Lemma second_hand_loop_names (inp : list line) :
  forall (p p3 : Player) (deck d3 : Deck) (i3 : list line),
    second_hand_loop p deck inp = Ok (p3, d3, i3) ->
    Permutation (player_names p3 ++ map name d3) (player_names p ++ map name deck).
Proof.
  induction inp as [| l inp IH]; intros p p3 deck d3 i3 H.
  - cbn [second_hand_loop] in H. destruct (get_hand p Second) as [h2 |]; [| discriminate].
    cbn [bind] in H. destruct (value h2 <? LIMIT); [discriminate |].
    injection H as <- <- _. reflexivity.
  - cbn [second_hand_loop] in H.
    destruct (get_hand p Second) as [h2 |] eqn:Eg; [| discriminate].
    cbn [bind] in H. destruct (value h2 <? LIMIT).
    2:{ injection H as <- <- _. reflexivity. }
    destruct (upper l); try (apply (IH _ _ _ _ _ H)).
    + destruct (draw_card h2 deck) as [[h d1] |] eqn:Ed; [| discriminate].
      cbn [bind] in H. apply IH in H.
      destruct (draw_card_names _ _ _ _ Ed) as (c & -> & Hh).
      apply (Permutation_trans H). cbn [map].
      apply (player_names_put_hand p Second h2 h); assumption.
    + injection H as <- <- _. reflexivity.
    + destruct (int_of (second_wager p)) as [w0 |]; [| discriminate]. cbn [bind] in H.
      destruct (double_down p Second deck w0 inp) as [[[[p2 d2] w] r'] |] eqn:Ed;
        [| discriminate].
      cbn [bind] in H. injection H as <- <- _.
      apply (double_down_names _ _ _ _ _ _ _ _ _ Ed).
Qed.

Lemma player_names_after_first_hand (q : Player) :
  player_names (after_first_hand q) = player_names q.
Proof.
  unfold after_first_hand.
  destruct (value (hand q) =? LIMIT); cbn [hand set_stand];
    destruct (LIMIT <? value (hand q)); reflexivity.
Qed.

Lemma player_names_after_second_hand (q : Player) (h : Hand) :
  player_names (after_second_hand q h) = player_names q.
Proof.
  unfold after_second_hand.
  destruct (value h =? LIMIT), (LIMIT <? value h); cbn [stand set_stand negb];
    try reflexivity; destruct (stand q); reflexivity.
Qed.

Lemma player_turn_names (p p' : Player) (deck deck' : Deck) (inp inp' : list line) :
  player_turn p deck inp = Ok (p', deck', inp') ->
  Permutation (player_names p' ++ map name deck') (player_names p ++ map name deck).
Proof.
  unfold player_turn. intro H.
  destruct (negb (blackjack (hand p)) && negb (stand p)).
  2:{ injection H as <- <- _. reflexivity. }
  destruct (first_hand_loop p deck inp) as [[[q d1] i1] |] eqn:E1; [| discriminate].
  cbn [bind] in H. apply first_hand_loop_names in E1.
  rewrite <- (player_names_after_first_hand q) in E1.
  destruct (truthy (second_hand (after_first_hand q))) as [h2 |].
  - destruct (first_card h2) as [c |]; [| discriminate]. cbn [bind] in H.
    destruct (negb (is_ace c)).
    + destruct (second_hand_loop (after_first_hand q) d1 i1) as [[[p3 d3] i3] |] eqn:E2;
        [| discriminate].
      cbn [bind] in H. destruct (get_hand p3 Second) as [h2' |]; [| discriminate].
      cbn [bind] in H. injection H as <- <- _.
      rewrite player_names_after_second_hand.
      apply second_hand_loop_names in E2. apply (Permutation_trans E2 E1).
    + injection H as <- <- _. exact E1.
  - injection H as <- <- _. exact E1.
Qed.

Lemma players_turns_names (players : list Player) :
  forall (players' : list Player) (deck deck' : Deck) (inp inp' : list line),
    players_turns players deck inp = Ok (players', deck', inp') ->
    Permutation (flat_map player_names players' ++ map name deck')
                (flat_map player_names players ++ map name deck).
Proof.
  induction players as [| p ps IH]; intros players' deck deck' inp inp' H.
  - cbn in H. injection H as <- <- _. reflexivity.
  - cbn [players_turns] in H.
    destruct (player_turn p deck inp) as [[[p' d1] i1] |] eqn:E1; [| discriminate].
    cbn [bind] in H.
    destruct (players_turns ps d1 i1) as [[[ps' d2] i2] |] eqn:E2; [| discriminate].
    cbn [bind] in H. injection H as <- <- _.
    apply player_turn_names in E1. apply IH in E2. cbn [flat_map].
    rewrite <- !app_assoc.
    apply Permutation_trans with (player_names p' ++ flat_map player_names ps ++ map name d1);
      [apply Permutation_app_head, E2 |].
    apply Permutation_trans with (flat_map player_names ps ++ player_names p' ++ map name d1);
      [apply Permutation_app_swap_app |].
    apply Permutation_trans with (flat_map player_names ps ++ player_names p ++ map name deck);
      [apply Permutation_app_head, E1 | apply Permutation_app_swap_app].
Qed.

Lemma dealer_draws_names (deck : Deck) :
  forall (h h' : Hand) (deck' : Deck),
    dealer_draws deck h = Ok (h', deck') ->
    hnames h' ++ map name deck' = hnames h ++ map name deck.
Proof.
  induction deck as [| c deck IH]; intros h h' deck' H; cbn [dealer_draws] in H.
  - destruct (value h <? 17); [discriminate |]. injection H as <- <-. reflexivity.
  - destruct (value h <? 17).
    + apply IH in H. rewrite H, hnames_reset_ace_value, hnames_add_card, <- app_assoc.
      reflexivity.
    + injection H as <- <-. reflexivity.
Qed.

(** Settlement only touches the bankroll. *)
Lemma payout_hand_money (p p' : Player) (w : option Z) :
  payout_hand p w = Ok p' -> exists m, p' = set_money p m.
Proof.
  unfold payout_hand. destruct (int_of w); [| discriminate]. cbn [bind].
  intro H. injection H as <-. eauto.
Qed.

Lemma compare_hand_money (p p' : Player) (ph dh : Hand) (w : option Z) :
  compare_hand p ph dh w = Ok p' -> exists m, p' = set_money p m.
Proof.
  unfold compare_hand. destruct (value ph <? value dh).
  - intro H. injection H as <-. exists (money p). destruct p. reflexivity.
  - destruct (value dh =? value ph); [| apply payout_hand_money].
    destruct (int_of w); [| discriminate]. cbn [bind]. intro H. injection H as <-. eauto.
Qed.

Lemma set_money_twice (p : Player) (m1 m2 : Z) :
  set_money (set_money p m1) m2 = set_money p m2.
Proof. reflexivity. Qed.

Lemma payout_after_dealer_bust_player_money (p p' : Player) :
  payout_after_dealer_bust_player p = Ok p' -> exists m, p' = set_money p m.
Proof.
  unfold payout_after_dealer_bust_player. intro H.
  assert (Hid : exists m, p = set_money p m) by (exists (money p); destruct p; reflexivity).
  destruct (stand p); [| injection H as <-; exact Hid].
  assert (H1 : exists m1, (if value (hand p) <=? LIMIT then payout_hand p (Some (wager p))
                           else Ok p) = Ok (set_money p m1)
                          \/ (if value (hand p) <=? LIMIT then payout_hand p (Some (wager p))
                              else Ok p) = Err TypeError).
  { destruct (value (hand p) <=? LIMIT).
    - eexists. left. reflexivity.
    - destruct Hid as [m Hm]. exists m. left. rewrite <- Hm. reflexivity. }
  destruct H1 as [m1 [E | E]]; rewrite E in H; [| discriminate]. cbn [bind] in H.
  cbn [second_hand set_money second_wager] in H.
  destruct (truthy (second_hand p)) as [h2 |].
  - destruct (value h2 <=? LIMIT).
    + apply payout_hand_money in H as [m ->]. exists m. reflexivity.
    + injection H as <-. eauto.
  - injection H as <-. eauto.
Qed.

Lemma compare_multiple_hands_player_money (dealer : Dealer) (p p' : Player) :
  compare_multiple_hands_player dealer p = Ok p' -> exists m, p' = set_money p m.
Proof.
  unfold compare_multiple_hands_player. intro H.
  assert (Hid : exists m, p = set_money p m) by (exists (money p); destruct p; reflexivity).
  destruct (stand p); [| injection H as <-; exact Hid].
  destruct (if value (hand p) <=? LIMIT
            then compare_hand p (hand p) (dhand dealer) (Some (wager p))
            else Ok p) as [q |] eqn:E; [| discriminate].
  assert (Hq : exists m, q = set_money p m).
  { destruct (value (hand p) <=? LIMIT).
    - apply compare_hand_money in E. exact E.
    - injection E as <-. exact Hid. }
  destruct Hq as [m1 ->]. cbn [bind] in H.
  cbn [second_hand set_money second_wager] in H.
  destruct (truthy (second_hand p)) as [h2 |].
  - destruct (value h2 <=? LIMIT).
    + apply compare_hand_money in H as [m ->]. exists m. reflexivity.
    + injection H as <-. eauto.
  - injection H as <-. eauto.
Qed.

Lemma mapM_Forall2 {A B : Type} (f : A -> result B) (l : list A) (l' : list B) :
  mapM f l = Ok l' -> Forall2 (fun a b => f a = Ok b) l l'.
Proof.
  revert l'. induction l as [| a l IH]; intros l' H; cbn [mapM] in H.
  - injection H as <-. constructor.
  - destruct (f a) as [b |] eqn:E; [| discriminate]. cbn [bind] in H.
    destruct (mapM f l) as [r |]; [| discriminate]. injection H as <-.
    constructor; [exact E | apply IH; reflexivity].
Qed.

Lemma Forall2_player_names (R : Player -> Player -> Prop) (l l' : list Player) :
  (forall p p', R p p' -> player_names p' = player_names p) ->
  Forall2 R l l' -> flat_map player_names l' = flat_map player_names l.
Proof.
  intros HR H. induction H as [| p p' l l' Hp _ IH]; [reflexivity |].
  cbn [flat_map]. rewrite (HR _ _ Hp), IH. reflexivity.
Qed.

Lemma player_names_set_money (p : Player) (m : Z) :
  player_names (set_money p m) = player_names p.
Proof. reflexivity. Qed.

Lemma dealer_turn_names (players players' : list Player) (dealer dealer' : Dealer)
      (deck deck' : Deck) :
  dealer_turn players dealer deck = Ok (players', dealer', deck') ->
  table_names players' dealer' deck' = table_names players dealer deck.
Proof.
  unfold dealer_turn. destruct (existsb _ players).
  2:{ intro H. injection H as <- <- <-. reflexivity. }
  unfold resolve_dealer_hand.
  destruct (dealer_draws deck (dhand dealer)) as [[h d'] |] eqn:Ed; [| discriminate].
  cbn [bind]. apply dealer_draws_names in Ed. intro H.
  assert (Hn : flat_map player_names players' = flat_map player_names players
               /\ dealer' = mkDealer h /\ deck' = d').
  { destruct (LIMIT <? value h).
    - destruct (payout_after_dealer_bust players) as [l |] eqn:El; [| discriminate].
      cbn [bind] in H. injection H as <- <- <-. split; [| auto].
      apply mapM_Forall2 in El. apply (Forall2_player_names _ _ _ (fun p p' Hp =>
        match payout_after_dealer_bust_player_money p p' Hp with
        | ex_intro _ m E => eq_trans (f_equal player_names E) (player_names_set_money p m)
        end) El).
    - destruct (compare_multiple_hands players (mkDealer h)) as [l |] eqn:El;
        [| discriminate].
      cbn [bind] in H. injection H as <- <- <-. split; [| auto].
      apply mapM_Forall2 in El. apply (Forall2_player_names _ _ _ (fun p p' Hp =>
        match compare_multiple_hands_player_money (mkDealer h) p p' Hp with
        | ex_intro _ m E => eq_trans (f_equal player_names E) (player_names_set_money p m)
        end) El). }
  destruct Hn as (Hp & -> & ->). unfold table_names. cbn [dhand].
  rewrite Hp, Ed. reflexivity.
Qed.

Lemma natural_check_names (players players' : list Player) (dealer dealer' : Dealer) :
  natural_check players dealer = Ok (players', dealer') ->
  flat_map player_names players' = flat_map player_names players
  /\ hnames (dhand dealer') = hnames (dhand dealer).
Proof.
  unfold natural_check. destruct (reveal_faceup dealer); [| discriminate]. cbn [bind].
  assert (Hpay : forall l, payout_natural_blackjacks players = Ok l ->
                           flat_map player_names l = flat_map player_names players).
  { intros l El. apply mapM_Forall2 in El.
    apply (Forall2_player_names _ _ _ (fun p p' (Hp : payout_natural_blackjack p = Ok p') =>
      ltac:(unfold payout_natural_blackjack in Hp;
            destruct (blackjack (hand p));
            [destruct (natural_winnings (wager p)); [| discriminate];
             cbn [bind] in Hp; injection Hp as <-; reflexivity
            | injection Hp as <-; reflexivity])) El). }
  destruct (peek_condition _).
  - cbn [dhand]. destruct (blackjack (check_blackjack (dhand dealer))).
    + intro H. injection H as <- <-. split; [| reflexivity].
      unfold handle_dealer_blackjack. rewrite flat_map_concat_map, map_map,
        <- flat_map_concat_map. apply flat_map_ext. intro p.
      unfold handle_dealer_blackjack_player. destruct (blackjack (hand p)); reflexivity.
    + destruct (payout_natural_blackjacks players) as [l |] eqn:El; [| discriminate].
      cbn [bind]. intro H. injection H as <- <-. split; [apply Hpay, eq_refl | reflexivity].
  - destruct (payout_natural_blackjacks players) as [l |] eqn:El; [| discriminate].
    cbn [bind]. intro H. injection H as <- <-. split; [apply Hpay, eq_refl | reflexivity].
Qed.

Lemma play_hands_names (players players' : list Player) (dealer dealer' : Dealer)
      (deck deck' : Deck) (inp inp' : list line) :
  play_hands players dealer deck inp = Ok (players', dealer', deck', inp') ->
  Permutation (table_names players' dealer' deck') (table_names players dealer deck).
Proof.
  unfold play_hands. intro H.
  destruct (natural_check players dealer) as [[ps1 dl1] |] eqn:E1; [| discriminate].
  cbn [bind] in H.
  destruct (players_turns ps1 deck inp) as [[[ps2 d2] i2] |] eqn:E2; [| discriminate].
  cbn [bind] in H.
  destruct (dealer_turn ps2 dl1 d2) as [[[ps3 dl3] d3] |] eqn:E3; [| discriminate].
  cbn [bind] in H. injection H as <- <- <- _.
  apply natural_check_names in E1 as [Hp1 Hd1]. apply players_turns_names in E2.
  apply dealer_turn_names in E3. rewrite E3. unfold table_names.
  rewrite Hd1, <- Hp1.
  apply Permutation_trans
    with (hnames (dhand dealer) ++ flat_map player_names ps2 ++ map name d2);
    [apply Permutation_app_swap_app |].
  apply Permutation_trans
    with (hnames (dhand dealer) ++ flat_map player_names ps1 ++ map name deck);
    [apply Permutation_app_head, E2 | apply Permutation_app_swap_app].
Qed.

Lemma deal_to_players_names (players : list Player) :
  forall (players' : list Player) (deck deck' : Deck),
    deal_to_players deck players = Ok (players', deck') ->
    Permutation (flat_map player_names players' ++ map name deck')
                (flat_map player_names players ++ map name deck).
Proof.
  induction players as [| p ps IH]; intros players' deck deck' H.
  - cbn in H. injection H as <- <-. reflexivity.
  - destruct deck as [| c deck]; [discriminate |]. cbn [deal_to_players deal bind] in H.
    destruct (deal_to_players deck ps) as [[ps' d'] |] eqn:E; [| discriminate].
    cbn [bind] in H. injection H as <- <-. apply IH in E. cbn [flat_map map].
    rewrite <- !app_assoc.
    apply Permutation_trans
      with (player_names (set_hand p (add_card (hand p) c))
            ++ flat_map player_names ps ++ map name deck);
      [apply Permutation_app_head, E |].
    apply Permutation_trans
      with (flat_map player_names ps
            ++ player_names (set_hand p (add_card (hand p) c)) ++ map name deck);
      [apply Permutation_app_swap_app |].
    apply Permutation_trans
      with (flat_map player_names ps ++ player_names p ++ name c :: map name deck);
      [| apply Permutation_app_swap_app].
    apply Permutation_app_head.
    apply (player_names_put_hand p First (hand p)); [reflexivity | apply hnames_add_card].
Qed.

Lemma deal_pass_names (players players' : list Player) (dealer dealer' : Dealer)
      (deck deck' : Deck) :
  deal_pass deck players dealer = Ok (players', dealer', deck') ->
  Permutation (table_names players' dealer' deck') (table_names players dealer deck).
Proof.
  unfold deal_pass. intro H.
  destruct (deal_to_players deck players) as [[ps1 d1] |] eqn:E; [| discriminate].
  cbn [bind] in H. destruct d1 as [| c d1]; [discriminate |].
  cbn [deal bind] in H. injection H as <- <- <-. apply deal_to_players_names in E.
  unfold table_names. cbn [dhand]. rewrite hnames_add_card, <- app_assoc. cbn [app].
  apply Permutation_trans
    with (hnames (dhand dealer) ++ flat_map player_names ps1 ++ map name (c :: d1));
    [apply Permutation_app_swap_app |].
  apply Permutation_trans
    with (hnames (dhand dealer) ++ flat_map player_names players ++ map name deck);
    [apply Permutation_app_head, E | apply Permutation_app_swap_app].
Qed.

Lemma make_bets_names (players : list Player) :
  forall (players' : list Player) (inp inp' : list line),
    make_bets players inp = Ok (players', inp') ->
    flat_map player_names players' = flat_map player_names players.
Proof.
  assert (Hone : forall inp p p' inp', make_bet p inp = Ok (p', inp') ->
                                       player_names p' = player_names p).
  { induction inp as [| l inp IH]; intros p p' inp' H; [discriminate |].
    cbn [make_bet] in H. destruct (int_of_line l); [| discriminate]. cbn [bind] in H.
    destruct (negb (validate_wager _ _)); [apply (IH _ _ _ H) |].
    injection H as <- _. reflexivity. }
  induction players as [| p ps IH]; intros players' inp inp' H.
  - cbn in H. injection H as <- _. reflexivity.
  - cbn [make_bets] in H. destruct (make_bet p inp) as [[p' i1] |] eqn:E1; [| discriminate].
    cbn [bind] in H. destruct (make_bets ps i1) as [[ps' i2] |] eqn:E2; [| discriminate].
    cbn [bind] in H. injection H as <- _. cbn [flat_map].
    rewrite (Hone _ _ _ _ E1), (IH _ _ _ E2). reflexivity.
Qed.

Lemma deck_names_distinct : NoDup (map name Deck_unshuffled).
Proof.
  assert (E : nodup string_dec (map name Deck_unshuffled) = map name Deck_unshuffled)
    by (vm_compute; reflexivity).
  rewrite <- E. apply NoDup_nodup.
Qed.

(** X4.  A round neither loses nor duplicates a card: when it ends, the
    cards in the players' hands, in the dealer's hand and left in the deck
    are, by name, a permutation of the deck the round started with; after a
    shuffle of the 52 cards no name occurs twice on the table. *)
Theorem round_conserves_cards
        (players players' : list Player) (dealer' : Dealer) (shuffled deck' : Deck)
        (inp inp' : list line) :
  play_round players shuffled inp = Ok (players', dealer', deck', inp') ->
  Permutation (table_names players' dealer' deck') (map name shuffled)
  /\ (Permutation Deck_unshuffled shuffled ->
      NoDup (table_names players' dealer' deck')
      /\ List.length (table_names players' dealer' deck') = 52%nat).
Proof.
  unfold play_round, reset_for_new_round. intro H.
  destruct (make_bets (map reset_player players) inp) as [[ps1 i1] |] eqn:E1;
    [| discriminate].
  cbn [bind] in H.
  destruct (deal_hands shuffled ps1 (mkDealer Hand_init)) as [[[ps2 dl2] d2] |] eqn:E2;
    [| discriminate].
  cbn [bind] in H. apply play_hands_names in H.
  assert (Hperm : Permutation (table_names players' dealer' deck') (map name shuffled)).
  { apply (Permutation_trans H).
    replace (table_names (map reveal_initial_hand ps2) dl2 d2) with (table_names ps2 dl2 d2).
    2:{ unfold table_names. f_equal.
        rewrite (flat_map_concat_map player_names (map _ _)), map_map, <- flat_map_concat_map.
        reflexivity. }
    unfold deal_hands in E2.
    destruct (deal_pass shuffled ps1 (mkDealer Hand_init)) as [[[psa dla] da] |] eqn:Ea;
      [| discriminate].
    cbn [bind] in E2. apply deal_pass_names in E2. apply deal_pass_names in Ea.
    apply (Permutation_trans E2). apply (Permutation_trans Ea).
    unfold table_names. cbn [dhand hnames Hand_init cards map app].
    rewrite (make_bets_names _ _ _ _ E1).
    replace (flat_map player_names (map reset_player players)) with (@nil string);
      [reflexivity |].
    clear. induction players as [| p ps IH]; [reflexivity | exact IH]. }
  split; [exact Hperm |]. intro Hsh.
  assert (Hall : Permutation (table_names players' dealer' deck') (map name Deck_unshuffled))
    by (apply (Permutation_trans Hperm), Permutation_sym, Permutation_map, Hsh).
  split.
  - apply (Permutation_NoDup (Permutation_sym Hall)), deck_names_distinct.
  - rewrite (Permutation_length Hall). reflexivity.
Qed.

(** Ann splits a pair of eights, hits the first hand and stands on both;
    the dealer draws to 19.  The ten cards of the deck are all accounted
    for. *)
Lemma round_conserves_cards_witness :
  play_round [Player_init "Ann"]
             [eight_hearts; six_clubs; mkCard "8♠" 8; ten_clubs; two_clubs;
              five_diamonds; nine_spades; mkCard "3♦" 3; ace_clubs; king_spades]
             [Num 10; Key KP; Key KH; Key KS; Key KS]
  = Ok ([mkPlayer "Ann" 990 false
                  (mkHand [eight_hearts; two_clubs; nine_spades] 19 false) 10 true
                  (Some (mkHand [mkCard "8♠" 8; five_diamonds] 13 false)) (Some 10)],
        mkDealer (mkHand [six_clubs; ten_clubs; mkCard "3♦" 3] 19 false),
        [ace_clubs; king_spades], [])
  /\ Permutation
       (table_names
          [mkPlayer "Ann" 990 false
                    (mkHand [eight_hearts; two_clubs; nine_spades] 19 false) 10 true
                    (Some (mkHand [mkCard "8♠" 8; five_diamonds] 13 false)) (Some 10)]
          (mkDealer (mkHand [six_clubs; ten_clubs; mkCard "3♦" 3] 19 false))
          [ace_clubs; king_spades])
       (map name [eight_hearts; six_clubs; mkCard "8♠" 8; ten_clubs; two_clubs;
                  five_diamonds; nine_spades; mkCard "3♦" 3; ace_clubs; king_spades]).
Proof.
  split; [reflexivity |].
  apply (round_conserves_cards [Player_init "Ann"] _ _ _ _
           [Num 10; Key KP; Key KH; Key KS; Key KS] []).
  reflexivity.
Defined.

(** ** The bankroll and the stakes *)

Lemma make_bet_funds (inp : list line) (p : Player) :
  on_ok (fun r => 0 <= money (fst r)
                  /\ money (fst r) + wager (fst r) = money p
                  /\ second_wager (fst r) = second_wager p
                  /\ second_hand (fst r) = second_hand p)
        (make_bet p inp).
Proof.
  induction inp as [| l inp IH]; [exact I |]. cbn [make_bet].
  destruct (int_of_line l) as [w |]; [| exact I]. cbn [bind].
  destruct (validate_wager w (money p)) eqn:E; cbn [negb]; [| exact IH].
  cbn. assert (~ money p < w) by (rewrite <- validate_wager_spec; congruence).
  repeat split; lia.
Qed.

Lemma double_down_funds (p p2 : Player) (hd : which) (deck d2 : Deck) (wg w : Z)
      (inp rest' : list line) :
  double_down p hd deck wg inp = Ok (p2, d2, w, rest') ->
  money p2 + w = money p + wg /\ 0 <= money p2 /\ w - wg <= wg
  /\ wager p2 = wager p /\ second_wager p2 = second_wager p /\ stand p2 = true.
Proof.
  induction inp as [| l inp IH]; [discriminate |]. cbn [double_down].
  destruct (int_of_line l) as [a |]; [| discriminate]. cbn [bind].
  destruct (validate_wager a (Z.min wg (money p))) eqn:E; cbn [negb]; [| exact IH].
  assert (~ Z.min wg (money p) < a) by (rewrite <- validate_wager_spec; congruence).
  destruct (get_hand (set_money p (money p - a)) hd) as [h |]; [| discriminate].
  cbn [bind]. destruct (draw_card h deck) as [[h' deck'] |]; [| discriminate].
  cbn [bind]. intro H0. injection H0 as <- _ <- _.
  destruct hd; cbn; repeat split; lia.
Qed.

Lemma split_offered_funds (p : Player) :
  split_offered p = Ok true -> wager p <= money p.
Proof.
  unfold split_offered. destruct (cards (hand p)) as [| c0 [| c1 [| c2 cs]]]; try discriminate.
  destruct (name0 c0); [| discriminate]. destruct (name0 c1); [| discriminate].
  cbn [bind]. destruct (Z.leb_spec (wager p) (money p)); [auto |].
  rewrite andb_false_r. discriminate.
Qed.

Lemma first_hand_loop_chips (inp : list line) :
  forall (p p1 : Player) (deck d1 : Deck) (i1 : list line),
    first_hand_loop p deck inp = Ok (p1, d1, i1) ->
    (second_hand p = None -> second_wager p = None) ->
    money p1 + stakes p1 = money p + stakes p
    /\ (0 <= money p -> 0 <= money p1).
Proof.
  induction inp as [| l inp IH]; intros p p1 deck d1 i1 H Hinv.
  - cbn [first_hand_loop] in H. destruct (value (hand p) <? LIMIT); [discriminate |].
    injection H as <- _ _. auto.
  - cbn [first_hand_loop] in H. destruct (value (hand p) <? LIMIT).
    2:{ injection H as <- _ _. auto. }
    destruct (split_offered p) as [offered |] eqn:Eo; [| discriminate]. cbn [bind] in H.
    assert (Hrest : forall q dq,
      (second_hand q = None -> second_wager q = None) ->
      match upper l with
      | KH => '(h, deck2) <- draw_card (hand q) dq ;;
              first_hand_loop (set_hand q h) deck2 inp
      | KS => Ok (set_stand q true, dq, inp)
      | KD => '(player2, deck2, w, rest') <-
                double_down q First dq (wager q) inp ;;
              Ok (set_wager player2 w, deck2, rest')
      | _ => first_hand_loop q dq inp
      end = Ok (p1, d1, i1) ->
      money p1 + stakes p1 = money q + stakes q /\ (0 <= money q -> 0 <= money p1)).
    { clear H. intros q dq Hq H. destruct (upper l); try (apply (IH _ _ _ _ _ H Hq)).
      - destruct (draw_card (hand q) dq) as [[h deck2] |]; [| discriminate].
        cbn [bind] in H. apply (IH _ _ _ _ _ H Hq).
      - injection H as <- _ _. auto.
      - destruct (double_down q First dq (wager q) inp) as [[[[p2 d2] w] r'] |] eqn:E;
          [| discriminate].
        cbn [bind] in H. injection H as <- _ _.
        destruct (double_down_funds _ _ _ _ _ _ _ _ _ E) as (Hm & H0 & _ & _ & Hsw & _).
        unfold stakes. cbn [money wager second_wager set_wager]. rewrite Hsw.
        split; [lia | auto]. }
    destruct offered; [| apply (Hrest p deck Hinv H)].
    destruct (key_eqb (upper l) KP) eqn:Ek; [| apply (Hrest p deck Hinv H)].
    destruct (split_hand p deck) as [[p' d'] |] eqn:Es; [| discriminate].
    cbn [bind] in H.
    pose proof (split_offered_funds _ Eo) as Hfunds.
    pose proof (Hinv (split_offered_second_hand _ Eo)) as Hsw.
    destruct (split_hand_ok_inv _ _ _ _ Es) as (front & sc & c1 & c2 & Hc & ->).
    rewrite (split_hand_eq p front sc c1 c2 d' Hc) in Es. injection Es as <-.
    assert (Hp' : forall q, money q + stakes q = money p - wager p + (wager p + wager p)
                            /\ (0 <= money p - wager p -> 0 <= money q) ->
                            money q + stakes q = money p + stakes p
                            /\ (0 <= money p -> 0 <= money q)).
    { intros q [Hq1 Hq2]. unfold stakes at 2. rewrite Hsw. split; [lia |].
      intros _. apply Hq2. lia. }
    destruct (split_aces _) as [[|] |]; [| | discriminate]; cbn [bind] in H.
    + injection H as <- _ _. apply Hp'. unfold stakes. cbn. auto.
    + apply Hp'. apply Hrest in H; [exact H | discriminate].
Qed.

Lemma second_hand_loop_chips (inp : list line) :
  forall (p p3 : Player) (deck d3 : Deck) (i3 : list line),
    second_hand_loop p deck inp = Ok (p3, d3, i3) ->
    money p3 + stakes p3 = money p + stakes p /\ (0 <= money p -> 0 <= money p3).
Proof.
  induction inp as [| l inp IH]; intros p p3 deck d3 i3 H.
  - cbn [second_hand_loop] in H. destruct (get_hand p Second) as [h2 |]; [| discriminate].
    cbn [bind] in H. destruct (value h2 <? LIMIT); [discriminate |].
    injection H as <- _ _. auto.
  - cbn [second_hand_loop] in H.
    destruct (get_hand p Second) as [h2 |]; [| discriminate].
    cbn [bind] in H. destruct (value h2 <? LIMIT).
    2:{ injection H as <- _ _. auto. }
    destruct (upper l); try (apply (IH _ _ _ _ _ H)).
    + destruct (draw_card h2 deck) as [[h d1] |]; [| discriminate].
      cbn [bind] in H. apply (IH _ _ _ _ _ H).
    + injection H as <- _ _. auto.
    + destruct (second_wager p) as [w0 |] eqn:Esw; [| discriminate]. cbn [int_of bind] in H.
      destruct (double_down p Second deck w0 inp) as [[[[p2 d2] w] r'] |] eqn:Ed;
        [| discriminate].
      cbn [bind] in H. injection H as <- _ _.
      destruct (double_down_funds _ _ _ _ _ _ _ _ _ Ed) as (Hm & H0 & _ & Hw & _).
      unfold stakes. cbn [money wager second_wager set_second_wager]. rewrite Esw, Hw.
      split; [lia | auto].
Qed.

Lemma after_first_hand_chips (q : Player) :
  money (after_first_hand q) = money q /\ stakes (after_first_hand q) = stakes q.
Proof.
  unfold after_first_hand.
  destruct (value (hand q) =? LIMIT); cbn [hand set_stand];
    destruct (LIMIT <? value (hand q)); auto.
Qed.

Lemma after_second_hand_chips (q : Player) (h : Hand) :
  money (after_second_hand q h) = money q /\ stakes (after_second_hand q h) = stakes q.
Proof.
  unfold after_second_hand.
  destruct (value h =? LIMIT), (LIMIT <? value h); cbn [stand set_stand negb];
    auto; destruct (stand q); auto.
Qed.

Lemma player_turn_chips (p p' : Player) (deck deck' : Deck) (inp inp' : list line) :
  player_turn p deck inp = Ok (p', deck', inp') ->
  (second_hand p = None -> second_wager p = None) ->
  money p' + stakes p' = money p + stakes p /\ (0 <= money p -> 0 <= money p').
Proof.
  unfold player_turn. intros H Hinv.
  destruct (negb (blackjack (hand p)) && negb (stand p)).
  2:{ injection H as <- _ _. auto. }
  destruct (first_hand_loop p deck inp) as [[[q d1] i1] |] eqn:E1; [| discriminate].
  cbn [bind] in H. destruct (first_hand_loop_chips _ _ _ _ _ _ E1 Hinv) as [Hc1 Hn1].
  destruct (after_first_hand_chips q) as [Hm Hs]. rewrite <- Hm, <- Hs in Hc1.
  rewrite <- Hm in Hn1.
  destruct (truthy (second_hand (after_first_hand q))) as [h2 |].
  - destruct (first_card h2) as [c |]; [| discriminate]. cbn [bind] in H.
    destruct (negb (is_ace c)).
    + destruct (second_hand_loop (after_first_hand q) d1 i1) as [[[p3 d3] i3] |] eqn:E2;
        [| discriminate].
      cbn [bind] in H. destruct (get_hand p3 Second) as [h2' |]; [| discriminate].
      cbn [bind] in H. injection H as <- _ _.
      destruct (second_hand_loop_chips _ _ _ _ _ _ E2) as [Hc2 Hn2].
      destruct (after_second_hand_chips p3 h2') as [Hm' Hs']. rewrite Hm', Hs'.
      split; [lia | auto].
    + injection H as <- _ _. auto.
  - injection H as <- _ _. auto.
Qed.

(** X5.  A turn only moves chips between the bankroll and the stakes: for a
    player who starts the turn without a second wager, the bankroll plus the
    wagers on the table (first and second hand, after any split and double
    down) is what the bankroll plus the wager was before. *)
Theorem turn_conserves_chips
        (p p' : Player) (deck deck' : Deck) (inp inp' : list line) :
  second_wager p = None ->
  player_turn p deck inp = Ok (p', deck', inp') ->
  money p' + stakes p' = money p + wager p.
Proof.
  intros Hsw H.
  destruct (player_turn_chips _ _ _ _ _ _ H (fun _ => Hsw)) as [Hc _].
  rewrite Hc. unfold stakes. rewrite Hsw. lia.
Qed.

(** Ann splits eights with 10 staked and doubles the second hand by 5:
    965 in hand, 10 and 15 on the table. *)
Lemma turn_conserves_chips_witness :
  player_turn (seated "Ann" 10 eight_hearts (mkCard "8♠" 8))
              [two_clubs; five_diamonds; nine_spades; mkCard "3♦" 3]
              [Key KP; Key KS; Key KD; Num 5]
  = Ok (mkPlayer "Ann" 975 false (mkHand [eight_hearts; two_clubs] 10 false) 10 true
                 (Some (mkHand [mkCard "8♠" 8; five_diamonds; nine_spades] 22 false))
                 (Some 15),
        [mkCard "3♦" 3], [])
  /\ 975 + stakes (mkPlayer "Ann" 975 false (mkHand [eight_hearts; two_clubs] 10 false)
                            10 true
                     (Some (mkHand [mkCard "8♠" 8; five_diamonds; nine_spades] 22 false))
                     (Some 15))
     = 990 + 10.
Proof.
  split; [reflexivity |].
  apply (turn_conserves_chips (seated "Ann" 10 eight_hearts (mkCard "8♠" 8))
           (mkPlayer "Ann" 975 false (mkHand [eight_hearts; two_clubs] 10 false) 10 true
                     (Some (mkHand [mkCard "8♠" 8; five_diamonds; nine_spades] 22 false))
                     (Some 15))
           [two_clubs; five_diamonds; nine_spades; mkCard "3♦" 3] [mkCard "3♦" 3]
           [Key KP; Key KS; Key KD; Num 5] []); reflexivity.
Defined.

(** X6.  No bet overdraws the bankroll: [make_bet] leaves a bankroll that is
    not negative, whatever it was and whatever is typed, and a turn - with
    its splits and double downs on either hand - never takes a bankroll that
    is not negative below zero. *)
Theorem bankroll_never_overdrawn
        (p p' : Player) (deck deck' : Deck) (inp inp' : list line) :
  0 <= money p ->
  (second_hand p = None -> second_wager p = None) ->
  player_turn p deck inp = Ok (p', deck', inp') ->
  0 <= money p'
  /\ forall q bets, on_ok (fun r => 0 <= money (fst r)
                                     /\ money (fst r) + wager (fst r) = money q)
                          (make_bet q bets).
Proof.
  intros H0 Hinv H. split.
  - destruct (player_turn_chips _ _ _ _ _ _ H Hinv) as [_ Hn]. auto.
  - intros q bets. pose proof (make_bet_funds bets q) as Hb.
    destruct (make_bet q bets); [| exact I]. cbn in *. tauto.
Qed.

(** With 10 left and 10 staked on a pair of eights, Ann splits: nothing is
    left, and a double down can only add 0. *)
Lemma bankroll_never_overdrawn_witness :
  player_turn (mkPlayer "Ann" 10 false (dealt eight_hearts (mkCard "8♠" 8)) 10 false
                        None None)
              [two_clubs; five_diamonds; nine_spades]
              [Key KP; Key KD; Num 1; Num 0; Key KS]
  = Ok (mkPlayer "Ann" 0 false (mkHand [eight_hearts; two_clubs; nine_spades] 19 false)
                 10 true (Some (mkHand [mkCard "8♠" 8; five_diamonds] 13 false))
                 (Some 10),
        [], [])
  /\ 0 <= money (mkPlayer "Ann" 0 false
                          (mkHand [eight_hearts; two_clubs; nine_spades] 19 false)
                          10 true (Some (mkHand [mkCard "8♠" 8; five_diamonds] 13 false))
                          (Some 10)).
Proof.
  split; [reflexivity |].
  apply (bankroll_never_overdrawn
           (mkPlayer "Ann" 10 false (dealt eight_hearts (mkCard "8♠" 8)) 10 false None None)
           _ [two_clubs; five_diamonds; nine_spades] []
           [Key KP; Key KD; Num 1; Num 0; Key KS] []);
    [cbv; discriminate | reflexivity | reflexivity].
Defined.

(** ** Who is left standing *)

(** The first loop is only left below 21 by a choice that makes the player
    stand. *)
Lemma first_hand_loop_stand (inp : list line) :
  forall (p p1 : Player) (deck d1 : Deck) (i1 : list line),
    first_hand_loop p deck inp = Ok (p1, d1, i1) ->
    value (hand p1) < LIMIT -> stand p1 = true.
Proof.
  induction inp as [| l inp IH]; intros p p1 deck d1 i1 H Hv.
  - cbn [first_hand_loop] in H. destruct (Z.ltb_spec (value (hand p)) LIMIT); [discriminate |].
    injection H as <- _ _. lia.
  - cbn [first_hand_loop] in H. destruct (Z.ltb_spec (value (hand p)) LIMIT).
    2:{ injection H as <- _ _. lia. }
    destruct (split_offered p) as [offered |]; [| discriminate]. cbn [bind] in H.
    assert (Hrest : forall q dq,
      match upper l with
      | KH => '(h, deck2) <- draw_card (hand q) dq ;;
              first_hand_loop (set_hand q h) deck2 inp
      | KS => Ok (set_stand q true, dq, inp)
      | KD => '(player2, deck2, w, rest') <-
                double_down q First dq (wager q) inp ;;
              Ok (set_wager player2 w, deck2, rest')
      | _ => first_hand_loop q dq inp
      end = Ok (p1, d1, i1) -> stand p1 = true).
    { clear H. intros q dq H. destruct (upper l); try (apply (IH _ _ _ _ _ H Hv)).
      - destruct (draw_card (hand q) dq) as [[h deck2] |]; [| discriminate].
        cbn [bind] in H. apply (IH _ _ _ _ _ H Hv).
      - injection H as <- _ _. reflexivity.
      - destruct (double_down q First dq (wager q) inp) as [[[[p2 d2] w] r'] |] eqn:E;
          [| discriminate].
        cbn [bind] in H. injection H as <- _ _.
        apply double_down_funds in E. cbn. tauto. }
    destruct offered; [| apply (Hrest p deck H)].
    destruct (key_eqb (upper l) KP); [| apply (Hrest p deck H)].
    destruct (split_hand p deck) as [[p' d'] |]; [| discriminate]. cbn [bind] in H.
    destruct (split_aces p') as [[|] |]; [| | discriminate]; cbn [bind] in H.
    + injection H as <- _ _. reflexivity.
    + apply (Hrest _ _ H).
Qed.

Lemma double_down_hands (p p2 : Player) (hd : which) (deck d2 : Deck) (wg w : Z)
      (inp rest' : list line) :
  double_down p hd deck wg inp = Ok (p2, d2, w, rest') ->
  match hd with
  | First => second_hand p2 = second_hand p
  | Second => hand p2 = hand p
  end.
Proof.
  induction inp as [| l inp IH]; [discriminate |]. cbn [double_down].
  destruct (int_of_line l) as [a |]; [| discriminate]. cbn [bind].
  destruct (negb (validate_wager a (Z.min wg (money p)))); [exact IH |].
  destruct (get_hand (set_money p (money p - a)) hd) as [h |]; [| discriminate].
  cbn [bind]. destruct (draw_card h deck) as [[h' deck'] |]; [| discriminate].
  cbn [bind]. intro H. injection H as <- _ _ _. destruct hd; reflexivity.
Qed.

(** The second loop leaves the first hand alone, never takes [stand] back,
    and is only left below 21 by a choice that makes the player stand. *)
Lemma second_hand_loop_stand (inp : list line) :
  forall (p p3 : Player) (deck d3 : Deck) (i3 : list line),
    second_hand_loop p deck inp = Ok (p3, d3, i3) ->
    hand p3 = hand p
    /\ (stand p = true -> stand p3 = true)
    /\ exists h2, second_hand p3 = Some h2 /\ (value h2 < LIMIT -> stand p3 = true).
Proof.
  induction inp as [| l inp IH]; intros p p3 deck d3 i3 H.
  - cbn [second_hand_loop] in H. unfold get_hand in H.
    destruct (second_hand p) as [h2 |] eqn:E; [| discriminate]. cbn [bind] in H.
    destruct (Z.ltb_spec (value h2) LIMIT); [discriminate |]. injection H as <- _ _.
    split; [reflexivity |]. split; [auto |]. exists h2. split; [exact E | lia].
  - cbn [second_hand_loop] in H. unfold get_hand in H.
    destruct (second_hand p) as [h2 |] eqn:E; [| discriminate]. cbn [bind] in H.
    destruct (Z.ltb_spec (value h2) LIMIT).
    2:{ injection H as <- _ _. split; [reflexivity |]. split; [auto |].
        exists h2. split; [exact E | lia]. }
    destruct (upper l); try (apply (IH _ _ _ _ _ H)).
    + destruct (draw_card h2 deck) as [[h d1] |]; [| discriminate].
      cbn [bind] in H. apply (IH _ _ _ _ _ H).
    + injection H as <- _ _. split; [reflexivity |]. split; [reflexivity |].
      exists h2. split; [exact E | reflexivity].
    + destruct (int_of (second_wager p)) as [w0 |]; [| discriminate]. cbn [bind] in H.
      destruct (double_down p Second deck w0 inp) as [[[[p2 d2] w] r'] |] eqn:Ed;
        [| discriminate].
      cbn [bind] in H. injection H as <- _ _.
      pose proof (double_down_hands _ _ _ _ _ _ _ _ _ Ed) as Hh.
      pose proof (double_down_money _ _ _ _ _ _ _ _ _ Ed) as (_ & _ & Hs).
      apply double_down_funds in Ed. cbn in *.
      split; [exact Hh |]. split; [tauto |].
      destruct (second_hand p2) as [h2' |]; [| congruence].
      exists h2'. split; [reflexivity | tauto].
Qed.

Lemma after_first_hand_stand (q : Player) :
  (value (hand q) < LIMIT -> stand q = true) ->
  stand (after_first_hand q) = false -> LIMIT < value (hand q).
Proof.
  unfold after_first_hand. intros Hq.
  destruct (Z.eqb_spec (value (hand q)) LIMIT) as [E | E]; cbn [hand set_stand].
  - destruct (Z.ltb_spec LIMIT (value (hand q))); [lia | discriminate].
  - destruct (Z.ltb_spec LIMIT (value (hand q))); [auto |].
    intro Hs. assert (stand q = true) by (apply Hq; lia). congruence.
Qed.

Lemma after_second_hand_stand (q : Player) (h : Hand) :
  (value h < LIMIT -> stand q = true) ->
  stand (after_second_hand q h) = false -> LIMIT < value h /\ stand q = false.
Proof.
  unfold after_second_hand. intros Hq.
  destruct (Z.eqb_spec (value h) LIMIT) as [E | E]; cbn [stand set_stand negb].
  - destruct (Z.ltb_spec LIMIT (value h)); [lia | discriminate].
  - destruct (Z.ltb_spec LIMIT (value h)).
    + destruct (stand q) eqn:Es; cbn [negb]; [congruence | auto].
    + intro Hs. assert (stand q = true) by (apply Hq; lia). congruence.
Qed.

(** X7.  No live hand is left behind: a player who went through the
    decision loops and is not standing when the turn ends has a first hand
    over 21, and - when a pair other than Aces was split - a second hand over
    21 as well.  Every hand of at most 21 belongs to a standing player, whom
    the dealer's turn settles. *)
Theorem not_standing_is_bust
        (p p' : Player) (deck deck' : Deck) (inp inp' : list line) :
  blackjack (hand p) = false -> stand p = false ->
  player_turn p deck inp = Ok (p', deck', inp') ->
  stand p' = false ->
  LIMIT < value (hand p')
  /\ forall h2 c, truthy (second_hand p') = Some h2 -> first_card h2 = Ok c ->
                  is_ace c = false -> LIMIT < value h2.
Proof.
  intros Hb Hs H Hn. unfold player_turn in H. rewrite Hb, Hs in H. cbn [negb andb] in H.
  destruct (first_hand_loop p deck inp) as [[[q d1] i1] |] eqn:E1; [| discriminate].
  cbn [bind] in H.
  pose proof (first_hand_loop_stand _ _ _ _ _ _ E1) as Hq.
  destruct (after_first_hand_fields q) as (_ & _ & Hh & Hsh & _).
  destruct (truthy (second_hand (after_first_hand q))) as [h2 |] eqn:Et.
  - destruct (first_card h2) as [c |] eqn:Ec; [| discriminate]. cbn [bind] in H.
    destruct (is_ace c) eqn:Ea; cbn [negb] in H.
    + injection H as <- _ _. split.
      * rewrite Hh. apply after_first_hand_stand; assumption.
      * intros h c' Ht Hc' Hace. rewrite Et in Ht. injection Ht as <-.
        rewrite Ec in Hc'. injection Hc' as <-. congruence.
    + destruct (second_hand_loop (after_first_hand q) d1 i1) as [[[p3 d3] i3] |] eqn:E2;
        [| discriminate].
      cbn [bind] in H.
      destruct (second_hand_loop_stand _ _ _ _ _ _ E2) as (Hh3 & Hmono & h3 & Hsh3 & Hst3).
      unfold get_hand in H. rewrite Hsh3 in H. cbn [bind] in H. injection H as <- _ _.
      destruct (after_second_hand_stand p3 h3 Hst3 Hn) as [Hv3 Hs3].
      assert (Hhand : hand (after_second_hand p3 h3) = hand p3).
      { unfold after_second_hand.
        destruct (value h3 =? LIMIT), (LIMIT <? value h3); cbn [stand set_stand negb];
          try reflexivity; destruct (stand p3); reflexivity. }
      split.
      * rewrite Hhand, Hh3, Hh. apply after_first_hand_stand; [assumption |].
        destruct (stand (after_first_hand q)) eqn:Es1; [| reflexivity].
        rewrite (Hmono eq_refl) in Hs3. discriminate.
      * intros h c' Ht _ _. rewrite after_second_hand_second_hand, Hsh3 in Ht.
        unfold truthy in Ht. destruct (cards h3); [discriminate |].
        injection Ht as <-. exact Hv3.
  - injection H as <- _ _. split.
    + rewrite Hh. apply after_first_hand_stand; assumption.
    + intros h c Ht. rewrite Et in Ht. discriminate.
Qed.

(** Ann splits eights and busts both hands: Ann is not standing. *)
Lemma not_standing_is_bust_witness :
  player_turn (seated "Ann" 10 eight_hearts (mkCard "8♠" 8))
              [five_diamonds; six_clubs; king_spades; queen_hearts]
              [Key KP; Key KH; Key KH]
  = Ok (mkPlayer "Ann" 980 false
                 (mkHand [eight_hearts; five_diamonds; king_spades] 23 false) 10 false
                 (Some (mkHand [mkCard "8♠" 8; six_clubs; queen_hearts] 24 false))
                 (Some 10),
        [], [])
  /\ LIMIT < value (mkHand [eight_hearts; five_diamonds; king_spades] 23 false)
  /\ LIMIT < value (mkHand [mkCard "8♠" 8; six_clubs; queen_hearts] 24 false).
Proof.
  split; [reflexivity |].
  destruct (not_standing_is_bust (seated "Ann" 10 eight_hearts (mkCard "8♠" 8))
              (mkPlayer "Ann" 980 false
                 (mkHand [eight_hearts; five_diamonds; king_spades] 23 false) 10 false
                 (Some (mkHand [mkCard "8♠" 8; six_clubs; queen_hearts] 24 false))
                 (Some 10))
              [five_diamonds; six_clubs; king_spades; queen_hearts] []
              [Key KP; Key KH; Key KH] [] eq_refl eq_refl eq_refl eq_refl)
    as [H1 H2].
  split; [exact H1 |].
  apply (H2 _ (mkCard "8♠" 8)); reflexivity.
Defined.

(** ** The dealer's turn settles every hand on its own *)

Lemma mapM_map {A B : Type} (f : A -> result B) (g : A -> B) (l : list A) :
  Forall (fun a => f a = Ok (g a)) l -> mapM f l = Ok (map g l).
Proof.
  induction 1 as [| a l Ha _ IH]; [reflexivity |].
  cbn [mapM map]. rewrite Ha. cbn [bind]. rewrite IH. reflexivity.
Qed.

Lemma payout_after_dealer_bust_player_credit (dv : Z) (p : Player) :
  LIMIT < dv ->
  truthy (second_hand p) = None \/ (exists w2, second_wager p = Some w2) ->
  payout_after_dealer_bust_player p = Ok (set_money p (money p + round_credit dv p)).
Proof.
  intros Hdv Hwf. apply Z.ltb_lt in Hdv.
  unfold payout_after_dealer_bust_player, round_credit, hand_credit. rewrite Hdv.
  destruct (stand p); [| rewrite set_money_same; reflexivity].
  assert (H1 : (if value (hand p) <=? LIMIT then payout_hand p (Some (wager p)) else Ok p)
               = Ok (set_money p (money p + (if LIMIT <? value (hand p) then 0
                                             else 2 * wager p)))).
  { destruct (Z.leb_spec (value (hand p)) LIMIT), (Z.ltb_spec LIMIT (value (hand p)));
      try lia; [reflexivity | rewrite set_money_same; reflexivity]. }
  rewrite H1. cbn [bind second_hand second_wager set_money money].
  destruct (truthy (second_hand p)) as [h2 |].
  - destruct Hwf as [Hwf | [w2 Hw2]]; [discriminate |]. rewrite Hw2.
    destruct (Z.leb_spec (value h2) LIMIT), (Z.ltb_spec LIMIT (value h2)); try lia.
    + unfold payout_hand. cbn [int_of bind]. rewrite set_money_twice. cbn [money set_money].
      apply f_equal, (f_equal (set_money p)). lia.
    + apply f_equal, (f_equal (set_money p)). lia.
  - apply f_equal, (f_equal (set_money p)). lia.
Qed.

Lemma hand_credit_bust (dv : Z) (h : Hand) (w : Z) :
  LIMIT < value h -> hand_credit dv h w = 0.
Proof.
  intro H. unfold hand_credit. apply Z.ltb_lt in H. rewrite H. reflexivity.
Qed.

Lemma compare_hand_credit (dealer : Dealer) (p : Player) (h : Hand) (w : Z) :
  value (dhand dealer) <= LIMIT -> value h <= LIMIT ->
  compare_hand p h (dhand dealer) (Some w)
  = Ok (set_money p (money p + hand_credit (value (dhand dealer)) h w)).
Proof.
  intros Hd Hh. rewrite compare_hand_settles. unfold hand_credit.
  destruct (Z.ltb_spec LIMIT (value h)); [lia |].
  destruct (Z.ltb_spec LIMIT (value (dhand dealer))); [lia |].
  destruct (value h <? value (dhand dealer)); [reflexivity |].
  destruct (value (dhand dealer) =? value h); reflexivity.
Qed.

Lemma compare_multiple_hands_player_credit (dealer : Dealer) (p : Player) :
  value (dhand dealer) <= LIMIT ->
  truthy (second_hand p) = None \/ (exists w2, second_wager p = Some w2) ->
  compare_multiple_hands_player dealer p
  = Ok (set_money p (money p + round_credit (value (dhand dealer)) p)).
Proof.
  intros Hdv Hwf. unfold compare_multiple_hands_player, round_credit.
  destruct (stand p); [| rewrite set_money_same; reflexivity].
  assert (H1 : (if value (hand p) <=? LIMIT
                then compare_hand p (hand p) (dhand dealer) (Some (wager p)) else Ok p)
               = Ok (set_money p (money p + hand_credit (value (dhand dealer)) (hand p)
                                                        (wager p)))).
  { destruct (Z.leb_spec (value (hand p)) LIMIT).
    - apply compare_hand_credit; assumption.
    - unfold hand_credit. destruct (Z.ltb_spec LIMIT (value (hand p))); [| lia].
      rewrite set_money_same. reflexivity. }
  rewrite H1. cbn [bind second_hand second_wager set_money money].
  destruct (truthy (second_hand p)) as [h2 |].
  - destruct Hwf as [Hwf | [w2 Hw2]]; [discriminate |]. rewrite Hw2.
    destruct (Z.leb_spec (value h2) LIMIT).
    + rewrite compare_hand_credit by assumption. rewrite set_money_twice.
      cbn [money set_money]. apply f_equal, (f_equal (set_money p)). lia.
    + rewrite (hand_credit_bust _ h2 w2) by assumption.
      apply f_equal, (f_equal (set_money p)). lia.
  - apply f_equal, (f_equal (set_money p)). lia.
Qed.

(** ** The dealer's turn draws to 17 *)

(** When every second hand has its wager, neither settlement fails. *)
Lemma settlement_total (players : list Player) (h : Hand) :
  Forall (fun p => truthy (second_hand p) = None \/ exists w2, second_wager p = Some w2)
         players ->
  exists players',
    (if LIMIT <? value h
     then payout_after_dealer_bust players
     else compare_multiple_hands players (mkDealer h)) = Ok players'.
Proof.
  intro Hwf. destruct (Z.ltb_spec LIMIT (value h)).
  - exists (map (fun p => set_money p (money p + round_credit (value h) p)) players).
    unfold payout_after_dealer_bust. apply mapM_map.
    apply (Forall_impl _ (fun p Hp => payout_after_dealer_bust_player_credit (value h) p H Hp)
                       Hwf).
  - exists (map (fun p => set_money p (money p + round_credit (value h) p)) players).
    unfold compare_multiple_hands. apply mapM_map.
    apply (Forall_impl _ (fun p Hp =>
             compare_multiple_hands_player_credit (mkDealer h) p H Hp) Hwf).
Qed.

(** C8.  In the dealer's turn, [resolve_dealer_hand]: while the value of the
    dealer's hand is below 17 the dealer draws the top card of the deck and
    the turn goes on from the new hand (on an empty deck that is an
    IndexError); at 17 or more no card is drawn, the hand and the deck are
    left as they are and the players are settled against that hand, a soft
    17 (an Ace worth 11 and a 6) included; whenever the turn returns, the
    dealer's value is at least 17.  The turn does return, from a hand the
    program builds, whenever the deck still holds as many cards as the hard
    total of the hand is short of 17 and every second hand has its wager. *)
Theorem dealer_hits_below_17 (deck : Deck) (dealer : Dealer) (players : list Player) :
  (value (dhand dealer) < 17 ->
   resolve_dealer_hand deck dealer players
   = ('(h', deck') <- draw_card (dhand dealer) deck ;;
      resolve_dealer_hand deck' (mkDealer h') players))
  /\ (17 <= value (dhand dealer) ->
      resolve_dealer_hand deck dealer players
      = (players' <- (if LIMIT <? value (dhand dealer)
                      then payout_after_dealer_bust players
                      else compare_multiple_hands players dealer) ;;
         Ok (players', dealer, deck)))
  /\ resolve_dealer_hand deck (mkDealer (dealt ace_spades six_clubs)) players
     = (players' <- compare_multiple_hands players
                      (mkDealer (dealt ace_spades six_clubs)) ;;
        Ok (players', mkDealer (dealt ace_spades six_clubs), deck))
  /\ on_ok (fun r => 17 <= value (dhand (snd (fst r))))
           (resolve_dealer_hand deck dealer players)
  /\ (hand_ok (dhand dealer) -> Forall fresh deck ->
      17 - hard_points (cards (dhand dealer)) <= Z.of_nat (List.length deck) ->
      Forall (fun p => truthy (second_hand p) = None
                       \/ exists w2, second_wager p = Some w2) players ->
      exists players' dealer' deck',
        resolve_dealer_hand deck dealer players = Ok (players', dealer', deck')
        /\ 17 <= value (dhand dealer')).
Proof.
  split; [| split; [| split; [| split]]].
  - intro H. unfold resolve_dealer_hand. rewrite dealer_draws_eq.
    apply Z.ltb_lt in H. rewrite H.
    destruct (draw_card (dhand dealer) deck) as [[h' deck'] |]; reflexivity.
  - intro H. unfold resolve_dealer_hand. rewrite dealer_draws_eq.
    destruct (Z.ltb_spec (value (dhand dealer)) 17); [lia |].
    destruct dealer as [h]. reflexivity.
  - unfold resolve_dealer_hand. rewrite dealer_draws_eq. reflexivity.
  - unfold resolve_dealer_hand.
    pose proof (dealer_draws_at_least_17 deck (dhand dealer)) as H.
    destruct (dealer_draws deck (dhand dealer)) as [[h deck'] |]; [| exact I].
    cbn [bind on_ok fst] in *.
    destruct (if LIMIT <? value h then payout_after_dealer_bust players
              else compare_multiple_hands players (mkDealer h)); [exact H | exact I].
  - intros Hh Hd Hlen Hwf.
    destruct (dealer_draws_total deck (dhand dealer) Hh Hd Hlen) as (h' & deck' & E & Hv).
    destruct (settlement_total players h' Hwf) as [players' Hs].
    exists players', (mkDealer h'), deck'. unfold resolve_dealer_hand.
    rewrite E. cbn [bind]. rewrite Hs. split; [reflexivity | exact Hv].
Qed.

(** The dealer holds King and 6 against Ann, who stands on 20 with 10 at
    stake: the dealer draws the 5, stands on 21 with the 2 left on the deck,
    and Ann is paid nothing.  A dealer who holds King and 7 draws nothing. *)
Lemma dealer_hits_below_17_witness :
  resolve_dealer_hand
    [five_diamonds; two_clubs] (mkDealer (dealt king_spades six_clubs))
    [mkPlayer "Ann" 990 false (dealt queen_hearts ten_clubs) 10 true None None]
  = Ok ([mkPlayer "Ann" 990 false (dealt queen_hearts ten_clubs) 10 true None None],
        mkDealer (mkHand [king_spades; six_clubs; five_diamonds] 21 false),
        [two_clubs])
  /\ resolve_dealer_hand
       [five_diamonds; two_clubs] (mkDealer (dealt king_spades six_clubs))
       [mkPlayer "Ann" 990 false (dealt queen_hearts ten_clubs) 10 true None None]
     = ('(h', deck') <- draw_card (dhand (mkDealer (dealt king_spades six_clubs)))
                                 [five_diamonds; two_clubs] ;;
        resolve_dealer_hand
          deck' (mkDealer h')
          [mkPlayer "Ann" 990 false (dealt queen_hearts ten_clubs) 10 true None None])
  /\ resolve_dealer_hand
       [five_diamonds; two_clubs] (mkDealer (dealt king_spades (mkCard "7♦" 7)))
       [mkPlayer "Ann" 990 false (dealt queen_hearts ten_clubs) 10 true None None]
     = Ok ([mkPlayer "Ann" 1010 false (dealt queen_hearts ten_clubs) 10 true None None],
           mkDealer (dealt king_spades (mkCard "7♦" 7)), [five_diamonds; two_clubs])
  /\ exists players' dealer' deck',
       resolve_dealer_hand
         [five_diamonds; two_clubs] (mkDealer (dealt king_spades six_clubs))
         [mkPlayer "Ann" 990 false (dealt queen_hearts ten_clubs) 10 true None None]
       = Ok (players', dealer', deck')
       /\ 17 <= value (dhand dealer').
Proof.
  split; [reflexivity |].
  pose proof (dealer_hits_below_17
                [five_diamonds; two_clubs] (mkDealer (dealt king_spades six_clubs))
                [mkPlayer "Ann" 990 false (dealt queen_hearts ten_clubs) 10 true None None])
    as (Hdraw & _ & _ & _ & Hends).
  pose proof (dealer_hits_below_17
                [five_diamonds; two_clubs]
                (mkDealer (dealt king_spades (mkCard "7♦" 7)))
                [mkPlayer "Ann" 990 false (dealt queen_hearts ten_clubs) 10 true None None])
    as (_ & Hstands & _).
  split; [apply Hdraw; cbv; reflexivity |].
  split; [rewrite Hstands; [reflexivity | cbv; discriminate] |].
  apply Hends.
  - apply hand_ok_dealt; cbv; intuition congruence.
  - constructor; [cbv; intuition congruence |].
    constructor; [cbv; intuition congruence | constructor].
  - cbv. discriminate.
  - constructor; [left; reflexivity | constructor].
Defined.

(** X8.  Once the dealer has drawn, every player is credited hand by hand:
    a hand over 21 or of a player who is not standing gets nothing; any other
    hand gets twice its own wager if the dealer is over 21 or lower, its
    wager back on a tie, nothing if the dealer is higher.  Nothing but the
    bankrolls changes.  (Each second hand has its second wager.) *)
Theorem dealer_turn_settles_each_hand
        (players : list Player) (dealer : Dealer) (deck : Deck) :
  Forall (fun p => truthy (second_hand p) = None \/ exists w2, second_wager p = Some w2)
         players ->
  resolve_dealer_hand deck dealer players
  = ('(h, deck') <- dealer_draws deck (dhand dealer) ;;
     Ok (map (fun p => set_money p (money p + round_credit (value h) p)) players,
         mkDealer h, deck')).
Proof.
  intro Hwf. unfold resolve_dealer_hand.
  destruct (dealer_draws deck (dhand dealer)) as [[h deck'] |]; [| reflexivity].
  cbn [bind]. destruct (Z.ltb_spec LIMIT (value h)).
  - unfold payout_after_dealer_bust.
    rewrite (mapM_map _ (fun p => set_money p (money p + round_credit (value h) p)));
      [reflexivity |].
    apply (Forall_impl _ (fun p Hp => payout_after_dealer_bust_player_credit (value h) p H Hp)
                       Hwf).
  - unfold compare_multiple_hands.
    rewrite (mapM_map _ (fun p => set_money p (money p + round_credit (value h) p)));
      [reflexivity |].
    apply (Forall_impl _ (fun p Hp =>
             compare_multiple_hands_player_credit (mkDealer h) p H Hp) Hwf).
Qed.

(** Ann stands on 19 and on 13 after a split, with 10 on each hand, against
    a dealer who draws to 19: the first hand ties, the second loses. *)
Lemma dealer_turn_settles_each_hand_witness :
  resolve_dealer_hand
    [mkCard "3♦" 3; ace_clubs] (mkDealer (dealt six_clubs ten_clubs))
    [mkPlayer "Ann" 980 false
              (mkHand [eight_hearts; two_clubs; nine_spades] 19 false) 10 true
              (Some (mkHand [mkCard "8♠" 8; five_diamonds] 13 false)) (Some 10)]
  = Ok ([mkPlayer "Ann" 990 false
                  (mkHand [eight_hearts; two_clubs; nine_spades] 19 false) 10 true
                  (Some (mkHand [mkCard "8♠" 8; five_diamonds] 13 false)) (Some 10)],
        mkDealer (mkHand [six_clubs; ten_clubs; mkCard "3♦" 3] 19 false), [ace_clubs]).
Proof.
  rewrite (dealer_turn_settles_each_hand
             [mkPlayer "Ann" 980 false
                       (mkHand [eight_hearts; two_clubs; nine_spades] 19 false) 10 true
                       (Some (mkHand [mkCard "8♠" 8; five_diamonds] 13 false)) (Some 10)]).
  - reflexivity.
  - constructor; [right; exists 10; reflexivity | constructor].
Defined.

(** A second hand always has its wager: the condition of the settlement
    above holds for every player who started the turn with no second hand. *)
Lemma first_hand_loop_second_wager (inp : list line) :
  forall (p p1 : Player) (deck d1 : Deck) (i1 : list line),
    first_hand_loop p deck inp = Ok (p1, d1, i1) ->
    (second_hand p = None \/ exists w2, second_wager p = Some w2) ->
    second_hand p1 = None \/ exists w2, second_wager p1 = Some w2.
Proof.
  induction inp as [| l inp IH]; intros p p1 deck d1 i1 H Hinv.
  - cbn [first_hand_loop] in H. destruct (value (hand p) <? LIMIT); [discriminate |].
    injection H as <- _ _. exact Hinv.
  - cbn [first_hand_loop] in H. destruct (value (hand p) <? LIMIT).
    2:{ injection H as <- _ _. exact Hinv. }
    destruct (split_offered p) as [offered |]; [| discriminate]. cbn [bind] in H.
    assert (Hrest : forall q dq,
      (second_hand q = None \/ exists w2, second_wager q = Some w2) ->
      match upper l with
      | KH => '(h, deck2) <- draw_card (hand q) dq ;;
              first_hand_loop (set_hand q h) deck2 inp
      | KS => Ok (set_stand q true, dq, inp)
      | KD => '(player2, deck2, w, rest') <-
                double_down q First dq (wager q) inp ;;
              Ok (set_wager player2 w, deck2, rest')
      | _ => first_hand_loop q dq inp
      end = Ok (p1, d1, i1) ->
      second_hand p1 = None \/ exists w2, second_wager p1 = Some w2).
    { clear H. intros q dq Hq H. destruct (upper l); try (apply (IH _ _ _ _ _ H Hq)).
      - destruct (draw_card (hand q) dq) as [[h deck2] |]; [| discriminate].
        cbn [bind] in H. apply (IH _ _ _ _ _ H Hq).
      - injection H as <- _ _. exact Hq.
      - destruct (double_down q First dq (wager q) inp) as [[[[p2 d2] w] r'] |] eqn:E;
          [| discriminate].
        cbn [bind] in H. injection H as <- _ _.
        pose proof (double_down_hands _ _ _ _ _ _ _ _ _ E) as Hh.
        apply double_down_funds in E. destruct E as (_ & _ & _ & _ & Hsw & _).
        cbn in *. rewrite Hh, Hsw. exact Hq. }
    destruct offered; [| apply (Hrest p deck Hinv H)].
    destruct (key_eqb (upper l) KP); [| apply (Hrest p deck Hinv H)].
    destruct (split_hand p deck) as [[p' d'] |] eqn:Es; [| discriminate].
    cbn [bind] in H.
    assert (Hp' : exists w2, second_wager p' = Some w2).
    { destruct (split_hand_ok_inv _ _ _ _ Es) as (front & sc & c1 & c2 & Hc & ->).
      rewrite (split_hand_eq p front sc c1 c2 d' Hc) in Es. injection Es as <-.
      eexists. reflexivity. }
    destruct (split_aces p') as [[|] |]; [| | discriminate]; cbn [bind] in H.
    + injection H as <- _ _. right. exact Hp'.
    + apply (Hrest _ _ (or_intror Hp') H).
Qed.

Lemma second_hand_loop_second_wager (inp : list line) :
  forall (p p3 : Player) (deck d3 : Deck) (i3 : list line),
    second_hand_loop p deck inp = Ok (p3, d3, i3) ->
    (exists w2, second_wager p = Some w2) -> exists w2, second_wager p3 = Some w2.
Proof.
  induction inp as [| l inp IH]; intros p p3 deck d3 i3 H Hinv.
  - cbn [second_hand_loop] in H. destruct (get_hand p Second) as [h2 |]; [| discriminate].
    cbn [bind] in H. destruct (value h2 <? LIMIT); [discriminate |].
    injection H as <- _ _. exact Hinv.
  - cbn [second_hand_loop] in H.
    destruct (get_hand p Second) as [h2 |]; [| discriminate].
    cbn [bind] in H. destruct (value h2 <? LIMIT).
    2:{ injection H as <- _ _. exact Hinv. }
    destruct (upper l); try (apply (IH _ _ _ _ _ H Hinv)).
    + destruct (draw_card h2 deck) as [[h d1] |]; [| discriminate].
      cbn [bind] in H. apply (IH _ _ _ _ _ H Hinv).
    + injection H as <- _ _. exact Hinv.
    + destruct (int_of (second_wager p)) as [w0 |]; [| discriminate]. cbn [bind] in H.
      destruct (double_down p Second deck w0 inp) as [[[[p2 d2] w] r'] |];
        [| discriminate].
      cbn [bind] in H. injection H as <- _ _. eexists. reflexivity.
Qed.

Lemma player_turn_second_wager (p p' : Player) (deck deck' : Deck) (inp inp' : list line) :
  player_turn p deck inp = Ok (p', deck', inp') ->
  (second_hand p = None \/ exists w2, second_wager p = Some w2) ->
  truthy (second_hand p') = None \/ exists w2, second_wager p' = Some w2.
Proof.
  assert (Htr : forall q, (second_hand q = None \/ exists w2, second_wager q = Some w2) ->
                          truthy (second_hand q) = None
                          \/ exists w2, second_wager q = Some w2).
  { intros q [Hq | Hq]; [left; rewrite Hq; reflexivity | right; exact Hq]. }
  unfold player_turn. intros H Hinv.
  destruct (negb (blackjack (hand p)) && negb (stand p)).
  2:{ injection H as <- _ _. apply Htr, Hinv. }
  destruct (first_hand_loop p deck inp) as [[[q d1] i1] |] eqn:E1; [| discriminate].
  cbn [bind] in H. apply first_hand_loop_second_wager in E1; [| exact Hinv].
  assert (Hq : second_hand (after_first_hand q) = None
               \/ exists w2, second_wager (after_first_hand q) = Some w2).
  { unfold after_first_hand. destruct (value (hand q) =? LIMIT); cbn [hand set_stand];
      destruct (LIMIT <? value (hand q)); exact E1. }
  destruct (truthy (second_hand (after_first_hand q))) as [h2 |] eqn:Et.
  - destruct (first_card h2) as [c |]; [| discriminate]. cbn [bind] in H.
    destruct (negb (is_ace c)).
    + destruct (second_hand_loop (after_first_hand q) d1 i1) as [[[p3 d3] i3] |] eqn:E2;
        [| discriminate].
      cbn [bind] in H. destruct (get_hand p3 Second) as [h2' |]; [| discriminate].
      cbn [bind] in H. injection H as <- _ _. right.
      assert (Hw : exists w2, second_wager (after_first_hand q) = Some w2).
      { destruct Hq as [Hq | Hq]; [rewrite Hq in Et; discriminate | exact Hq]. }
      destruct (second_hand_loop_second_wager _ _ _ _ _ _ E2 Hw) as [w2 Hw2].
      exists w2. unfold after_second_hand.
      destruct (value h2' =? LIMIT), (LIMIT <? value h2'); cbn [stand set_stand negb];
        try exact Hw2; destruct (stand p3); exact Hw2.
    + injection H as <- _ _. apply Htr, Hq.
  - injection H as <- _ _. apply Htr, Hq.
Qed.

(** ** Where the dealer ends *)

Lemma demote_aces_le (cs : list Card) (v : Z) : snd (demote_aces cs v) <= v.
Proof.
  revert v. induction cs as [| c cs IH]; intro v; cbn [demote_aces]; [cbn; lia |].
  destruct (is_ace c && (points c =? 11)).
  - specialize (IH (v - 10)). destruct (demote_aces cs (v - 10)). cbn [snd] in *. lia.
  - specialize (IH v). destruct (demote_aces cs v). cbn [snd] in *. lia.
Qed.

Lemma reset_ace_value_le (h : Hand) : value (reset_ace_value h) <= value h.
Proof.
  unfold reset_ace_value. destruct (LIMIT <? value h); [| lia].
  pose proof (demote_aces_le (cards h) (value h)) as H.
  destruct (demote_aces (cards h) (value h)). exact H.
Qed.

Lemma draw_below_17 (h : Hand) (c : Card) :
  fresh c -> value h < 17 -> value (reset_ace_value (add_card h c)) <= 26.
Proof.
  intros Hf Hv. apply Z.le_trans with (value (add_card h c));
    [apply reset_ace_value_le |].
  unfold add_card, fresh in *. cbn [value].
  destruct (is_ace c); cbn [andb].
  - destruct (Z.ltb_spec 10 (value h)); cbn [set_points points]; lia.
  - lia.
Qed.

(** X9.  The dealer takes cards from the top of the deck only, one after
    the other, and - starting from a hand of at most 26, as every dealt hand
    is - ends between 17 and 26. *)
Theorem dealer_ends_between_17_and_26 (deck : Deck) (h : Hand) :
  Forall fresh deck -> value h <= 26 ->
  on_ok (fun r => 17 <= value (fst r) <= 26
                  /\ exists drawn, deck = drawn ++ snd r
                                   /\ hnames (fst r) = hnames h ++ map name drawn)
        (dealer_draws deck h).
Proof.
  intro Hd. revert h. induction Hd as [| c deck Hc _ IH]; intros h Hv;
    cbn [dealer_draws].
  - destruct (Z.ltb_spec (value h) 17); cbn; [exact I |].
    split; [lia |]. exists []. split; [reflexivity | rewrite app_nil_r; reflexivity].
  - destruct (Z.ltb_spec (value h) 17).
    + specialize (IH _ (draw_below_17 h c Hc H)).
      destruct (dealer_draws deck _) as [[h' d'] |]; [| exact I]. cbn [on_ok fst snd] in *.
      destruct IH as (Hb & drawn & -> & Hn). split; [exact Hb |].
      exists (c :: drawn). split; [reflexivity |].
      rewrite Hn, hnames_reset_ace_value, hnames_add_card, <- app_assoc. reflexivity.
    + cbn. split; [lia |]. exists []. split; [reflexivity | rewrite app_nil_r; reflexivity].
Qed.

(** From 16 the dealer draws a King: 26. *)
Lemma dealer_ends_between_17_and_26_witness :
  dealer_draws [king_spades; two_clubs] (dealt six_clubs ten_clubs)
  = Ok (mkHand [six_clubs; ten_clubs; king_spades] 26 false, [two_clubs])
  /\ on_ok (fun r => 17 <= value (fst r) <= 26
                     /\ exists drawn, [king_spades; two_clubs] = drawn ++ snd r
                          /\ hnames (fst r)
                             = hnames (dealt six_clubs ten_clubs) ++ map name drawn)
           (dealer_draws [king_spades; two_clubs] (dealt six_clubs ten_clubs)).
Proof.
  split; [reflexivity |].
  apply (dealer_ends_between_17_and_26 [king_spades; two_clubs]
           (dealt six_clubs ten_clubs)).
  - constructor; [cbv; intuition congruence
                 | constructor; [cbv; intuition congruence | constructor]].
  - cbv. discriminate.
Defined.

(** ** The end of a round *)

Lemma ask_player_result (inp : list line) (p : Player) :
  on_ok (fun r => fst r = p \/ fst r = cash_out p) (ask_player p inp).
Proof.
  induction inp as [| l inp IH]; [exact I |]. cbn [ask_player].
  destruct (upper l); try exact IH; cbn; auto.
Qed.

Lemma ask_players_result (players : list Player) :
  forall (inp : list line),
    on_ok (fun r => Forall2 (fun p p' => p' = p \/ p' = cash_out p) players (fst r))
          (ask_players players inp).
Proof.
  induction players as [| p ps IH]; intro inp; [constructor |]. cbn [ask_players].
  pose proof (ask_player_result inp p) as Hp.
  destruct (ask_player p inp) as [[p' i1] |]; [| exact I]. cbn [bind].
  specialize (IH i1). destruct (ask_players ps i1) as [[ps' i2] |]; [| exact I].
  cbn in *. constructor; assumption.
Qed.

Lemma Forall2_In_r {A B : Type} (R : A -> B -> Prop) (l : list A) (l' : list B) (b : B) :
  Forall2 R l l' -> In b l' -> exists a, In a l /\ R a b.
Proof.
  induction 1 as [| x y l l' Hxy _ IH]; [intros [] |].
  intros [<- | Hin]; [exists x; split; [left; reflexivity | exact Hxy] |].
  destruct (IH Hin) as (a & Ha & HR). exists a. split; [right; exact Ha | exact HR].
Qed.

(** X10.  The players who go on to the next round are players of this
    round, unchanged, who still have a bankroll other than zero and did not
    cash out - however many went bankrupt at once; and when every bankroll
    is zero nobody is asked anything. *)
Theorem end_round_keeps_the_solvent (players : list Player) (inp : list line) :
  on_ok (fun r => Forall (fun p => In p players /\ money p <> 0 /\ cashout p = false)
                         (fst r))
        (end_round players inp)
  /\ (Forall (fun p => money p = 0) players -> end_round players inp = Ok ([], inp)).
Proof.
  unfold end_round, remove_bankrupt_players. split.
  - set (solvent := filter (fun player => negb (money player =? 0)) players).
    assert (Hsolvent : forall p, In p solvent -> In p players /\ money p <> 0).
    { intros p Hp. apply filter_In in Hp as [Hin Hm]. split; [exact Hin |].
      apply negb_true_iff, Z.eqb_neq in Hm. exact Hm. }
    destruct solvent as [| q qs] eqn:E; [constructor |]. rewrite <- E in *.
    unfold ask_to_continue. pose proof (ask_players_result solvent inp) as Ha.
    destruct (ask_players solvent inp) as [[ps' i'] |]; [| exact I].
    cbn [bind on_ok fst] in *. apply Forall_forall. intros p Hp.
    apply filter_In in Hp as [Hin Hc]. apply negb_true_iff in Hc.
    destruct (Forall2_In_r _ _ _ _ Ha Hin) as (a & Hain & [-> | ->]).
    + destruct (Hsolvent _ Hain). auto.
    + discriminate.
  - intro Hall.
    replace (filter _ players) with (@nil Player); [reflexivity |].
    symmetry. induction Hall as [| p ps Hp _ IH]; [reflexivity |].
    cbn [filter]. rewrite Hp. exact IH.
Qed.

(** Ann and Bob are bankrupt, Cleo answers "n" after a mistyped line, Dan
    answers "y". *)
Lemma end_round_keeps_the_solvent_witness :
  end_round [set_money (Player_init "Ann") 0; set_money (Player_init "Bob") 0;
             Player_init "Cleo"; Player_init "Dan"]
            [Key KOther; Key KN; Key KY; Num 10]
  = Ok ([Player_init "Dan"], [Num 10])
  /\ end_round [set_money (Player_init "Ann") 0; set_money (Player_init "Bob") 0]
               [Key KY]
     = Ok ([], [Key KY]).
Proof.
  split; [reflexivity |].
  apply (end_round_keeps_the_solvent
           [set_money (Player_init "Ann") 0; set_money (Player_init "Bob") 0] [Key KY]).
  repeat constructor.
Defined.

(** ** A natural blackjack is paid once *)

Lemma Forall2_nth {A B : Type} (R : A -> B -> Prop) (l : list A) (l' : list B)
      (n : nat) (a : A) :
  Forall2 R l l' -> nth_error l n = Some a ->
  exists b, nth_error l' n = Some b /\ R a b.
Proof.
  intro H. revert n. induction H as [| x y l l' Hxy _ IH]; intros n Hn.
  - destruct n; discriminate.
  - destruct n as [| n]; cbn [nth_error] in *.
    + injection Hn as <-. eauto.
    + apply IH, Hn.
Qed.

Lemma players_turns_each (players : list Player) :
  forall (players' : list Player) (deck deck' : Deck) (inp inp' : list line),
    players_turns players deck inp = Ok (players', deck', inp') ->
    Forall2 (fun p p' => exists d i d1 i1, player_turn p d i = Ok (p', d1, i1))
            players players'.
Proof.
  induction players as [| p ps IH]; intros players' deck deck' inp inp' H.
  - cbn in H. injection H as <- _ _. constructor.
  - cbn [players_turns] in H.
    destruct (player_turn p deck inp) as [[[p' d1] i1] |] eqn:E1; [| discriminate].
    cbn [bind] in H.
    destruct (players_turns ps d1 i1) as [[[ps' d2] i2] |] eqn:E2; [| discriminate].
    cbn [bind] in H. injection H as <- _ _.
    constructor; [eauto | apply (IH _ _ _ _ _ E2)].
Qed.

Lemma dealer_turn_not_standing (players players' : list Player) (dealer dealer' : Dealer)
      (deck deck' : Deck) :
  dealer_turn players dealer deck = Ok (players', dealer', deck') ->
  Forall2 (fun p p' => stand p = false -> p' = p) players players'.
Proof.
  unfold dealer_turn. destruct (existsb _ players).
  2:{ intro H. injection H as <- _ _. clear.
      induction players; constructor; auto. }
  unfold resolve_dealer_hand.
  destruct (dealer_draws deck (dhand dealer)) as [[h d'] |]; [| discriminate].
  cbn [bind]. destruct (LIMIT <? value h).
  - destruct (payout_after_dealer_bust players) as [l |] eqn:El; [| discriminate].
    cbn [bind]. intro H. injection H as <- _ _. apply mapM_Forall2 in El.
    revert El. apply Forall2_impl. intros p p' Hp Hs.
    destruct (not_standing_not_settled p dealer Hs) as [H1 _].
    rewrite H1 in Hp. injection Hp as <-. reflexivity.
  - destruct (compare_multiple_hands players (mkDealer h)) as [l |] eqn:El; [| discriminate].
    cbn [bind]. intro H. injection H as <- _ _. apply mapM_Forall2 in El.
    revert El. apply Forall2_impl. intros p p' Hp Hs.
    destruct (not_standing_not_settled p (mkDealer h) Hs) as [_ H2].
    rewrite H2 in Hp. injection Hp as <-. reflexivity.
Qed.

(** X11.  Against a dealer without a natural blackjack, a player dealt a
    natural blackjack ends the round with exactly one payment, the wager
    plus [int(1.5 * wager)]: the player takes no decision, and the dealer's
    turn, which passes over players who are not standing, pays nothing more. *)
Theorem natural_is_paid_once
        (players players' : list Player) (dealer dealer' : Dealer) (deck deck' : Deck)
        (inp inp' : list line) (n : nat) (p : Player) :
  blackjack (check_blackjack (dhand dealer)) = false ->
  play_hands players dealer deck inp = Ok (players', dealer', deck', inp') ->
  nth_error players n = Some p -> blackjack (hand p) = true -> stand p = false ->
  exists winnings,
    natural_winnings (wager p) = Ok winnings
    /\ nth_error players' n = Some (set_money p (money p + winnings)).
Proof.
  intros Hd H Hn Hb Hs. unfold play_hands in H.
  destruct (natural_check players dealer) as [[ps1 dl1] |] eqn:E1; [| discriminate].
  cbn [bind] in H.
  destruct (players_turns ps1 deck inp) as [[[ps2 d2] i2] |] eqn:E2; [| discriminate].
  cbn [bind] in H.
  destruct (dealer_turn ps2 dl1 d2) as [[[ps3 dl3] d3] |] eqn:E3; [| discriminate].
  cbn [bind] in H. injection H as <- _ _ _.
  assert (Hpay : payout_natural_blackjacks players = Ok ps1).
  { unfold natural_check in E1. destruct (reveal_faceup dealer); [| discriminate].
    cbn [bind] in E1. destruct (peek_condition _).
    - cbn [dhand] in E1. rewrite Hd in E1.
      destruct (payout_natural_blackjacks players); [| discriminate].
      cbn [bind] in E1. injection E1 as <- _. reflexivity.
    - destruct (payout_natural_blackjacks players); [| discriminate].
      cbn [bind] in E1. injection E1 as <- _. reflexivity. }
  apply mapM_Forall2 in Hpay.
  destruct (Forall2_nth _ _ _ _ _ Hpay Hn) as (p1 & Hn1 & Hp1).
  unfold payout_natural_blackjack in Hp1. rewrite Hb in Hp1.
  destruct (natural_winnings (wager p)) as [winnings |]; [| discriminate].
  cbn [bind] in Hp1. injection Hp1 as <-. exists winnings. split; [reflexivity |].
  destruct (Forall2_nth _ _ _ _ _ (players_turns_each _ _ _ _ _ _ E2) Hn1)
    as (p2 & Hn2 & dq & iq & dq1 & iq1 & Hp2).
  rewrite player_turn_skipped in Hp2 by (left; exact Hb). injection Hp2 as <- _ _.
  destruct (Forall2_nth _ _ _ _ _ (dealer_turn_not_standing _ _ _ _ _ _ E3) Hn2)
    as (p3 & Hn3 & Hp3).
  rewrite Hn3, (Hp3 Hs). reflexivity.
Qed.

(** Ann holds Ace and King with 10 staked; Bob stands on 17 and the dealer
    draws to 19.  Ann has 990 + 25. *)
Lemma natural_is_paid_once_witness :
  play_hands [seated "Ann" 10 ace_hearts king_spades;
              seated "Bob" 20 nine_spades eight_hearts]
             (mkDealer (add_card (add_card Hand_init six_clubs) ten_clubs))
             [mkCard "3♦" 3; two_clubs] [Key KS]
  = Ok ([set_money (seated "Ann" 10 ace_hearts king_spades) 1015;
         mkPlayer "Bob" 980 false (dealt nine_spades eight_hearts) 20 true None None],
        mkDealer (mkHand [six_clubs; ten_clubs; mkCard "3♦" 3] 19 false),
        [two_clubs], [])
  /\ exists winnings,
       natural_winnings (wager (seated "Ann" 10 ace_hearts king_spades)) = Ok winnings
       /\ nth_error
            [set_money (seated "Ann" 10 ace_hearts king_spades) 1015;
             mkPlayer "Bob" 980 false (dealt nine_spades eight_hearts) 20 true None None]
            0
          = Some (set_money (seated "Ann" 10 ace_hearts king_spades)
                            (money (seated "Ann" 10 ace_hearts king_spades) + winnings)).
Proof.
  split; [reflexivity |].
  apply (natural_is_paid_once
           [seated "Ann" 10 ace_hearts king_spades;
            seated "Bob" 20 nine_spades eight_hearts] _
           (mkDealer (add_card (add_card Hand_init six_clubs) ten_clubs))
           (mkDealer (mkHand [six_clubs; ten_clubs; mkCard "3♦" 3] 19 false))
           [mkCard "3♦" 3; two_clubs] [two_clubs] [Key KS] [] 0);
    reflexivity.
Defined.

(** ** Amounts that are refused *)

Lemma make_bet_refused (p : Player) (refused : list Z) (inp : list line) :
  Forall (fun x => money p < x) refused ->
  make_bet p (map Num refused ++ inp) = make_bet p inp.
Proof.
  induction 1 as [| x xs Hx _ IH]; [reflexivity |].
  cbn [map app make_bet int_of_line bind].
  apply validate_wager_spec in Hx. rewrite Hx. exact IH.
Qed.

Lemma double_down_refused (p : Player) (hd : which) (deck : Deck) (wg : Z)
      (refused : list Z) (inp : list line) :
  Forall (fun x => Z.min wg (money p) < x) refused ->
  double_down p hd deck wg (map Num refused ++ inp) = double_down p hd deck wg inp.
Proof.
  induction 1 as [| x xs Hx _ IH]; [reflexivity |].
  cbn [map app double_down int_of_line bind].
  apply validate_wager_spec in Hx. rewrite Hx. exact IH.
Qed.

(** X12.  [make_bet] and [double_down] ask again after every amount above
    the maximum (the bankroll; for a double down the smaller of the wager and
    the bankroll) and take the first amount within it: [make_bet] stores it
    as the wager and takes it off the bankroll; [double_down] takes it off
    the bankroll, has the hand draw one card, marks the player standing and
    returns the wager raised by it.  Until then the player is unchanged.  A
    line that is no integer ends the program with ValueError, the end of
    the input with EOFError.  A double down can at most double the wager. *)
Theorem refused_amounts_are_asked_again
        (p : Player) (hd : which) (deck : Deck) (wg : Z) (bets adds : list Z)
        (k : key) (rest : list line) :
  Forall (fun x => money p < x) bets ->
  Forall (fun x => Z.min wg (money p) < x) adds ->
  (forall w, w <= money p ->
     make_bet p (map Num bets ++ Num w :: rest)
     = Ok (set_money (set_wager p w) (money p - w), rest))
  /\ (forall a, a <= Z.min wg (money p) ->
      double_down p hd deck wg (map Num adds ++ Num a :: rest)
      = (h <- get_hand (set_money p (money p - a)) hd ;;
         '(h', deck') <- draw_card h deck ;;
         Ok (set_stand (put_hand (set_money p (money p - a)) hd h') true,
             deck', wg + a, rest)))
  /\ make_bet p (map Num bets ++ Key k :: rest) = Err ValueError
  /\ make_bet p (map Num bets) = Err EOFError
  /\ double_down p hd deck wg (map Num adds ++ Key k :: rest) = Err ValueError
  /\ double_down p hd deck wg (map Num adds) = Err EOFError
  /\ on_ok (fun r => let '(p', _, wg', _) := r in
                     wg' - wg <= wg /\ wg' - wg <= money p /\ stand p' = true)
           (double_down p hd deck wg (map Num adds ++ rest)).
Proof.
  intros Hb Ha. split; [| split; [| split; [| split; [| split; [| split]]]]].
  - intros w Hw. rewrite (make_bet_refused p bets _ Hb).
    cbn [make_bet int_of_line bind].
    destruct (validate_wager w (money p)) eqn:E; [reflexivity |].
    apply validate_wager_spec in E. lia.
  - intros a Hle. rewrite (double_down_refused p hd deck wg adds _ Ha).
    cbn [double_down int_of_line bind].
    destruct (validate_wager a (Z.min wg (money p))) eqn:E; [reflexivity |].
    apply validate_wager_spec in E. lia.
  - rewrite (make_bet_refused p bets _ Hb). reflexivity.
  - rewrite <- (app_nil_r (map Num bets)), (make_bet_refused p bets _ Hb). reflexivity.
  - rewrite (double_down_refused p hd deck wg adds _ Ha). reflexivity.
  - rewrite <- (app_nil_r (map Num adds)), (double_down_refused p hd deck wg adds _ Ha).
    reflexivity.
  - rewrite (double_down_refused p hd deck wg adds _ Ha).
    destruct (double_down p hd deck wg rest) as [[[[p2 d2] w] r'] |] eqn:E; [| exact I].
    cbn [on_ok]. apply double_down_funds in E.
    destruct E as (Hm & H0 & Hw & _ & _ & Hs). repeat split; [exact Hw | lia | exact Hs].
Qed.

(** With 1000 in hand, 2000 and 1001 are refused and 1000 is taken.  Bob
    has 30 left and 20 at stake on 9 and 8: an additional 21 is refused, 10
    is taken, the hand draws the 2 and the wager returned is 30. *)
Lemma refused_amounts_are_asked_again_witness :
  (Forall (fun x => money (Player_init "Ann") < x) [2000; 1001]
   /\ Forall (fun x => Z.min 10 (money (Player_init "Ann")) < x) [11])
  /\ make_bet (Player_init "Ann") [Num 2000; Num 1001; Num 1000; Key KH]
     = Ok (set_money (set_wager (Player_init "Ann") 1000) 0, [Key KH])
  /\ make_bet (Player_init "Ann") (map Num [2000; 1001] ++ Key KOther :: [])
     = Err ValueError
  /\ double_down
       (mkPlayer "Bob" 30 false (dealt nine_spades eight_hearts) 20 false None None)
       First [two_clubs; king_spades] 20 [Num 21; Num 10; Key KS]
     = Ok (mkPlayer "Bob" 20 false
                    (mkHand [nine_spades; eight_hearts; two_clubs] 19 false)
                    20 true None None,
           [king_spades], 30, [Key KS]).
Proof.
  assert (Hb : Forall (fun x => money (Player_init "Ann") < x) [2000; 1001])
    by (repeat constructor).
  assert (Ha : Forall (fun x => Z.min 10 (money (Player_init "Ann")) < x) [11])
    by (repeat constructor).
  split; [split; assumption |].
  destruct (refused_amounts_are_asked_again (Player_init "Ann") First [] 10
              [2000; 1001] [11] KOther [Key KH] Hb Ha) as (Hbet & _).
  destruct (refused_amounts_are_asked_again (Player_init "Ann") First [] 10
              [2000; 1001] [11] KOther [] Hb Ha) as (_ & _ & Hkey & _).
  split; [apply (Hbet 1000); cbn; lia |].
  split; [exact Hkey |].
  assert (Hb' : Forall (fun x => money (mkPlayer "Bob" 30 false
                                          (dealt nine_spades eight_hearts) 20 false
                                          None None) < x) [])
    by constructor.
  assert (Ha' : Forall (fun x => Z.min 20 (money (mkPlayer "Bob" 30 false
                                                     (dealt nine_spades eight_hearts)
                                                     20 false None None)) < x) [21])
    by (repeat constructor).
  destruct (refused_amounts_are_asked_again
              (mkPlayer "Bob" 30 false (dealt nine_spades eight_hearts) 20 false None None)
              First [two_clubs; king_spades] 20 [] [21] KOther [Key KS] Hb' Ha')
    as (_ & Hdd & _).
  refine (eq_trans (Hdd 10 _) _); [cbn; lia | reflexivity].
Defined.

(** ** The best total, all through a turn *)

Lemma draw_card_settled (h h' : Hand) (deck deck' : Deck) :
  draw_card h deck = Ok (h', deck') -> settled h -> Forall fresh deck ->
  settled h' /\ Forall fresh deck'
  /\ List.length (cards h') = S (List.length (cards h)).
Proof.
  intros H Hs Hd. destruct (draw_card_names _ _ _ _ H) as (c & -> & Hn).
  inversion Hd as [| ? ? Hc Hd']; subst. cbn in H. injection H as <-.
  split; [apply settled_draw; assumption |]. split; [assumption |].
  apply (f_equal (@List.length string)) in Hn. unfold hnames in Hn.
  rewrite length_app, !length_map in Hn. cbn [List.length] in Hn. lia.
Qed.

Lemma double_down_settled (p p2 : Player) (hd : which) (deck d2 : Deck) (wg w : Z)
      (inp rest' : list line) :
  double_down p hd deck wg inp = Ok (p2, d2, w, rest') ->
  Forall fresh deck -> (forall h, get_hand p hd = Ok h -> settled h) ->
  Forall fresh d2
  /\ match hd with
     | First => settled (hand p2) /\ second_hand p2 = second_hand p
     | Second => hand p2 = hand p /\ exists h2, second_hand p2 = Some h2 /\ settled h2
     end.
Proof.
  induction inp as [| l inp IH]; [discriminate |]. cbn [double_down].
  destruct (int_of_line l) as [a |]; [| discriminate]. cbn [bind].
  destruct (negb (validate_wager a (Z.min wg (money p)))); [exact IH |].
  destruct (get_hand (set_money p (money p - a)) hd) as [h |] eqn:Eg; [| discriminate].
  cbn [bind]. destruct (draw_card h deck) as [[h' deck'] |] eqn:Ed; [| discriminate].
  cbn [bind]. intros H Hd Hs. injection H as <- <- _ _.
  assert (Hh : settled h) by (apply Hs; destruct hd; exact Eg).
  destruct (draw_card_settled _ _ _ _ Ed Hh Hd) as (Hs' & Hd' & _).
  split; [exact Hd' |]. destruct hd; cbn; eauto.
Qed.

Lemma first_hand_loop_settled (inp : list line) :
  forall (p p1 : Player) (deck d1 : Deck) (i1 : list line),
    first_hand_loop p deck inp = Ok (p1, d1, i1) ->
    settled (hand p) ->
    (second_hand p = None ->
     (2 <= List.length (cards (hand p)))%nat
     /\ (List.length (cards (hand p)) = 2%nat ->
         exists c1 c2, fresh c1 /\ fresh c2 /\ hand p = dealt c1 c2)) ->
    (forall h2, second_hand p = Some h2 -> settled h2) ->
    Forall fresh deck ->
    settled (hand p1) /\ (forall h2, second_hand p1 = Some h2 -> settled h2)
    /\ Forall fresh d1.
Proof.
  induction inp as [| l inp IH]; intros p p1 deck d1 i1 H Hs Hk H2 Hd.
  - cbn [first_hand_loop] in H. destruct (value (hand p) <? LIMIT); [discriminate |].
    injection H as <- <- _. auto.
  - cbn [first_hand_loop] in H. destruct (value (hand p) <? LIMIT).
    2:{ injection H as <- <- _. auto. }
    destruct (split_offered p) as [offered |] eqn:Eo; [| discriminate]. cbn [bind] in H.
    assert (Hrest : forall q dq,
      settled (hand q) ->
      (second_hand q = None ->
       (2 <= List.length (cards (hand q)))%nat
       /\ (List.length (cards (hand q)) = 2%nat ->
           exists c1 c2, fresh c1 /\ fresh c2 /\ hand q = dealt c1 c2)) ->
      (forall h2, second_hand q = Some h2 -> settled h2) ->
      Forall fresh dq ->
      match upper l with
      | KH => '(h, deck2) <- draw_card (hand q) dq ;;
              first_hand_loop (set_hand q h) deck2 inp
      | KS => Ok (set_stand q true, dq, inp)
      | KD => '(player2, deck2, w, rest') <-
                double_down q First dq (wager q) inp ;;
              Ok (set_wager player2 w, deck2, rest')
      | _ => first_hand_loop q dq inp
      end = Ok (p1, d1, i1) ->
      settled (hand p1) /\ (forall h2, second_hand p1 = Some h2 -> settled h2)
      /\ Forall fresh d1).
    { clear H. intros q dq Hqs Hqk Hq2 Hqd H.
      destruct (upper l); try (apply (IH _ _ _ _ _ H Hqs Hqk Hq2 Hqd)).
      - destruct (draw_card (hand q) dq) as [[h deck2] |] eqn:Ed; [| discriminate].
        cbn [bind] in H.
        destruct (draw_card_settled _ _ _ _ Ed Hqs Hqd) as (Hhs & Hhd & Hlen).
        apply (IH _ _ _ _ _ H); cbn [hand second_hand set_hand]; try assumption.
        intro Hn. destruct (Hqk Hn) as [Hge _]. split; [lia | intro; lia].
      - injection H as <- <- _. auto.
      - destruct (double_down q First dq (wager q) inp) as [[[[p2 d2] w] r'] |] eqn:E;
          [| discriminate].
        cbn [bind] in H. injection H as <- <- _.
        destruct (double_down_settled _ _ _ _ _ _ _ _ _ E Hqd) as (Hd2 & Hs2 & Hsh).
        + intros h Hh. injection Hh as <-. exact Hqs.
        + cbn [hand second_hand set_wager]. rewrite Hsh. auto. }
    destruct offered; [| apply (Hrest p deck Hs Hk H2 Hd H)].
    destruct (key_eqb (upper l) KP) eqn:Ek; [| apply (Hrest p deck Hs Hk H2 Hd H)].
    destruct (split_hand p deck) as [[p' d'] |] eqn:Es; [| discriminate].
    cbn [bind] in H.
    pose proof (split_offered_second_hand _ Eo) as Hnone.
    destruct (Hk Hnone) as [_ Hdealt].
    assert (Hlen : List.length (cards (hand p)) = 2%nat).
    { unfold split_offered in Eo.
      destruct (cards (hand p)) as [| c0 [| c1 [| c2 cs]]]; try discriminate. reflexivity. }
    destruct (Hdealt Hlen) as (c1 & c2 & Hf1 & Hf2 & Hp).
    pose proof (settled_split_hand p c1 c2 deck Hf1 Hf2 Hd Hp) as Hsp.
    rewrite Es in Hsp. cbn [on_ok fst] in Hsp. destruct Hsp as (Hs1 & h2' & Hsh' & Hs2').
    assert (Hd' : Forall fresh d').
    { destruct (split_hand_ok_inv _ _ _ _ Es) as (_ & _ & x1 & x2 & _ & ->).
      inversion Hd as [| ? ? _ Hd1]; subst. inversion Hd1; subst. assumption. }
    assert (H2' : forall h2, second_hand p' = Some h2 -> settled h2)
      by (intros h2 Hh2; rewrite Hsh' in Hh2; injection Hh2 as <-; exact Hs2').
    destruct (split_aces p') as [[|] |]; [| | discriminate]; cbn [bind] in H.
    + injection H as <- <- _. auto.
    + apply (Hrest p' d' Hs1); try assumption.
      rewrite Hsh'. discriminate.
Qed.

Lemma second_hand_loop_settled (inp : list line) :
  forall (p p3 : Player) (deck d3 : Deck) (i3 : list line),
    second_hand_loop p deck inp = Ok (p3, d3, i3) ->
    (forall h2, second_hand p = Some h2 -> settled h2) -> Forall fresh deck ->
    hand p3 = hand p /\ (forall h2, second_hand p3 = Some h2 -> settled h2)
    /\ Forall fresh d3.
Proof.
  induction inp as [| l inp IH]; intros p p3 deck d3 i3 H H2 Hd.
  - cbn [second_hand_loop] in H. destruct (get_hand p Second) as [h2 |]; [| discriminate].
    cbn [bind] in H. destruct (value h2 <? LIMIT); [discriminate |].
    injection H as <- <- _. auto.
  - cbn [second_hand_loop] in H.
    destruct (get_hand p Second) as [h2 |] eqn:Eg; [| discriminate].
    cbn [bind] in H. destruct (value h2 <? LIMIT).
    2:{ injection H as <- <- _. auto. }
    assert (Hh2 : settled h2).
    { apply H2. unfold get_hand in Eg. destruct (second_hand p); [| discriminate].
      injection Eg as <-. reflexivity. }
    destruct (upper l); try (apply (IH _ _ _ _ _ H H2 Hd)).
    + destruct (draw_card h2 deck) as [[h d1] |] eqn:Ed; [| discriminate].
      cbn [bind] in H.
      destruct (draw_card_settled _ _ _ _ Ed Hh2 Hd) as (Hhs & Hhd & _).
      apply (IH _ _ _ _ _ H); [| exact Hhd].
      cbn [second_hand set_second_hand]. intros x Hx. injection Hx as <-. exact Hhs.
    + injection H as <- <- _. auto.
    + destruct (int_of (second_wager p)) as [w0 |]; [| discriminate]. cbn [bind] in H.
      destruct (double_down p Second deck w0 inp) as [[[[p2 d2] w] r'] |] eqn:E;
        [| discriminate].
      cbn [bind] in H. injection H as <- <- _.
      destruct (double_down_settled _ _ _ _ _ _ _ _ _ E Hd) as (Hd2 & Hh & h2' & Hsh & Hs2).
      * intros h Hh. rewrite Eg in Hh. injection Hh as <-. exact Hh2.
      * cbn [hand second_hand set_second_wager]. split; [exact Hh |]. split; [| exact Hd2].
        intros x Hx. rewrite Hsh in Hx. injection Hx as <-. exact Hs2.
Qed.

(** X13.  All through a player's turn the cached values are best totals: a
    player who is dealt two cards of the deck and plays - hits, a split,
    double downs on either hand - over a deck of fresh cards ends with a
    first hand, and a second hand if there is one, whose value is the best
    total of its cards, each holding at most one Ace counted as 11. *)
Theorem turn_keeps_best_totals
        (p p' : Player) (c1 c2 : Card) (deck deck' : Deck) (inp inp' : list line) :
  fresh c1 -> fresh c2 -> hand p = dealt c1 c2 -> second_hand p = None ->
  Forall fresh deck ->
  player_turn p deck inp = Ok (p', deck', inp') ->
  settled (hand p') /\ (forall h2, second_hand p' = Some h2 -> settled h2)
  /\ Forall fresh deck'.
Proof.
  intros H1 H2 Hp Hn Hd H.
  assert (Hs : settled (hand p)) by (rewrite Hp; apply settled_dealt; assumption).
  assert (H2nd : forall h2, second_hand p = Some h2 -> settled h2)
    by (intros h2 Hh2; rewrite Hn in Hh2; discriminate).
  unfold player_turn in H.
  destruct (negb (blackjack (hand p)) && negb (stand p)).
  2:{ injection H as <- <- _. auto. }
  destruct (first_hand_loop p deck inp) as [[[q d1] i1] |] eqn:E1; [| discriminate].
  cbn [bind] in H.
  destruct (first_hand_loop_settled _ _ _ _ _ _ E1 Hs) as (Hq & Hq2 & Hd1);
    [| exact H2nd | exact Hd |].
  { intros _. rewrite Hp. split; [| intros _; exists c1, c2; auto].
    unfold dealt, check_blackjack, add_card. cbn [cards]. rewrite !length_app. cbn. lia. }
  destruct (after_first_hand_fields q) as (_ & _ & Hh & Hsh & _).
  rewrite <- Hh in Hq. rewrite <- Hsh in Hq2.
  destruct (truthy (second_hand (after_first_hand q))) as [h2 |].
  - destruct (first_card h2) as [c |]; [| discriminate]. cbn [bind] in H.
    destruct (negb (is_ace c)).
    + destruct (second_hand_loop (after_first_hand q) d1 i1) as [[[p3 d3] i3] |] eqn:E2;
        [| discriminate].
      cbn [bind] in H. destruct (get_hand p3 Second) as [h2' |]; [| discriminate].
      cbn [bind] in H. injection H as <- <- _.
      destruct (second_hand_loop_settled _ _ _ _ _ _ E2 Hq2 Hd1) as (Hh3 & H3 & Hd3).
      rewrite after_second_hand_second_hand.
      assert (Hhand : hand (after_second_hand p3 h2') = hand p3).
      { unfold after_second_hand.
        destruct (value h2' =? LIMIT), (LIMIT <? value h2'); cbn [stand set_stand negb];
          try reflexivity; destruct (stand p3); reflexivity. }
      rewrite Hhand, Hh3. auto.
    + injection H as <- <- _. auto.
  - injection H as <- <- _. auto.
Qed.

(** Ann is dealt Ace and 6, hits a 9 (the Ace is demoted: 16) and a 5: 21. *)
Lemma turn_keeps_best_totals_witness :
  player_turn (seated "Ann" 10 ace_spades six_clubs)
              [nine_spades; five_diamonds; king_spades] [Key KH; Key KH]
  = Ok (mkPlayer "Ann" 990 false
                 (mkHand [set_points ace_spades 1; six_clubs; nine_spades; five_diamonds]
                         21 false) 10 true None None,
        [king_spades], [])
  /\ settled (mkHand [set_points ace_spades 1; six_clubs; nine_spades; five_diamonds]
                     21 false).
Proof.
  split; [reflexivity |].
  refine (proj1 (turn_keeps_best_totals (seated "Ann" 10 ace_spades six_clubs)
           (mkPlayer "Ann" 990 false
              (mkHand [set_points ace_spades 1; six_clubs; nine_spades; five_diamonds]
                      21 false) 10 true None None)
           ace_spades six_clubs [nine_spades; five_diamonds; king_spades] [king_spades]
           [Key KH; Key KH] [] _ _ _ _ _ _)).
  - reflexivity.
  - cbv; intuition congruence.
  - reflexivity.
  - reflexivity.
  - constructor; [cbv; intuition congruence
                 | constructor; [cbv; intuition congruence
                                | constructor; [cbv; intuition congruence | constructor]]].
  - reflexivity.
Defined.
